(** * The AdHawk MindLink eye tracker of PsychoPy's ioHub

    A shallow embedding of
      psychopy/iohub/devices/eyetracker/hw/adhawk/helpers.py
      psychopy/iohub/devices/eyetracker/hw/adhawk/eyetracker.py
      psychopy/iohub/devices/eyetracker/hw/adhawk/adhawkCalibrationGraphics.py

    Python floats are IEEE 754 binary64 numbers and are modelled by Rocq's
    primitive floats, so every arithmetic expression of the source is the
    same expression here.  A Python int that only ever meets floats (the
    [0] a timer starts from, the [5] of a timeout) is written as the float
    of the same value.

    The device is driven by callbacks that the vendor SDK and the keyboard
    run while the main greenlet sleeps.  A blocking wait of the source is a
    recursion over the list of ticks the environment supplies: one tick is
    what happens during one [gevent.sleep], and the monotonic clock read
    when the sleeper wakes up.  A wait that finds no tick left is blocked:
    it has not returned yet. *)

From Stdlib Require Import ZArith List Bool String Ascii Lia.
From Stdlib Require Import Floats.PrimFloat.
From Stdlib Require Uint63.
Import ListNotations.
Local Open Scope float_scope.

(** ** Values shared by the three files *)

(** [adhawkapi.AckCodes]: the vendor's acknowledgement codes.  The source
    only ever compares a code with [AckCodes.SUCCESS]. *)
Inductive AckCode : Type :=
| SUCCESS
| NOT_SUCCESS (code : positive).

Definition is_SUCCESS (a : AckCode) : bool :=
  match a with SUCCESS => true | NOT_SUCCESS _ => false end.

(** Python's truth value of a number: [not x] holds of zero only (of both
    float zeros; a NaN is true). *)
Definition falsy (x : float) : bool := x =? 0.

(** What a call of the source ends with when it does not return a value. *)
Inductive Exception : Type :=
| ZeroDivisionError
| TypeError
| UnboundLocalError
| OverflowError.

Inductive Result (A : Type) : Type :=
| Ok (a : A)
| Raise (e : Exception).
Arguments Ok {A} a.
Arguments Raise {A} e.

(** One tick of the environment: the callbacks run during one
    [gevent.sleep], in order, and what [time.perf_counter()] reads from the
    moment the sleeper wakes up until it sleeps again. *)
Record Tick (Callback : Type) : Type := mkTick {
  delivered : list Callback;
  clock : float
}.
Arguments mkTick {Callback} delivered clock.
Arguments delivered {Callback} t.
Arguments clock {Callback} t.

(** ** helpers.py *)

Module Helpers.

(** [class EulerRotationOrder(enum.IntEnum)]: XY = 0, YX = 1. *)
Inductive EulerRotationOrder : Type := XY | YX.

Definition int_value (o : EulerRotationOrder) : Z :=
  match o with XY => 0%Z | YX => 1%Z end.

(** The values a caller can pass as [rotation_order]: Python does not
    enforce the annotation. *)
Inductive PyValue : Type :=
| PyEnum (member : EulerRotationOrder)
| PyInt (n : Z)
| PyBool (b : bool)
| PyFloat (f : float)
| PyStr (s : string)
| PyNone.

(** [value == EulerRotationOrder.member] as Python decides it.  A member of
    an IntEnum is an int: it equals the ints, bools and floats of its
    value, and nothing that is not a number. *)
Definition py_eq (value : PyValue) (member : EulerRotationOrder) : bool :=
  match value with
  | PyEnum m => (int_value m =? int_value member)%Z
  | PyInt n => (n =? int_value member)%Z
  | PyBool b => ((if b then 1 else 0) =? int_value member)%Z
  | PyFloat f => f =? (match member with XY => 0 | YX => 1 end)
  | PyStr _ => false
  | PyNone => false
  end.

(** The floating-point numbers a caller passes: Python's own [float], and
    numpy's [float64], which is what unpacking a numeric array gives.  Both
    hold a binary64 value; they differ in what [**] does when the result
    overflows. *)
Inductive FloatType : Type := builtin_float | numpy_float64.

Record Number : Type := mkNumber {
  float_type : FloatType;
  value : float
}.

Definition python (x : float) : Number := mkNumber builtin_float x.
Definition numpy (x : float) : Number := mkNumber numpy_float64 x.

Section Numpy.

(** [np.arctan2] and the value of a power are not operations of the
    primitive floats; the conversion is stated for whatever they compute.
    [np.sqrt], [+], unary [-] and [np.nan] are the primitive ones. *)
Variable arctan2 : float -> float -> float.
Variable pow : float -> Z -> float.

(** [x ** n].  On a numpy float64 the result is the value, infinite when it
    overflows (numpy warns and goes on).  On a Python float the interpreter
    raises OverflowError when the value is infinite and [x] is finite. *)
Definition power (x : Number) (n : Z) : Result float :=
  let r := pow (value x) n in
  match float_type x with
  | numpy_float64 => Ok r
  | builtin_float =>
      if is_finite (value x) && is_infinity r then Raise OverflowError else Ok r
  end.

Definition vector_to_angles (xpos ypos zpos : Number) (rotation_order : PyValue)
  : Result (float * float) :=
  let azimuth := nan in
  let elevation := nan in
  if py_eq rotation_order YX then
    let azimuth := arctan2 (value xpos) (- value zpos) in
    match power xpos 2 with
    | Raise e => Raise e
    | Ok xpos2 =>
        match power zpos 2 with
        | Raise e => Raise e
        | Ok zpos2 =>
            let elevation := arctan2 (value ypos) (sqrt (xpos2 + zpos2)) in
            Ok (azimuth, elevation)
        end
    end
  else if py_eq rotation_order XY then
    match power ypos 2 with
    | Raise e => Raise e
    | Ok ypos2 =>
        match power zpos 2 with
        | Raise e => Raise e
        | Ok zpos2 =>
            let azimuth := arctan2 (value xpos) (sqrt (ypos2 + zpos2)) in
            let elevation := arctan2 (value ypos) (- value zpos) in
            Ok (azimuth, elevation)
        end
    end
  else Ok (azimuth, elevation).

(** The default of the keyword argument. *)
Definition default_rotation_order : PyValue := PyEnum XY.

(** The call of [vector_to_angles] on the unpacked row [vectors[i]]: the row
    has to unpack into the three positional arguments. *)
Definition apply_vector_to_angles (row : list Number) (rotation_order : PyValue)
  : Result (float * float) :=
  match row with
  | [xpos; ypos; zpos] => vector_to_angles xpos ypos zpos rotation_order
  | _ => Raise TypeError
  end.

(** [outputs[i] = value], for [i] a row of [outputs]. *)
Fixpoint assign (i : nat) (value : float * float) (outputs : list (float * float))
  : list (float * float) :=
  match outputs, i with
  | [], _ => []
  | _ :: outputs, O => value :: outputs
  | row :: outputs, S i => row :: assign i value outputs
  end.

(** The body of [for i in range(vectors.shape[0])]. *)
Fixpoint vectors_loop (range : list nat) (vectors : list (list Number))
  (rotation_order : PyValue) (outputs : list (float * float))
  : Result (list (float * float)) :=
  match range with
  | [] => Ok outputs
  | i :: range =>
      match apply_vector_to_angles (nth i vectors []) rotation_order with
      | Ok angles => vectors_loop range vectors rotation_order (assign i angles outputs)
      | Raise e => Raise e
      end
  end.

(** [vectors_to_angles]; [vectors] is the array by rows.  The rows of a
    numeric array hold numpy float64 and have one length; rows of unequal
    length make an array of objects, whose rows are the lists as given, of
    Python floats. *)
Definition vectors_to_angles (vectors : list (list Number)) (rotation_order : PyValue)
  : Result (list (float * float)) :=
  let outputs := repeat (0, 0) (List.length vectors) in
  vectors_loop (seq 0 (List.length vectors)) vectors rotation_order outputs.

End Numpy.

(** [int(aruco_dic.upper().split('X')[0][-1])], the number of bits on a side
    of a marker, read off the name of the dictionary ([make_aruco_image] and
    [generate_markers] both do): the last character before the first X, as a
    digit.  [None]: Python raises (no character, or not a digit). *)
Definition upper_ascii (c : ascii) : ascii :=
  let n := nat_of_ascii c in
  if (97 <=? n)%nat && (n <=? 122)%nat then ascii_of_nat (n - 32) else c.

Fixpoint upper (s : string) : string :=
  match s with
  | EmptyString => EmptyString
  | String c s => String (upper_ascii c) (upper s)
  end.

Fixpoint before_X (s : string) : string :=
  match s with
  | EmptyString => EmptyString
  | String c s => if (c =? "X")%char then EmptyString else String c (before_X s)
  end.

Fixpoint last_char (s : string) : option ascii :=
  match s with
  | EmptyString => None
  | String c EmptyString => Some c
  | String _ s => last_char s
  end.

Definition digit (c : ascii) : option Z :=
  let n := nat_of_ascii c in
  if (48 <=? n)%nat && (n <=? 57)%nat then Some (Z.of_nat (n - 48)) else None.

Definition marker_bits (aruco_dic : string) : option Z :=
  match last_char (before_X (upper aruco_dic)) with
  | Some c => digit c
  | None => None
  end.

End Helpers.

(** ** eyetracker.py *)

Module Tracker.

(** *** The vendor SDK and the host framework, as the device sees them *)

(** [adhawkapi.PacketType], the streams the device subscribes to. *)
Inductive PacketType : Type :=
| EXTENDED_GAZE
| PER_EYE_GAZE
| GAZE_IN_SCREEN
| PUPIL_DIAMETER
| EVENTS.

(** The bound methods the device registers as stream handlers. *)
Inductive Handler : Type :=
| handle_gaze_data
| handle_binocular_gaze_data
| handle_gaze_in_screen_data
| handle_pupil_diameter
| handle_events.

(** The calls the device makes on [self._frontend_api].  The device never
    reads anything back from the object: what it does to the vendor API is
    the sequence of its calls, oldest first. *)
Inductive ApiCall : Type :=
| register_stream_handler (packet : PacketType) (handler : Handler)
| start
| shutdown
| set_stream_control (packet : PacketType) (rate : Z)
| set_event_control_BLINK
| start_camera_capture
| stop_camera_capture
| start_screen_tracking
| stop_screen_tracking
| register_screen_board (width height : float) (dictionary : string)
    (ids : list Z) (positions : list (float * float * float)).

(** What the device writes with [print2err] and [print]. *)
Inductive LogLine : Type :=
| print2err (text : string)
| print2err_errormsg (error : AckCode)
| print_camera_failure (response : AckCode).

(** [adhawkapi.Events] as the [EVENTS] stream reports them, with the first
    of the trailing arguments. *)
Inductive SdkEvent : Type :=
| BLINK (duration : float)
| OTHER_SDK_EVENT.

(** The native events the device hands to the host: the tuples built in
    [_handle_gaze_data] and [_handle_events].  Unpacking a numpy array with
    [*] copies its numbers into the tuple, so a tuple is a value. *)
Inductive NativeEvent : Type :=
| BINOCULAR_EYE_SAMPLE (timestamp vec_x vec_y vec_z vergence : float)
    (xpos ypos : float) (rx ry rz lx ly lz : float) (r_pupil l_pupil : float)
| BLINK_END (timestamp duration : float).

(** The entries of an ioHub event list. *)
Inductive EventConstant : Type := EC_BINOCULAR_EYE_SAMPLE | EC_BLINK_END.

Inductive Field : Type :=
| F_int (n : Z)
| F_float (x : float)
| F_event_type (e : EventConstant)
| UNDEFINED
| BINOCULAR_AVERAGED
| PUPIL_DIAMETER_TYPE.

(** A row of the marker table that [generate_markers] leaves in
    [self._aruco_info]; [_initiate_screen_tracking] reads these columns. *)
Record Marker : Type := mkMarker {
  aruco_id : Z;
  pos_x_cm_corner : float;
  pos_y_cm_corner : float;
  size_cm : float
}.

(** [MARKER_INFO_DEFAULT]: a table with columns and no row. *)
Definition MARKER_INFO_DEFAULT : list Marker := [].
Definition ARUCO_DIC : string := "DICT_5X5_50".
Definition MARKERS_NOT_DEFINED_MSG : string := "Markers not defined for screen tracking.".

(** [self._display_device.getCoordBounds()]: left, top, right, bottom. *)
Definition Bounds : Type := float * float * float * float.

(** The attributes of the device that the modelled methods read or write,
    under their names in the source.  [_screen_tracking] and
    [_sampling_rate] come from the runtime settings
    ([enable_screen_tracking], [sampling_rate]); [_is_reporting_events] and
    [_native_event_buffer] are the host's; [_frontend_api] is the sequence of
    calls made on the vendor API, and [log] what was printed.  A numpy cache
    is the tuple of its numbers.  [set_x v self] is [self.x = v]. *)
Record EyeTracker : Type := mkEyeTracker {
  _screen_tracking : bool;
  _sampling_rate : Z;
  _display_device : option Bounds;
  _aruco_info : list Marker;
  _screen_size : option (float * float);
  _connected : bool;
  _camera_started : bool;
  _latest_sample_timestamp : float;
  _latest_gaze_in_screen : float * float;
  _latest_binocular_gaze_data : float * float * float * float * float * float;
  _latest_pupil_diameter_data : float * float;
  _latest_sample : option (list Field);
  _latest_gaze_position : option (float * float);
  _is_reporting_events : bool;
  _native_event_buffer : list NativeEvent;
  _frontend_api : list ApiCall;
  log : list LogLine
}.

Definition set_aruco_info (v : list Marker) (self : EyeTracker) : EyeTracker :=
  {| _screen_tracking := _screen_tracking self; _sampling_rate := _sampling_rate self;
     _display_device := _display_device self; _aruco_info := v;
     _screen_size := _screen_size self; _connected := _connected self;
     _camera_started := _camera_started self;
     _latest_sample_timestamp := _latest_sample_timestamp self;
     _latest_gaze_in_screen := _latest_gaze_in_screen self;
     _latest_binocular_gaze_data := _latest_binocular_gaze_data self;
     _latest_pupil_diameter_data := _latest_pupil_diameter_data self;
     _latest_sample := _latest_sample self;
     _latest_gaze_position := _latest_gaze_position self;
     _is_reporting_events := _is_reporting_events self;
     _native_event_buffer := _native_event_buffer self; _frontend_api := _frontend_api self;
     log := log self |}.

Definition set_connected (v : bool) (self : EyeTracker) : EyeTracker :=
  {| _screen_tracking := _screen_tracking self; _sampling_rate := _sampling_rate self;
     _display_device := _display_device self; _aruco_info := _aruco_info self;
     _screen_size := _screen_size self; _connected := v;
     _camera_started := _camera_started self;
     _latest_sample_timestamp := _latest_sample_timestamp self;
     _latest_gaze_in_screen := _latest_gaze_in_screen self;
     _latest_binocular_gaze_data := _latest_binocular_gaze_data self;
     _latest_pupil_diameter_data := _latest_pupil_diameter_data self;
     _latest_sample := _latest_sample self;
     _latest_gaze_position := _latest_gaze_position self;
     _is_reporting_events := _is_reporting_events self;
     _native_event_buffer := _native_event_buffer self; _frontend_api := _frontend_api self;
     log := log self |}.

Definition set_camera_started (v : bool) (self : EyeTracker) : EyeTracker :=
  {| _screen_tracking := _screen_tracking self; _sampling_rate := _sampling_rate self;
     _display_device := _display_device self; _aruco_info := _aruco_info self;
     _screen_size := _screen_size self; _connected := _connected self; _camera_started := v;
     _latest_sample_timestamp := _latest_sample_timestamp self;
     _latest_gaze_in_screen := _latest_gaze_in_screen self;
     _latest_binocular_gaze_data := _latest_binocular_gaze_data self;
     _latest_pupil_diameter_data := _latest_pupil_diameter_data self;
     _latest_sample := _latest_sample self;
     _latest_gaze_position := _latest_gaze_position self;
     _is_reporting_events := _is_reporting_events self;
     _native_event_buffer := _native_event_buffer self; _frontend_api := _frontend_api self;
     log := log self |}.

Definition set_latest_sample_timestamp (v : float) (self : EyeTracker) : EyeTracker :=
  {| _screen_tracking := _screen_tracking self; _sampling_rate := _sampling_rate self;
     _display_device := _display_device self; _aruco_info := _aruco_info self;
     _screen_size := _screen_size self; _connected := _connected self;
     _camera_started := _camera_started self; _latest_sample_timestamp := v;
     _latest_gaze_in_screen := _latest_gaze_in_screen self;
     _latest_binocular_gaze_data := _latest_binocular_gaze_data self;
     _latest_pupil_diameter_data := _latest_pupil_diameter_data self;
     _latest_sample := _latest_sample self;
     _latest_gaze_position := _latest_gaze_position self;
     _is_reporting_events := _is_reporting_events self;
     _native_event_buffer := _native_event_buffer self; _frontend_api := _frontend_api self;
     log := log self |}.

Definition set_latest_gaze_in_screen (v : float * float) (self : EyeTracker) : EyeTracker :=
  {| _screen_tracking := _screen_tracking self; _sampling_rate := _sampling_rate self;
     _display_device := _display_device self; _aruco_info := _aruco_info self;
     _screen_size := _screen_size self; _connected := _connected self;
     _camera_started := _camera_started self;
     _latest_sample_timestamp := _latest_sample_timestamp self; _latest_gaze_in_screen := v;
     _latest_binocular_gaze_data := _latest_binocular_gaze_data self;
     _latest_pupil_diameter_data := _latest_pupil_diameter_data self;
     _latest_sample := _latest_sample self;
     _latest_gaze_position := _latest_gaze_position self;
     _is_reporting_events := _is_reporting_events self;
     _native_event_buffer := _native_event_buffer self; _frontend_api := _frontend_api self;
     log := log self |}.

Definition set_latest_binocular_gaze_data (v : float * float * float * float * float * float) (self : EyeTracker) : EyeTracker :=
  {| _screen_tracking := _screen_tracking self; _sampling_rate := _sampling_rate self;
     _display_device := _display_device self; _aruco_info := _aruco_info self;
     _screen_size := _screen_size self; _connected := _connected self;
     _camera_started := _camera_started self;
     _latest_sample_timestamp := _latest_sample_timestamp self;
     _latest_gaze_in_screen := _latest_gaze_in_screen self;
     _latest_binocular_gaze_data := v;
     _latest_pupil_diameter_data := _latest_pupil_diameter_data self;
     _latest_sample := _latest_sample self;
     _latest_gaze_position := _latest_gaze_position self;
     _is_reporting_events := _is_reporting_events self;
     _native_event_buffer := _native_event_buffer self; _frontend_api := _frontend_api self;
     log := log self |}.

Definition set_latest_pupil_diameter_data (v : float * float) (self : EyeTracker) : EyeTracker :=
  {| _screen_tracking := _screen_tracking self; _sampling_rate := _sampling_rate self;
     _display_device := _display_device self; _aruco_info := _aruco_info self;
     _screen_size := _screen_size self; _connected := _connected self;
     _camera_started := _camera_started self;
     _latest_sample_timestamp := _latest_sample_timestamp self;
     _latest_gaze_in_screen := _latest_gaze_in_screen self;
     _latest_binocular_gaze_data := _latest_binocular_gaze_data self;
     _latest_pupil_diameter_data := v; _latest_sample := _latest_sample self;
     _latest_gaze_position := _latest_gaze_position self;
     _is_reporting_events := _is_reporting_events self;
     _native_event_buffer := _native_event_buffer self; _frontend_api := _frontend_api self;
     log := log self |}.

Definition set_latest_sample (v : option (list Field)) (self : EyeTracker) : EyeTracker :=
  {| _screen_tracking := _screen_tracking self; _sampling_rate := _sampling_rate self;
     _display_device := _display_device self; _aruco_info := _aruco_info self;
     _screen_size := _screen_size self; _connected := _connected self;
     _camera_started := _camera_started self;
     _latest_sample_timestamp := _latest_sample_timestamp self;
     _latest_gaze_in_screen := _latest_gaze_in_screen self;
     _latest_binocular_gaze_data := _latest_binocular_gaze_data self;
     _latest_pupil_diameter_data := _latest_pupil_diameter_data self; _latest_sample := v;
     _latest_gaze_position := _latest_gaze_position self;
     _is_reporting_events := _is_reporting_events self;
     _native_event_buffer := _native_event_buffer self; _frontend_api := _frontend_api self;
     log := log self |}.

Definition set_latest_gaze_position (v : option (float * float)) (self : EyeTracker) : EyeTracker :=
  {| _screen_tracking := _screen_tracking self; _sampling_rate := _sampling_rate self;
     _display_device := _display_device self; _aruco_info := _aruco_info self;
     _screen_size := _screen_size self; _connected := _connected self;
     _camera_started := _camera_started self;
     _latest_sample_timestamp := _latest_sample_timestamp self;
     _latest_gaze_in_screen := _latest_gaze_in_screen self;
     _latest_binocular_gaze_data := _latest_binocular_gaze_data self;
     _latest_pupil_diameter_data := _latest_pupil_diameter_data self;
     _latest_sample := _latest_sample self; _latest_gaze_position := v;
     _is_reporting_events := _is_reporting_events self;
     _native_event_buffer := _native_event_buffer self; _frontend_api := _frontend_api self;
     log := log self |}.

Definition set_is_reporting_events (v : bool) (self : EyeTracker) : EyeTracker :=
  {| _screen_tracking := _screen_tracking self; _sampling_rate := _sampling_rate self;
     _display_device := _display_device self; _aruco_info := _aruco_info self;
     _screen_size := _screen_size self; _connected := _connected self;
     _camera_started := _camera_started self;
     _latest_sample_timestamp := _latest_sample_timestamp self;
     _latest_gaze_in_screen := _latest_gaze_in_screen self;
     _latest_binocular_gaze_data := _latest_binocular_gaze_data self;
     _latest_pupil_diameter_data := _latest_pupil_diameter_data self;
     _latest_sample := _latest_sample self;
     _latest_gaze_position := _latest_gaze_position self; _is_reporting_events := v;
     _native_event_buffer := _native_event_buffer self; _frontend_api := _frontend_api self;
     log := log self |}.

Definition set_native_event_buffer (v : list NativeEvent) (self : EyeTracker) : EyeTracker :=
  {| _screen_tracking := _screen_tracking self; _sampling_rate := _sampling_rate self;
     _display_device := _display_device self; _aruco_info := _aruco_info self;
     _screen_size := _screen_size self; _connected := _connected self;
     _camera_started := _camera_started self;
     _latest_sample_timestamp := _latest_sample_timestamp self;
     _latest_gaze_in_screen := _latest_gaze_in_screen self;
     _latest_binocular_gaze_data := _latest_binocular_gaze_data self;
     _latest_pupil_diameter_data := _latest_pupil_diameter_data self;
     _latest_sample := _latest_sample self;
     _latest_gaze_position := _latest_gaze_position self;
     _is_reporting_events := _is_reporting_events self; _native_event_buffer := v;
     _frontend_api := _frontend_api self; log := log self |}.

Definition set_frontend_api (v : list ApiCall) (self : EyeTracker) : EyeTracker :=
  {| _screen_tracking := _screen_tracking self; _sampling_rate := _sampling_rate self;
     _display_device := _display_device self; _aruco_info := _aruco_info self;
     _screen_size := _screen_size self; _connected := _connected self;
     _camera_started := _camera_started self;
     _latest_sample_timestamp := _latest_sample_timestamp self;
     _latest_gaze_in_screen := _latest_gaze_in_screen self;
     _latest_binocular_gaze_data := _latest_binocular_gaze_data self;
     _latest_pupil_diameter_data := _latest_pupil_diameter_data self;
     _latest_sample := _latest_sample self;
     _latest_gaze_position := _latest_gaze_position self;
     _is_reporting_events := _is_reporting_events self;
     _native_event_buffer := _native_event_buffer self; _frontend_api := v; log := log self
     |}.

Definition set_log (v : list LogLine) (self : EyeTracker) : EyeTracker :=
  {| _screen_tracking := _screen_tracking self; _sampling_rate := _sampling_rate self;
     _display_device := _display_device self; _aruco_info := _aruco_info self;
     _screen_size := _screen_size self; _connected := _connected self;
     _camera_started := _camera_started self;
     _latest_sample_timestamp := _latest_sample_timestamp self;
     _latest_gaze_in_screen := _latest_gaze_in_screen self;
     _latest_binocular_gaze_data := _latest_binocular_gaze_data self;
     _latest_pupil_diameter_data := _latest_pupil_diameter_data self;
     _latest_sample := _latest_sample self;
     _latest_gaze_position := _latest_gaze_position self;
     _is_reporting_events := _is_reporting_events self;
     _native_event_buffer := _native_event_buffer self; _frontend_api := _frontend_api self;
     log := v |}.

(** *** Callbacks *)

(** The calls the SDK makes into the device: [_handle_connect],
    [_handle_camera_start_response] and the five stream handlers.  The
    argument of [connect_cb] is read for its truth value only: [SUCCESS]
    stands for the false ones (no error). *)
Inductive Callback : Type :=
| connect_cb (error : AckCode)
| camera_start_response (response : AckCode)
| gaze_data (timestamp vec_x vec_y vec_z vergence : float)
| binocular_gaze_data (_timestamp rx ry rz lx ly lz : float)
| gaze_in_screen_data (_timestamp xpos ypos : float)
| pupil_diameter (_timestamp right_pupil left_pupil : float)
| events (event : SdkEvent) (timestamp : float).

(** The clock reading and the ticks still to come. *)
Definition Env : Type := float * list (Tick Callback).

Definition _max_wait_time : float := 1.

(** Python's [1e-2], as the binary64 number it denotes. *)
Definition centi : float := 0x1.47ae147ae147bp-7.

Definition api (call : ApiCall) (self : EyeTracker) : EyeTracker :=
  set_frontend_api (_frontend_api self ++ [call]) self.

Definition write (line : LogLine) (self : EyeTracker) : EyeTracker :=
  set_log (log self ++ [line]) self.

(** Modelled from the spec: the host's generic device base (psychopy.iohub.devices.Device)
    is not among the sources.  The spec names what it provides:
    [isReportingEvents], [enableEventReporting] and [_addNativeEventToBuffer];
    they read the recording flag, set it and return it, and append to the
    host's buffer of native events. *)
Definition isReportingEvents (self : EyeTracker) : bool := _is_reporting_events self.

Definition enableEventReporting (enabled : bool) (self : EyeTracker) : bool * EyeTracker :=
  let self := set_is_reporting_events enabled self in
  (_is_reporting_events self, self).

Definition _addNativeEventToBuffer (e : NativeEvent) (self : EyeTracker) : EyeTracker :=
  set_native_event_buffer (_native_event_buffer self ++ [e]) self.

Definition isConnected (self : EyeTracker) : bool := _connected self.
Definition isRecordingEnabled (self : EyeTracker) : bool := _is_reporting_events self.
Definition getLastSample (self : EyeTracker) : option (list Field) := _latest_sample self.
Definition getLastGazePosition (self : EyeTracker) : option (float * float) :=
  _latest_gaze_position self.
Definition trackerTime (self : EyeTracker) : float := _latest_sample_timestamp self.

(** *** Coordinates *)

Definition _eyeTrackerToDisplayCoords (self : EyeTracker) (eyetracker_point : float * float)
  : float * float :=
  match _display_device self with
  | None => (0, 0)
  | Some (left_, top, right_, bottom) =>
      let '(gaze_x, gaze_y) := eyetracker_point in
      let w := right_ - left_ in
      let h := top - bottom in
      let gaze_x := w * (gaze_x - 0.5) in
      let gaze_y := h * (0.5 - gaze_y) in
      (gaze_x, gaze_y)
  end.

(** Python raises on a division by a zero of its own (a display whose bounds
    have no width or no height). *)
Definition _displayToEyeTrackerCoords (self : EyeTracker) (display_x display_y : float)
  : Result (float * float) :=
  match _display_device self with
  | None => Ok (0, 0)
  | Some (left_, top, right_, bottom) =>
      let w := right_ - left_ in
      let h := top - bottom in
      if falsy w || falsy h then Raise ZeroDivisionError
      else Ok ((display_x + 0.5) / w, 0.5 - (display_y / h))
  end.

(** *** Stream handlers *)

Definition _handleNativeEvent (native_event_data : NativeEvent) (self : EyeTracker)
  : EyeTracker :=
  if isReportingEvents self then _addNativeEventToBuffer native_event_data self else self.

(** The tuple [_handle_gaze_data] builds: the new values of the primary
    channel, then the three caches unpacked. *)
Definition gaze_sample (self : EyeTracker) (timestamp vec_x vec_y vec_z vergence : float)
  : NativeEvent :=
  let '(xpos, ypos) := _latest_gaze_in_screen self in
  let '(rx, ry, rz, lx, ly, lz) := _latest_binocular_gaze_data self in
  let '(r_pupil, l_pupil) := _latest_pupil_diameter_data self in
  BINOCULAR_EYE_SAMPLE timestamp vec_x vec_y vec_z vergence
    xpos ypos rx ry rz lx ly lz r_pupil l_pupil.

Definition _handle_gaze_data (timestamp vec_x vec_y vec_z vergence : float)
  (self : EyeTracker) : EyeTracker :=
  let self := set_latest_sample_timestamp timestamp self in
  _handleNativeEvent (gaze_sample self timestamp vec_x vec_y vec_z vergence) self.

Definition _handle_binocular_gaze_data (_timestamp rx ry rz lx ly lz : float)
  (self : EyeTracker) : EyeTracker :=
  set_latest_binocular_gaze_data (rx, ry, rz, lx, ly, lz) self.

Definition _handle_gaze_in_screen_data (_timestamp xpos ypos : float) (self : EyeTracker)
  : EyeTracker :=
  let '(xpos, ypos) := _eyeTrackerToDisplayCoords self (xpos, ypos) in
  set_latest_gaze_in_screen (xpos, ypos) self.

Definition _handle_pupil_diameter (_timestamp right_pupil left_pupil : float)
  (self : EyeTracker) : EyeTracker :=
  set_latest_pupil_diameter_data (right_pupil, left_pupil) self.

Definition _handle_events (event : SdkEvent) (timestamp : float) (self : EyeTracker)
  : EyeTracker :=
  match event with
  | BLINK duration => _handleNativeEvent (BLINK_END timestamp duration) self
  | OTHER_SDK_EVENT => self
  end.

Definition _handle_connect (error : AckCode) (self : EyeTracker) : EyeTracker :=
  if is_SUCCESS error then
    let self :=
      if _screen_tracking self then
        let rate := _sampling_rate self in
        api set_event_control_BLINK
          (api (set_stream_control PUPIL_DIAMETER rate)
             (api (set_stream_control GAZE_IN_SCREEN rate)
                (api (set_stream_control PER_EYE_GAZE rate)
                   (api (set_stream_control EXTENDED_GAZE rate) self))))
      else self in
    set_connected true self
  else write (print2err_errormsg error) self.

Definition _handle_camera_start_response (response : AckCode) (self : EyeTracker)
  : EyeTracker :=
  let self := set_camera_started (is_SUCCESS response) self in
  if negb (_camera_started self) then write (print_camera_failure response) self else self.

Definition deliver (cb : Callback) (self : EyeTracker) : EyeTracker :=
  match cb with
  | connect_cb error => _handle_connect error self
  | camera_start_response response => _handle_camera_start_response response self
  | gaze_data t x y z v => _handle_gaze_data t x y z v self
  | binocular_gaze_data t rx ry rz lx ly lz =>
      _handle_binocular_gaze_data t rx ry rz lx ly lz self
  | gaze_in_screen_data t x y => _handle_gaze_in_screen_data t x y self
  | pupil_diameter t r l => _handle_pupil_diameter t r l self
  | events e t => _handle_events e t self
  end.

Definition deliver_all (cbs : list Callback) (self : EyeTracker) : EyeTracker :=
  fold_left (fun self cb => deliver cb self) cbs self.

(** *** Connection, camera, screen tracking and recording *)

(** The bounded wait of [setConnectionState] and [_start_camera]:
    [while not flag: if perf_counter() - start_time > max_wait: break;
    gevent.sleep(interval)]. *)
Fixpoint wait_for (flag : EyeTracker -> bool) (start_time now : float)
  (ticks : list (Tick Callback)) (self : EyeTracker) : option (EyeTracker * Env) :=
  if flag self then Some (self, (now, ticks))
  else if _max_wait_time <? now - start_time then Some (self, (now, ticks))
  else
    match ticks with
    | [] => None
    | t :: ticks => wait_for flag start_time (clock t) ticks (deliver_all (delivered t) self)
    end.

Definition _stop_camera (self : EyeTracker) : EyeTracker := api stop_camera_capture self.

Definition _stop_screen_tracking (self : EyeTracker) : EyeTracker :=
  api stop_screen_tracking self.

Definition _start_camera (self : EyeTracker) (env : Env) : option (EyeTracker * Env) :=
  if negb (_camera_started self) then
    let self := api start_camera_capture self in
    let '(now, ticks) := env in
    wait_for _camera_started now now ticks self
  else Some (self, env).

Definition _start_screen_tracking (self : EyeTracker) (env : Env)
  : option (EyeTracker * Env) :=
  match (if negb (_camera_started self) then _start_camera self env else Some (self, env)) with
  | None => None
  | Some (self, env) => Some (api start_screen_tracking self, env)
  end.

(** [self._screen_size[0]] raises when no screen size was ever stored. *)
Definition _initiate_screen_tracking (self : EyeTracker) : Result unit * EyeTracker :=
  match _aruco_info self with
  | [] =>
      let self := write (print2err MARKERS_NOT_DEFINED_MSG) self in
      let self := set_aruco_info MARKER_INFO_DEFAULT self in
      (Ok tt, self)
  | _ :: _ =>
      match _screen_size self with
      | None => (Raise TypeError, self)
      | Some (width, height) =>
          (Ok tt,
           api (register_screen_board width height ARUCO_DIC
                  (map aruco_id (_aruco_info self))
                  (map (fun m => (pos_x_cm_corner m * centi, pos_y_cm_corner m * centi,
                                  size_cm m * centi))
                     (_aruco_info self)))
             self)
      end
  end.

(** [None]: the wait for the connection found no tick left.  The third
    test of the [elif], [self._frontend_api], is an object and true. *)
Definition setConnectionState (enable : bool) (self : EyeTracker) (env : Env)
  : option (bool * EyeTracker * Env) :=
  if enable && negb (isConnected self) then
    let self := api (register_stream_handler EXTENDED_GAZE handle_gaze_data) self in
    let self := api (register_stream_handler PER_EYE_GAZE handle_binocular_gaze_data) self in
    let self := api (register_stream_handler GAZE_IN_SCREEN handle_gaze_in_screen_data) self in
    let self := api (register_stream_handler PUPIL_DIAMETER handle_pupil_diameter) self in
    let self := api (register_stream_handler EVENTS handle_events) self in
    let self := api start self in
    let '(now, ticks) := env in
    match wait_for _connected now now ticks self with
    | None => None
    | Some (self, env) =>
        let self :=
          if negb (isConnected self)
          then write (print2err "Couldn't connect to the Adhawk Eye Tracker") self
          else self in
        Some (_connected self, self, env)
    end
  else if negb enable && isConnected self then
    let self :=
      if _screen_tracking self then _stop_camera (_stop_screen_tracking self) else self in
    let self := api shutdown self in
    let self := set_connected false self in
    Some (_connected self, self, env)
  else Some (_connected self, self, env).

(** [None]: a wait for the camera found no tick left. *)
Definition setRecordingState (recording : bool) (self : EyeTracker) (env : Env)
  : option (Result bool * EyeTracker * Env) :=
  if recording && _connected self && _screen_tracking self then
    match _start_camera self env with
    | None => None
    | Some (self, env) =>
        match _initiate_screen_tracking self with
        | (Raise e, self) => Some (Raise e, self, env)
        | (Ok _, self) =>
            match _start_screen_tracking self env with
            | None => None
            | Some (self, env) =>
                let self := set_is_reporting_events true self in
                let '(reporting, self) := enableEventReporting true self in
                Some (Ok reporting, self, env)
            end
        end
    end
  else
    let self := _stop_camera self in
    let self := _stop_screen_tracking self in
    let self := set_latest_sample None self in
    let self := set_latest_gaze_position None self in
    let self := set_is_reporting_events false self in
    let '(reporting, self) := enableEventReporting false self in
    Some (Ok reporting, self, env).

(** [__init__]: the attributes as the constructor sets them, the connection
    attempt, then the two attributes set after it.  The recording flag comes
    from the host's device base ([auto_report_events]) and the display
    device is attached by the host; both are taken as given. *)
Definition new (enable_screen_tracking : bool) (sampling_rate : Z)
  (display_device : option Bounds) (auto_report_events : bool) : EyeTracker :=
  {| _screen_tracking := enable_screen_tracking;
     _sampling_rate := sampling_rate;
     _display_device := display_device;
     _aruco_info := MARKER_INFO_DEFAULT;
     _screen_size := None;
     _connected := false;
     _camera_started := false;
     _latest_sample_timestamp := 0;
     _latest_gaze_in_screen := (0, 0);
     _latest_binocular_gaze_data := (0, 0, 0, 0, 0, 0);
     _latest_pupil_diameter_data := (0, 0);
     _latest_sample := None;
     _latest_gaze_position := None;
     _is_reporting_events := auto_report_events;
     _native_event_buffer := [];
     _frontend_api := [];
     log := [] |}.

Definition __init__ (enable_screen_tracking : bool) (sampling_rate : Z)
  (display_device : option Bounds) (auto_report_events : bool) (env : Env)
  : option (EyeTracker * Env) :=
  let self := new enable_screen_tracking sampling_rate display_device auto_report_events in
  match setConnectionState true self env with
  | None => None
  | Some (_, self, env) =>
      let self := set_latest_sample None self in
      let self := set_latest_gaze_position None self in
      Some (self, env)
  end.

(** *** Translation into ioHub events *)

Section Translation.

Variable arctan2 : float -> float -> float.
Variable pow : float -> Z -> float.
(** [np.degrees], on one number. *)
Variable degrees : float -> float.

(** [np.degrees(vector_to_angles(x, y, z))]; the three numbers come from
    the tuple of a native event, where they were unpacked from a numpy
    array. *)
Definition gaze_angles_deg (x y z : float) : Result (float * float) :=
  match Helpers.vector_to_angles arctan2 pow (Helpers.numpy x) (Helpers.numpy y)
          (Helpers.numpy z) Helpers.default_rotation_order with
  | Ok (azimuth, elevation) => Ok (degrees azimuth, degrees elevation)
  | Raise e => Raise e
  end.

(** [_getIOHubEventObject]; [event_id] is what [Device._getNextEventID()]
    returns and [logged_time] what [Computer.getTime()] reads.  An
    exception of the conversion to angles leaves the method before anything
    is stored. *)
Definition _getIOHubEventObject (native_event_data : NativeEvent) (event_id : Z)
  (logged_time : float) (self : EyeTracker) : Result (list Field) * EyeTracker :=
  match native_event_data with
  | BLINK_END timestamp duration =>
      let blink_event :=
        [F_int 0; F_int 0; F_int 0; F_int event_id; F_event_type EC_BLINK_END;
         F_float timestamp; F_float logged_time; F_float logged_time;
         F_int 0; F_int 0; F_int 0; BINOCULAR_AVERAGED; F_float duration; F_int 0] in
      (Ok blink_event, self)
  | BINOCULAR_EYE_SAMPLE timestamp vec_x vec_y vec_z vergence xpos ypos
      rx ry rz lx ly lz r_pupil l_pupil =>
      match gaze_angles_deg rx ry rz with
      | Raise e => (Raise e, self)
      | Ok gaze_angles_deg_right =>
          match gaze_angles_deg lx ly lz with
          | Raise e => (Raise e, self)
          | Ok gaze_angles_deg_left =>
              let bino_sample :=
                [F_int 0; F_int 0; F_int 0; F_int event_id;
                 F_event_type EC_BINOCULAR_EYE_SAMPLE;
                 F_float timestamp; F_float logged_time; F_float logged_time;
                 F_int 0; F_int 0; F_int 0;
                 F_float xpos; F_float ypos; F_float (- vec_z);
                 UNDEFINED; UNDEFINED; UNDEFINED;
                 F_float (fst gaze_angles_deg_left); F_float (snd gaze_angles_deg_left);
                 UNDEFINED; UNDEFINED;
                 F_float l_pupil; PUPIL_DIAMETER_TYPE;
                 UNDEFINED; UNDEFINED; UNDEFINED; UNDEFINED; UNDEFINED; UNDEFINED;
                 UNDEFINED;
                 F_float xpos; F_float ypos; F_float vec_z;
                 UNDEFINED; UNDEFINED; UNDEFINED;
                 F_float (fst gaze_angles_deg_right); F_float (snd gaze_angles_deg_right);
                 UNDEFINED; UNDEFINED;
                 F_float r_pupil; PUPIL_DIAMETER_TYPE;
                 UNDEFINED; UNDEFINED; UNDEFINED; UNDEFINED; UNDEFINED; UNDEFINED;
                 UNDEFINED;
                 F_int 0] in
              let self := set_latest_sample (Some bino_sample) self in
              let self := set_latest_gaze_position (Some (xpos, ypos)) self in
              (Ok bino_sample, self)
          end
      end
  end.

End Translation.

(** *** Teardown *)

(** [_close]: recording off, then the connection; what it does to the class
    and to the host's base ([_INSTANCE], [super()._close()]) is left out.
    [None]: a wait found no tick left. *)
Definition _close (self : EyeTracker) (env : Env) : option (Result unit * EyeTracker * Env) :=
  match setRecordingState false self env with
  | None => None
  | Some (Raise e, self, env) => Some (Raise e, self, env)
  | Some (Ok _, self, env) =>
      match setConnectionState false self env with
      | None => None
      | Some (_, self, env) => Some (Ok tt, self, env)
      end
  end.

(** *** The marker sheet *)

(** A row of the sheet [pd.read_excel] returns: the identifier of the
    marker, the position of its centre, and the side of its whole image,
    border included.  The sheet has the side in its column [size_cm]; the
    method keeps it as [size_image_cm] and puts the side of the marker
    without the border in [size_cm]. *)
Record SheetRow : Type := mkSheetRow {
  sheet_aruco_id : Z;
  pos_x_cm : float;
  pos_y_cm : float;
  size_image_cm : float
}.

Definition set_screen_size (v : option (float * float)) (self : EyeTracker) : EyeTracker :=
  {| _screen_tracking := _screen_tracking self; _sampling_rate := _sampling_rate self;
     _display_device := _display_device self; _aruco_info := _aruco_info self;
     _screen_size := v; _connected := _connected self;
     _camera_started := _camera_started self;
     _latest_sample_timestamp := _latest_sample_timestamp self;
     _latest_gaze_in_screen := _latest_gaze_in_screen self;
     _latest_binocular_gaze_data := _latest_binocular_gaze_data self;
     _latest_pupil_diameter_data := _latest_pupil_diameter_data self;
     _latest_sample := _latest_sample self;
     _latest_gaze_position := _latest_gaze_position self;
     _is_reporting_events := _is_reporting_events self;
     _native_event_buffer := _native_event_buffer self; _frontend_api := _frontend_api self;
     log := log self |}.

(** Python's [1e-3] and [1e-1], as the binary64 numbers they denote, and the
    float of a Python int. *)
Definition milli : float := 0x1.0624dd2f1a9fcp-10.
Definition deci : float := 0x1.999999999999ap-4.
Definition float_of_int (n : Z) : float := of_uint63 (Uint63.of_Z n).

(** What stops [generate_markers]: no display device to ask for its
    dimensions, a dictionary name with no digit before its X, or [int] or
    the drawing of an image raising. *)
Inductive MarkerError : Type :=
| AttributeError
| ValueError
| DrawingError.

Section Markers.

(** The marker images are OpenCV's. *)
Variable Image : Type.

(** [make_aruco_image(ARUCO_DIC, int(img.aruco_id), int(size))] for the id
    of a marker and the size [cm2pix] computes for it: [None] when [int] or
    the drawing raises. *)
Variable draw : Z -> float -> option Image.

(** How [generate_markers] ends: the bare [return], the pair it returns
    (the sheet's own four columns by rows, and the images), or an
    exception. *)
Inductive Generated : Type :=
| no_markers
| markers (values : list (Z * float * float * float)) (aruco_images : list Image)
| raised (e : MarkerError).

(** The row of the table for a row of the sheet: the side of the marker
    without its border, and the corner in place of the centre. *)
Definition marker_of (n : Z) (row : SheetRow) : Marker :=
  let size := float_of_int (2 + n) * size_image_cm row / float_of_int (n + 4) in
  {| aruco_id := sheet_aruco_id row;
     pos_x_cm_corner := pos_x_cm row - size / 2;
     pos_y_cm_corner := pos_y_cm row - size / 2;
     size_cm := size |}.

(** The loop over [marker_info.iterrows()]. *)
Fixpoint draw_all (cm2pix : float -> float) (table : list Marker) : option (list Image) :=
  match table with
  | [] => Some []
  | img :: table =>
      match draw (aruco_id img) (cm2pix (size_cm img)) with
      | None => None
      | Some image =>
          match draw_all cm2pix table with
          | None => None
          | Some aruco_images => Some (image :: aruco_images)
          end
      end
  end.

(** [generate_markers(win_size_pix)].  [sheet] is what reading the file
    gives ([None]: FileNotFoundError); [physical] is what
    [self._display_device.getPhysicalDimensions()] returns, width and height
    in millimetres; [win_width_pix] is [win_size_pix[0]].
    [self._physical_screen_dimensions] is read by this method only and is
    not kept. *)
Definition generate_markers (sheet : option (list SheetRow)) (physical : float * float)
  (win_width_pix : float) (self : EyeTracker) : Generated * EyeTracker :=
  match sheet with
  | None | Some [] =>
      let self := write (print2err MARKERS_NOT_DEFINED_MSG) self in
      let self := set_aruco_info MARKER_INFO_DEFAULT self in
      (no_markers, self)
  | Some marker_info =>
      match _display_device self with
      | None => (raised AttributeError, self)
      | Some _ =>
          let '(width, height) := physical in
          let self := set_screen_size (Some (width * milli, height * milli)) self in
          match Helpers.marker_bits ARUCO_DIC with
          | None => (raised ValueError, self)
          | Some n =>
              let table := map (marker_of n) marker_info in
              let self := set_aruco_info table self in
              let cm2pix := fun val => val * win_width_pix / (width * deci) in
              match draw_all cm2pix table with
              | None => (raised DrawingError, self)
              | Some aruco_images =>
                  (markers
                     (map (fun row => (sheet_aruco_id row, pos_x_cm row, pos_y_cm row,
                                       size_image_cm row))
                        marker_info)
                     aruco_images,
                   self)
              end
          end
      end
  end.

End Markers.

End Tracker.

(** ** adhawkCalibrationGraphics.py *)

Module CalibrationGraphics.

(** The entries of [self._msg_queue]. *)
Inductive Msg : Type := SPACE_KEY_ACTION | QUIT.

(** A keyboard event as the listener receives it: its type and, decoded,
    its key. *)
Inductive KeyboardEvent : Type :=
| KEYBOARD_PRESS (key : string)
| KEYBOARD_RELEASE (key : string).

(** What the [EVENTS] stream reports, with the first trailing argument. *)
Inductive SdkEvent : Type :=
| PROCEDURE_ENDED (ack : AckCode)
| OTHER_SDK_EVENT.

(** The calls into the object while the main greenlet yields:
    [_handleEvent] from the keyboard device ([now] is what
    [time.perf_counter()] reads inside the handler), [_handleEvents] from
    the SDK's event stream, and [_handleCalibrationGuiResponse], the
    acknowledgement of a request. *)
Inductive Callback : Type :=
| handleEvent (event : KeyboardEvent) (now : float)
| handleEvents (event : SdkEvent)
| handleCalibrationGuiResponse (ack : AckCode).

(** The two requests [runCalibration] makes on the vendor API, both in
    fixed-head mode with 35 mm markers. *)
Inductive Request : Type :=
| autotune_gui
| start_calibration_gui (n_points : Z) (randomize : option bool).

(** What can be observed of a run, in order: the requests it issues, the
    callbacks it handles, and a polling loop left because [_should_stop()]
    returned True. *)
Inductive Obs : Type :=
| Call (request : Request)
| Recv (cb : Callback)
| ForcedExit.

(** The attributes of the calibration object that [runCalibration] and the
    callbacks read or write; [_calibration_type] and [_randomize] stand for
    the two entries of [self._calibration_args] that are read. *)
Record Graphics : Type := mkGraphics {
  _calibration_type : option string;
  _randomize : option bool;
  _autotune_ended : bool;
  _calibration_ended : bool;
  _autotune_successful : bool;
  _calibration_successful : bool;
  _timeout_time_start : float;
  _msg_queue : list Msg
}.

Definition set_autotune_ended (v : bool) (self : Graphics) : Graphics :=
  {| _calibration_type := _calibration_type self; _randomize := _randomize self;
     _autotune_ended := v; _calibration_ended := _calibration_ended self;
     _autotune_successful := _autotune_successful self;
     _calibration_successful := _calibration_successful self;
     _timeout_time_start := _timeout_time_start self; _msg_queue := _msg_queue self |}.

Definition set_calibration_ended (v : bool) (self : Graphics) : Graphics :=
  {| _calibration_type := _calibration_type self; _randomize := _randomize self;
     _autotune_ended := _autotune_ended self; _calibration_ended := v;
     _autotune_successful := _autotune_successful self;
     _calibration_successful := _calibration_successful self;
     _timeout_time_start := _timeout_time_start self; _msg_queue := _msg_queue self |}.

Definition set_autotune_successful (v : bool) (self : Graphics) : Graphics :=
  {| _calibration_type := _calibration_type self; _randomize := _randomize self;
     _autotune_ended := _autotune_ended self; _calibration_ended := _calibration_ended self;
     _autotune_successful := v; _calibration_successful := _calibration_successful self;
     _timeout_time_start := _timeout_time_start self; _msg_queue := _msg_queue self |}.

Definition set_calibration_successful (v : bool) (self : Graphics) : Graphics :=
  {| _calibration_type := _calibration_type self; _randomize := _randomize self;
     _autotune_ended := _autotune_ended self; _calibration_ended := _calibration_ended self;
     _autotune_successful := _autotune_successful self; _calibration_successful := v;
     _timeout_time_start := _timeout_time_start self; _msg_queue := _msg_queue self |}.

Definition set_timeout_time_start (v : float) (self : Graphics) : Graphics :=
  {| _calibration_type := _calibration_type self; _randomize := _randomize self;
     _autotune_ended := _autotune_ended self; _calibration_ended := _calibration_ended self;
     _autotune_successful := _autotune_successful self;
     _calibration_successful := _calibration_successful self; _timeout_time_start := v;
     _msg_queue := _msg_queue self |}.

Definition set_msg_queue (v : list Msg) (self : Graphics) : Graphics :=
  {| _calibration_type := _calibration_type self; _randomize := _randomize self;
     _autotune_ended := _autotune_ended self; _calibration_ended := _calibration_ended self;
     _autotune_successful := _autotune_successful self;
     _calibration_successful := _calibration_successful self;
     _timeout_time_start := _timeout_time_start self; _msg_queue := v |}.

(** [__init__], as far as [runCalibration] reads the attributes.  The two
    settings come from the device configuration ([calibration.type] and
    [calibration.randomize]; [None] when the key is absent). *)
Definition new (calibration_type : option string) (randomize : option bool) : Graphics :=
  {| _calibration_type := calibration_type;
     _randomize := randomize;
     _autotune_ended := false;
     _calibration_ended := false;
     _autotune_successful := false;
     _calibration_successful := false;
     _timeout_time_start := 0;
     _msg_queue := [] |}.

(** [timeout = 5  # second] *)
Definition timeout : float := 5.

Definition calibration_methods : list (string * Z) :=
  [("THREE_POINTS"%string, 3%Z); ("FIVE_POINTS"%string, 5%Z);
   ("NINE_POINTS"%string, 9%Z); ("THIRTEEN_POINTS"%string, 13%Z)].

Fixpoint dict_get (d : list (string * Z)) (key : string) : option Z :=
  match d with
  | [] => None
  | (k, v) :: d => if (k =? key)%string then Some v else dict_get d key
  end.

(** The local [num_points]: bound only when the configured type is a key
    of [calibration_methods]. *)
Definition num_points (self : Graphics) : option Z :=
  match _calibration_type self with
  | None => None
  | Some type => dict_get calibration_methods type
  end.

Definition _should_stop (self : Graphics) (now : float) : bool :=
  if falsy (_timeout_time_start self) then false
  else timeout <? now - _timeout_time_start self.

(** The [print2err] lines of the handlers are left out: nothing reads them. *)
Definition _handleEvent (event : KeyboardEvent) (now : float) (self : Graphics) : Graphics :=
  match event with
  | KEYBOARD_PRESS ek =>
      if (ek =? " ")%string || (ek =? "space")%string then
        set_msg_queue (_msg_queue self ++ [SPACE_KEY_ACTION]) self
      else if (ek =? "escape")%string then
        let self := set_timeout_time_start now self in
        set_msg_queue (_msg_queue self ++ [QUIT]) self
      else self
  | KEYBOARD_RELEASE _ => self
  end.

Definition _handleEvents (event : SdkEvent) (self : Graphics) : Graphics :=
  match event with
  | PROCEDURE_ENDED ack =>
      if negb (_autotune_ended self) then
        let self := if negb (is_SUCCESS ack) then self else set_autotune_successful true self in
        set_autotune_ended true self
      else
        let self :=
          if negb (is_SUCCESS ack) then self else set_calibration_successful true self in
        set_calibration_ended true self
  | OTHER_SDK_EVENT => self
  end.

Definition _handleCalibrationGuiResponse (ack : AckCode) (self : Graphics) : Graphics :=
  if negb (is_SUCCESS ack) then
    let self := set_autotune_ended true self in
    set_calibration_ended true self
  else self.

Definition deliver (cb : Callback) (self : Graphics) : Graphics :=
  match cb with
  | handleEvent event now => _handleEvent event now self
  | handleEvents event => _handleEvents event self
  | handleCalibrationGuiResponse ack => _handleCalibrationGuiResponse ack self
  end.

Definition deliver_all (cbs : list Callback) (self : Graphics) : Graphics :=
  fold_left (fun self cb => deliver cb self) cbs self.

Definition _getNextMsg (self : Graphics) : option Msg * Graphics :=
  match _msg_queue self with
  | [] => (None, self)
  | msg :: queue => (Some msg, set_msg_queue queue self)
  end.

(** Where a run stands when a loop or a sleep is left: the object, the
    clock and the ticks not yet consumed. *)
Record World : Type := mkWorld {
  self_of : Graphics;
  now_of : float;
  ticks_of : list (Tick Callback)
}.

(** [_showSystemSetupMessageScreen]: the prompt loop.  One round draws the
    text, takes the next message and, when there is none, pumps the host's
    devices and sleeps one heartbeat; the keyboard events the pump
    processes and the callbacks run during the sleep are the tick's
    callbacks.  [None]: no tick is left and no key has answered yet. *)
Fixpoint _showSystemSetupMessageScreen (ticks : list (Tick Callback)) (now : float)
  (self : Graphics) : list Obs * option bool * World :=
  match _getNextMsg self with
  | (Some SPACE_KEY_ACTION, self) => ([], Some true, mkWorld self now ticks)
  | (Some QUIT, self) => ([], Some false, mkWorld self now ticks)
  | (None, self) =>
      match ticks with
      | [] => ([], None, mkWorld self now [])
      | t :: ticks =>
          let '(obs, res, w) :=
            _showSystemSetupMessageScreen ticks (clock t) (deliver_all (delivered t) self) in
          (map Recv (delivered t) ++ obs, res, w)
      end
  end.

(** How a polling loop was left. *)
Inductive Exit : Type := PhaseEnded | TimedOut.

(** [while not self.<ended> and not self._should_stop():
      gevent.sleep(self.IOHUB_HEARTBEAT_INTERVAL)]
    for [<ended>] either [_autotune_ended] or [_calibration_ended].
    [None]: no tick is left and the loop is still running. *)
Fixpoint poll (ended : Graphics -> bool) (ticks : list (Tick Callback)) (now : float)
  (self : Graphics) : list Obs * option Exit * World :=
  if ended self then ([], Some PhaseEnded, mkWorld self now ticks)
  else if _should_stop self now then ([ForcedExit], Some TimedOut, mkWorld self now ticks)
  else
    match ticks with
    | [] => ([], None, mkWorld self now [])
    | t :: ticks =>
        let '(obs, exit, w) := poll ended ticks (clock t) (deliver_all (delivered t) self) in
        (map Recv (delivered t) ++ obs, exit, w)
    end.

(** The phases of the spec's CalibrationSession in which a run can wait. *)
Inductive Phase : Type := AwaitingUserStart | Yielding | Autotuning | Calibrating.

Inductive Status : Type :=
| Blocked (phase : Phase)
| Returned (value : bool)
| Raised (e : Exception).

Record Run : Type := mkRun {
  trace : list Obs;
  status : Status;
  world : World
}.

(** The calibration phase of [runCalibration], entered when
    [self._autotune_successful] holds. *)
Definition calibration_phase (w : World) : Run :=
  let self := set_timeout_time_start 0 (self_of w) in
  match num_points self with
  | None => mkRun [] (Raised UnboundLocalError) (mkWorld self (now_of w) (ticks_of w))
  | Some n =>
      let '(obs, exit, w) := poll _calibration_ended (ticks_of w) (now_of w) self in
      let obs := Call (start_calibration_gui n (_randomize self)) :: obs in
      match exit with
      | None => mkRun obs (Blocked Calibrating) w
      | Some _ => mkRun obs (Returned (_calibration_successful (self_of w))) w
      end
  end.

(** The autotune phase and what follows it. *)
Definition autotune_phase (w : World) : Run :=
  let '(obs, exit, w) := poll _autotune_ended (ticks_of w) (now_of w) (self_of w) in
  let obs := Call autotune_gui :: obs in
  match exit with
  | None => mkRun obs (Blocked Autotuning) w
  | Some _ =>
      if _autotune_successful (self_of w) then
        let r := calibration_phase w in
        mkRun (obs ++ trace r) (status r) (world r)
      else mkRun obs (Returned (_calibration_successful (self_of w))) w
  end.

(** [runCalibration].  The window calls, [_unregisterEventMonitors] and
    [_clearAllEventBuffers] touch the host only and are left out. *)
Definition runCalibration (self : Graphics) (now : float) (ticks : list (Tick Callback))
  : Run :=
  let '(obs, res, w) := _showSystemSetupMessageScreen ticks now self in
  match res with
  | None => mkRun obs (Blocked AwaitingUserStart) w
  | Some res =>
      (* gevent.sleep(self.IOHUB_HEARTBEAT_INTERVAL) *)
      match ticks_of w with
      | [] => mkRun obs (Blocked Yielding) w
      | t :: ticks =>
          let self := deliver_all (delivered t) (self_of w) in
          let obs := obs ++ map Recv (delivered t) in
          let w := mkWorld self (clock t) ticks in
          if negb res then
            (* user pressed esc key to skip the calibration *)
            let self := set_autotune_ended true self in
            let self := set_calibration_ended true self in
            mkRun obs (Returned (_calibration_successful self)) (mkWorld self (clock t) ticks)
          else
            let r := autotune_phase w in
            mkRun (obs ++ trace r) (status r) (world r)
      end
  end.

End CalibrationGraphics.

(** * Notions the properties are stated with *)

(** The first element of a list on which [f] is defined. *)
Fixpoint first_some {A B : Type} (f : A -> option B) (l : list A) : option B :=
  match l with
  | [] => None
  | a :: l => match f a with Some b => Some b | None => first_some f l end
  end.

(** The most recent value received on a channel in a sequence of callbacks
    (oldest first): the first one met going back from the end. *)
Definition latest {A B : Type} (channel : A -> option B) (cbs : list A) : option B :=
  first_some channel (rev cbs).

Module HelpersSpec.

Import Helpers.

(** Stand-ins for [np.arctan2] and for the value of a power in the
    examples: the quotient, and the square as the product of floats rounds
    it. *)
Definition quotient (y x : float) : float := y / x.
Definition square (x : float) (n : Z) : float := x * x.

(** Python's [1e200], as the binary64 number it denotes. *)
Definition huge : float := 0x1.4e718d7d7625ap+664.

(** A number whose square Python refuses to return: a finite Python float
    whose square is infinite. *)
Definition overflows (pow : float -> Z -> float) (x : Number) : bool :=
  match float_type x with
  | numpy_float64 => false
  | builtin_float => is_finite (value x) && is_infinity (pow (value x) 2%Z)
  end.

(** The angles of the formulas, for numbers whose squares are their values
    (numpy float64): by the rotation order, (NaN, NaN) for one that is
    neither XY nor YX. *)
Definition angles (arctan2 : float -> float -> float) (pow : float -> Z -> float)
  (x y z : float) (rotation_order : PyValue) : float * float :=
  if py_eq rotation_order YX then
    (arctan2 x (- z), arctan2 y (sqrt (pow x 2%Z + pow z 2%Z)))
  else if py_eq rotation_order XY then
    (arctan2 x (sqrt (pow y 2%Z + pow z 2%Z)), arctan2 y (- z))
  else (nan, nan).

(** The results of [f] on the elements of a list in order, up to the first
    exception. *)
Fixpoint all_ok {A B : Type} (f : A -> Result B) (l : list A) : Result (list B) :=
  match l with
  | [] => Ok []
  | a :: l =>
      match f a with
      | Raise e => Raise e
      | Ok b =>
          match all_ok f l with
          | Raise e => Raise e
          | Ok bs => Ok (b :: bs)
          end
      end
  end.

End HelpersSpec.

Module TrackerSpec.

Import Tracker.

(** What a callback carries for each of the three cached channels. *)
Definition gaze_in_screen_channel (cb : Callback) : option (float * float) :=
  match cb with gaze_in_screen_data _ xpos ypos => Some (xpos, ypos) | _ => None end.

Definition per_eye_gaze_channel (cb : Callback)
  : option (float * float * float * float * float * float) :=
  match cb with
  | binocular_gaze_data _ rx ry rz lx ly lz => Some (rx, ry, rz, lx, ly, lz)
  | _ => None
  end.

Definition pupil_diameter_channel (cb : Callback) : option (float * float) :=
  match cb with pupil_diameter _ right_pupil left_pupil => Some (right_pupil, left_pupil)
           | _ => None end.

(** [normalizedToDisplay(pos, bounds)] as the spec gives it: for bounds
    (left, top, right, bottom), x' = width * (gx - 0.5) and
    y' = height * (0.5 - gy); (0, 0) when there is no display. *)
Definition normalizedToDisplay (pos : float * float) (bounds : option Bounds)
  : float * float :=
  match bounds with
  | None => (0, 0)
  | Some (left_, top, right_, bottom) =>
      let '(gx, gy) := pos in
      ((right_ - left_) * (gx - 0.5), (top - bottom) * (0.5 - gy))
  end.

(** The record for a primary-gaze callback that follows the callbacks
    [before]: the new primary values; the most recent per-eye gaze and the
    most recent pupil diameters received in [before]; and the most recent
    gaze-in-screen position received in [before] taken to display
    coordinates by [normalizedToDisplay]; zeros for a channel that has
    received nothing. *)
Definition expected_sample (self : EyeTracker) (before : list Callback)
  (timestamp vec_x vec_y vec_z vergence : float) : NativeEvent :=
  let '(xpos, ypos) :=
    match latest gaze_in_screen_channel before with
    | Some received => normalizedToDisplay received (_display_device self)
    | None => (0, 0)
    end in
  let '(rx, ry, rz, lx, ly, lz) :=
    match latest per_eye_gaze_channel before with
    | Some received => received
    | None => (0, 0, 0, 0, 0, 0)
    end in
  let '(r_pupil, l_pupil) :=
    match latest pupil_diameter_channel before with
    | Some received => received
    | None => (0, 0)
    end in
  BINOCULAR_EYE_SAMPLE timestamp vec_x vec_y vec_z vergence
    xpos ypos rx ry rz lx ly lz r_pupil l_pupil.

(** A display of 1920 x 1080 pixels in pixel units, and one in normalised
    units. *)
Definition display_pix : Bounds := (-960, 540, 960, -540).
Definition display_norm : Bounds := (-1, 1, 1, -1).

(** A display point taken to normalised eye-tracker coordinates and back. *)
Definition display_round_trip (self : EyeTracker) (display_x display_y : float)
  : Result (float * float) :=
  match _displayToEyeTrackerCoords self display_x display_y with
  | Ok eyetracker_point => Ok (_eyeTrackerToDisplayCoords self eyetracker_point)
  | Raise e => Raise e
  end.

(** A device constructed with [enable_screen_tracking=False] whose
    connection request is answered during the first sleep of the wait. *)
Definition connected_without_screen_tracking : option (EyeTracker * Env) :=
  __init__ false 60 (Some display_pix) false (10, [mkTick [connect_cb SUCCESS] 10.5]).

Definition untracked_device : EyeTracker :=
  match connected_without_screen_tracking with
  | Some (self, _) => self
  | None => new false 60 (Some display_pix) false
  end.

Definition untracked_env : Env :=
  match connected_without_screen_tracking with
  | Some (_, env) => env
  | None => (10, [])
  end.

(** A device that records from the start, and callbacks around a
    primary-gaze callback. *)
Definition recording_device : EyeTracker := new true 60 (Some display_pix) true.

(** A recording device that has no display, and a recording device after
    the host had a sample translated. *)
Definition undisplayed_device : EyeTracker := new true 60 None true.

Definition sampled_device : EyeTracker :=
  snd (_getIOHubEventObject HelpersSpec.quotient HelpersSpec.square (fun x => x * 57.25)
         (BINOCULAR_EYE_SAMPLE 5 0 0 (-1) 1 480 270 0 0 (-1) 0.125 0 (-1) 3.5 3.25)
         1 12.5 recording_device).

Definition callbacks_before : list Callback :=
  [gaze_in_screen_data 1 0.5 0.5; pupil_diameter 2 3.5 3.25;
   binocular_gaze_data 3 0 0 (-1) 0.125 0 (-1); gaze_in_screen_data 4 0.75 0.25].

Definition callbacks_after : list Callback :=
  [gaze_in_screen_data 6 1 1; pupil_diameter 7 4 4; events (BLINK 0.25) 8].

(** All callbacks of a list of ticks, in order. *)
Definition callbacks (ticks : list (Tick Callback)) : list Callback :=
  flat_map delivered ticks.

(** The clock after a list of ticks: the reading of the last one. *)
Definition clock_after (now : float) (ticks : list (Tick Callback)) : float :=
  fold_left (fun _ t => clock t) ticks now.

(** A connection request answered without error, and a camera request
    acknowledged with SUCCESS. *)
Definition is_connect_ok (cb : Callback) : bool :=
  match cb with connect_cb SUCCESS => true | _ => false end.

Definition is_camera_ok (cb : Callback) : bool :=
  match cb with camera_start_response SUCCESS => true | _ => false end.

(** The calls that open a connection: the five stream handlers, then the
    start of the SDK. *)
Definition connect_requests : list ApiCall :=
  [register_stream_handler EXTENDED_GAZE handle_gaze_data;
   register_stream_handler PER_EYE_GAZE handle_binocular_gaze_data;
   register_stream_handler GAZE_IN_SCREEN handle_gaze_in_screen_data;
   register_stream_handler PUPIL_DIAMETER handle_pupil_diameter;
   register_stream_handler EVENTS handle_events;
   start].

(** The four streams at a rate, and the blink event. *)
Definition stream_requests (rate : Z) : list ApiCall :=
  [set_stream_control EXTENDED_GAZE rate; set_stream_control PER_EYE_GAZE rate;
   set_stream_control GAZE_IN_SCREEN rate; set_stream_control PUPIL_DIAMETER rate;
   set_event_control_BLINK].

(** What a callback makes a device ask of the SDK. *)
Definition requested_by (self : EyeTracker) (cb : Callback) : list ApiCall :=
  if is_connect_ok cb && _screen_tracking self then stream_requests (_sampling_rate self)
  else [].

(** The callbacks a recording device hands on to the host, the record of a
    blink, and the timestamp of a primary-gaze callback. *)
Definition forwards (cb : Callback) : bool :=
  match cb with
  | gaze_data _ _ _ _ _ => true
  | events (BLINK _) _ => true
  | _ => false
  end.

Definition blink_of (cb : Callback) : list NativeEvent :=
  match cb with
  | events (BLINK duration) timestamp => [BLINK_END timestamp duration]
  | _ => []
  end.

Definition is_blink_end (e : NativeEvent) : bool :=
  match e with
  | BLINK_END _ _ => true
  | BINOCULAR_EYE_SAMPLE _ _ _ _ _ _ _ _ _ _ _ _ _ _ _ => false
  end.

Definition gaze_timestamp (cb : Callback) : option float :=
  match cb with gaze_data timestamp _ _ _ _ => Some timestamp | _ => None end.

(** A tick whose clock reads more than [_max_wait_time] past a start. *)
Definition late (start_time : float) (t : Tick Callback) : bool :=
  _max_wait_time <? clock t - start_time.

(** The calls of the teardown: recording off, then the connection. *)
Definition teardown_requests (self : EyeTracker) : list ApiCall :=
  [stop_camera_capture; stop_screen_tracking]
  ++ (if _connected self then
        (if _screen_tracking self then [stop_screen_tracking; stop_camera_capture] else [])
        ++ [shutdown]
      else []).

(** A marker table with rows comes with the size of the screen. *)
Definition markers_have_screen (self : EyeTracker) : Prop :=
  _aruco_info self = [] \/ _screen_size self <> None.

(** The devices a program can hold: the one the constructor returns, and
    what the callbacks of the SDK and the methods make of such a device. *)
Inductive reachable : EyeTracker -> Prop :=
| reach_init enable_screen_tracking sampling_rate display_device auto_report_events
    env self env' :
    __init__ enable_screen_tracking sampling_rate display_device auto_report_events env
    = Some (self, env') ->
    reachable self
| reach_callback cb self : reachable self -> reachable (deliver cb self)
| reach_setConnectionState enable self env b self' env' :
    reachable self ->
    setConnectionState enable self env = Some (b, self', env') ->
    reachable self'
| reach_setRecordingState recording self env r self' env' :
    reachable self ->
    setRecordingState recording self env = Some (r, self', env') ->
    reachable self'
| reach_generate_markers (Image : Type) (draw : Z -> float -> option Image)
    sheet physical win_width_pix self :
    reachable self ->
    reachable (snd (generate_markers Image draw sheet physical win_width_pix self))
| reach_getIOHubEventObject arctan2 pow degrees native_event_data event_id logged_time self :
    reachable self ->
    reachable (snd (_getIOHubEventObject arctan2 pow degrees native_event_data event_id
                      logged_time self))
| reach_close self env r self' env' :
    reachable self -> _close self env = Some (r, self', env') -> reachable self'.

(** A sheet of two markers, a display of 520 mm by 290 mm, and a drawing
    that always succeeds. *)
Definition two_markers : list SheetRow :=
  [mkSheetRow 3 (-20) 10 4.5; mkSheetRow 7 20 10 4.5].

Definition physical_dimensions : float * float := (520, 290).

Definition draw_blank (aruco_id : Z) (size : float) : option unit := Some tt.

(** A connected device with screen tracking enabled, and ticks in which the
    camera never answers. *)
Definition connected_with_screen_tracking : option (EyeTracker * Env) :=
  __init__ true 60 (Some display_pix) false (10, [mkTick [connect_cb SUCCESS] 10.5]).

Definition tracked_device : EyeTracker :=
  match connected_with_screen_tracking with
  | Some (self, _) => self
  | None => new true 60 (Some display_pix) false
  end.

Definition ticks_no_camera : list (Tick Callback) :=
  [mkTick [] 11; mkTick [gaze_data 1 0 0 (-1) 1] 12; mkTick [] 12.5; mkTick [] 13.25;
   mkTick [] 14].

End TrackerSpec.

Module CalibrationSpec.

Import CalibrationGraphics.

(** The message a callback puts on the queue: a press of the space bar or
    of escape. *)
Definition key_msg (cb : Callback) : option Msg :=
  match cb with
  | handleEvent (KEYBOARD_PRESS key) _ =>
      if (key =? " ")%string || (key =? "space")%string then Some SPACE_KEY_ACTION
      else if (key =? "escape")%string then Some QUIT
      else None
  | _ => None
  end.

(** The clock reading of an escape press. *)
Definition escape_time (cb : Callback) : option float :=
  match cb with
  | handleEvent (KEYBOARD_PRESS key) now =>
      if (key =? "escape")%string then Some now else None
  | _ => None
  end.

Definition is_escape (o : Obs) : bool :=
  match o with
  | Recv cb => match escape_time cb with Some _ => true | None => false end
  | _ => false
  end.

(** All callbacks of a list of ticks, in order. *)
Definition callbacks (ticks : list (Tick Callback)) : list Callback :=
  flat_map delivered ticks.

(** The requests of a trace. *)
Definition requests (trace : list Obs) : list Request :=
  flat_map (fun o => match o with Call r => [r] | _ => [] end) trace.

(** The device's side of the protocol: it acknowledges a request, and it
    reports the end of a procedure, only while a requested procedure is
    outstanding.  A procedure is outstanding from its request until the
    device reports its end or refuses the request.  [None]: the trace breaks
    the protocol; [Some pending]: it keeps it, and [pending] tells whether a
    procedure is outstanding at the end. *)
Definition protocol_step (pending : bool) (o : Obs) : option bool :=
  match o with
  | Call _ => Some true
  | Recv (handleEvents (PROCEDURE_ENDED _)) => if pending then Some false else None
  | Recv (handleCalibrationGuiResponse ack) => if pending then Some (is_SUCCESS ack) else None
  | _ => Some pending
  end.

Fixpoint protocol (pending : bool) (trace : list Obs) : option bool :=
  match trace with
  | [] => Some pending
  | o :: trace =>
      match protocol_step pending o with
      | Some pending => protocol pending trace
      | None => None
      end
  end.

Definition well_behaved (trace : list Obs) : bool :=
  match protocol false trace with Some _ => true | None => false end.

(** How a phase went: the device reported the end of the procedure with
    SUCCESS, it reported a failure (or refused the request), or the loop
    was left on the timeout. *)
Inductive Outcome : Type := Success | Failure | Timeout.

Definition classify (o : Obs) : option Outcome :=
  match o with
  | Recv (handleEvents (PROCEDURE_ENDED ack)) =>
      Some (if is_SUCCESS ack then Success else Failure)
  | Recv (handleCalibrationGuiResponse ack) =>
      if is_SUCCESS ack then None else Some Failure
  | ForcedExit => Some Timeout
  | _ => None
  end.

(** The outcome of the phase a request opens: the first thing after the
    request that settles a phase. *)
Fixpoint outcome_of (is_request : Request -> bool) (trace : list Obs) : option Outcome :=
  match trace with
  | [] => None
  | Call r :: trace =>
      if is_request r then first_some classify trace else outcome_of is_request trace
  | _ :: trace => outcome_of is_request trace
  end.


Definition is_calibration (r : Request) : bool :=
  match r with autotune_gui => false | start_calibration_gui _ _ => true end.


Definition calibration_outcome (trace : list Obs) : option Outcome :=
  outcome_of is_calibration trace.

(** The escape press the timeout counts from, at the end of a trace: the
    most recent one, unless a calibration request came after it (the timer
    is cleared when the calibration phase is entered).  [0]: none. *)
Fixpoint armed_at (timer : float) (trace : list Obs) : float :=
  match trace with
  | [] => timer
  | Recv cb :: trace =>
      armed_at (match escape_time cb with Some now => now | None => timer end) trace
  | Call (start_calibration_gui _ _) :: trace => armed_at 0 trace
  | _ :: trace => armed_at timer trace
  end.

(** The four flags of the object. *)
Definition flags (self : Graphics) : bool * bool * bool * bool :=
  (_autotune_ended self, _calibration_ended self,
   _autotune_successful self, _calibration_successful self).

(** Where a run stands between its requests. *)
Inductive Stage : Type := BeforeRequests | InAutotune | InCalibration.


(** The invariant of a well-behaved run: what the flags hold at a stage,
    given whether a procedure is outstanding and the outcome the trace of
    the stage shows so far. *)
Definition Inv (stage : Stage) (pending : bool) (shown : option Outcome) (self : Graphics)
  : Prop :=
  match stage, pending with
  | BeforeRequests, false => flags self = (false, false, false, false) /\ shown = None
  | BeforeRequests, true => False
  | InAutotune, true => flags self = (false, false, false, false) /\ shown = None
  | InAutotune, false =>
      _autotune_ended self = true
      /\ _calibration_successful self = false
      /\ (_autotune_successful self = true -> _calibration_ended self = false)
      /\ shown = Some (if _autotune_successful self then Success else Failure)
  | InCalibration, true => flags self = (true, false, true, false) /\ shown = None
  | InCalibration, false =>
      _autotune_ended self = true
      /\ _calibration_ended self = true
      /\ shown = Some (if _calibration_successful self then Success else Failure)
  end.


(** Every [ForcedExit] of a trace comes after an escape press ([escaped]:
    one came before the trace). *)
Fixpoint escape_first (escaped : bool) (trace : list Obs) : bool :=
  match trace with
  | [] => true
  | ForcedExit :: trace => escaped && escape_first escaped trace
  | o :: trace => escape_first (escaped || is_escape o) trace
  end.

(** A run of [runCalibration] on the object [__init__] leaves (the device
    builds one for every [runSetupProcedure]). *)
Definition fresh_run (calibration_type : option string) (randomize : option bool)
  (now : float) (ticks : list (Tick Callback)) : Run :=
  runCalibration (new calibration_type randomize) now ticks.

(** Runs of the examples. *)
Definition press (key : string) (now : float) : Callback :=
  handleEvent (KEYBOARD_PRESS key) now.

Definition ended (ack : AckCode) : Callback := handleEvents (PROCEDURE_ENDED ack).

Definition nine_points : Graphics := new (Some "NINE_POINTS"%string) (Some true).

(** Escape answers the prompt. *)
Definition ticks_escape : list (Tick Callback) :=
  [mkTick [] 1; mkTick [press "escape" 1.5] 2; mkTick [] 3; mkTick [] 4].


(** Space, then both procedures end with SUCCESS. *)
Definition ticks_success : list (Tick Callback) :=
  [mkTick [press "space" 1.5] 2; mkTick [] 3;
   mkTick [handleCalibrationGuiResponse SUCCESS] 4; mkTick [ended SUCCESS] 5;
   mkTick [handleCalibrationGuiResponse SUCCESS] 6; mkTick [ended SUCCESS] 7].

(** Space, escape during the autotune phase, and a device that never
    answers: the polls at 8.5 (five seconds after the press) and before go
    on, the poll at 8.75 leaves the loop. *)
Definition ticks_cancel : list (Tick Callback) :=
  [mkTick [press "space" 1.5] 2; mkTick [] 3; mkTick [press "escape" 3.5] 4;
   mkTick [] 6; mkTick [] 8.5; mkTick [] 8.75; mkTick [] 9].



(** Space, escape during the autotune phase, the autotune procedure ends
    with SUCCESS half a second later, and the device is silent from then
    on. *)
Definition ticks_escape_before_success : list (Tick Callback) :=
  [mkTick [press "space" 1.5] 2; mkTick [] 3; mkTick [press "escape" 3.5] 4;
   mkTick [handleCalibrationGuiResponse SUCCESS; ended SUCCESS] 4.5;
   mkTick [handleCalibrationGuiResponse SUCCESS] 5; mkTick [] 10; mkTick [] 100000].

(** Space, then escape every four seconds with a silent device. *)
Definition ticks_escape_again : list (Tick Callback) :=
  [mkTick [press "space" 1.5] 2; mkTick [] 3; mkTick [press "escape" 3.5] 4;
   mkTick [press "escape" 7.5] 8; mkTick [] 9.5; mkTick [press "escape" 11.5] 12;
   mkTick [] 13].

(** What the prompt answers for the first message of the queue. *)
Definition answer (msg : option Msg) : option bool :=
  match msg with
  | Some SPACE_KEY_ACTION => Some true
  | Some QUIT => Some false
  | None => None
  end.

(** The callbacks that can end a wait of a run: an escape press, the report
    that a procedure ended, and the refusal of a request. *)
Definition settles (cb : Callback) : bool :=
  match cb with
  | handleEvent (KEYBOARD_PRESS key) _ => (key =? "escape")%string
  | handleEvent (KEYBOARD_RELEASE _) _ => false
  | handleEvents (PROCEDURE_ENDED _) => true
  | handleEvents OTHER_SDK_EVENT => false
  | handleCalibrationGuiResponse ack => negb (is_SUCCESS ack)
  end.

(** The requests a run has made when it stands at a status: none before
    the prompt is answered, the autotune request, or both requests, the
    second one with the number of points of the configured type and the
    randomize setting. *)
Definition requests_at (self : Graphics) (status : Status) (made : list Request) : Prop :=
  let both :=
    exists n,
      num_points self = Some n
      /\ made = [autotune_gui; start_calibration_gui n (_randomize self)] in
  match status with
  | Blocked AwaitingUserStart | Blocked Yielding => made = []
  | Blocked Autotuning => made = [autotune_gui]
  | Blocked Calibrating => both
  | Raised e => e = UnboundLocalError /\ num_points self = None /\ made = [autotune_gui]
  | Returned _ => made = [] \/ made = [autotune_gui] \/ both
  end.

(** Space, and a device that never answers. *)
Definition ticks_silent : list (Tick Callback) :=
  [mkTick [press "space" 1.5] 2; mkTick [] 3; mkTick [handleCalibrationGuiResponse SUCCESS] 4;
   mkTick [handleEvents OTHER_SDK_EVENT] 60; mkTick [] 3600].

End CalibrationSpec.

(** * Properties *)

(** ** helpers.py: [vector_to_angles] *)

Section HelpersFacts.

Import Helpers.

Variable arctan2 : float -> float -> float.
Variable pow : float -> Z -> float.

(** The two members are told apart by [==]. *)
Lemma py_eq_member (m m' : EulerRotationOrder) :
  py_eq (PyEnum m) m' = true <-> m = m'.
Proof. destruct m, m'; cbn; split; intro H; congruence. Qed.

(** Values that equal neither member: an int other than 0 and 1, a string,
    [None]. *)
Lemma py_eq_other_int (n : Z) (member : EulerRotationOrder) :
  n <> 0%Z -> n <> 1%Z -> py_eq (PyInt n) member = false.
Proof. intros H0 H1. destruct member; cbn; apply Z.eqb_neq; assumption. Qed.

Lemma py_eq_not_a_number (member : EulerRotationOrder) (s : string) :
  py_eq PyNone member = false /\ py_eq (PyStr s) member = false.
Proof. split; reflexivity. Qed.

Lemma power_numpy (x : float) (n : Z) : power pow (numpy x) n = Ok (pow x n).
Proof. reflexivity. Qed.

(** The power of a number raises exactly when the number overflows. *)
Lemma power_overflows (x : Number) :
  power pow x 2
  = if HelpersSpec.overflows pow x then Raise OverflowError else Ok (pow (value x) 2).
Proof. unfold power, HelpersSpec.overflows. destruct (float_type x); reflexivity. Qed.

(** C6: [vector_to_angles] with rotation order XY returns azimuth =
    arctan2(x, sqrt(y^2 + z^2)) and elevation = arctan2(y, -z), and with
    rotation order YX azimuth = arctan2(x, -z) and elevation =
    arctan2(y, sqrt(x^2 + z^2)), for all inputs (x, y, z) whose squared
    components do not overflow: for all numpy float64 inputs, whose squares
    are infinite then, and for Python floats as long as no component that
    the order squares is finite with an infinite square.  For a Python float
    that does, the call raises OverflowError instead of returning.  The
    angles are what [np.arctan2] returns (radians), and the result is a
    function of the four arguments alone: the embedding reads and writes no
    state.  XY is also what a call without [rotation_order] computes. *)
Theorem vector_to_angles_formulas (x y z : Number) :
  (HelpersSpec.overflows pow y = false ->
   HelpersSpec.overflows pow z = false ->
   vector_to_angles arctan2 pow x y z (PyEnum XY)
   = Ok (arctan2 (value x) (sqrt (pow (value y) 2 + pow (value z) 2)),
         arctan2 (value y) (- value z)))
  /\ (HelpersSpec.overflows pow x = false ->
      HelpersSpec.overflows pow z = false ->
      vector_to_angles arctan2 pow x y z (PyEnum YX)
      = Ok (arctan2 (value x) (- value z),
            arctan2 (value y) (sqrt (pow (value x) 2 + pow (value z) 2))))
  /\ (vector_to_angles arctan2 pow (numpy (value x)) (numpy (value y)) (numpy (value z))
        (PyEnum XY)
      = Ok (arctan2 (value x) (sqrt (pow (value y) 2 + pow (value z) 2)),
            arctan2 (value y) (- value z))
      /\ vector_to_angles arctan2 pow (numpy (value x)) (numpy (value y)) (numpy (value z))
           (PyEnum YX)
         = Ok (arctan2 (value x) (- value z),
               arctan2 (value y) (sqrt (pow (value x) 2 + pow (value z) 2))))
  /\ (HelpersSpec.overflows pow y || HelpersSpec.overflows pow z = true ->
      vector_to_angles arctan2 pow x y z (PyEnum XY) = Raise OverflowError)
  /\ (HelpersSpec.overflows pow x || HelpersSpec.overflows pow z = true ->
      vector_to_angles arctan2 pow x y z (PyEnum YX) = Raise OverflowError)
  /\ vector_to_angles arctan2 pow x y z default_rotation_order
     = vector_to_angles arctan2 pow x y z (PyEnum XY).
Proof.
  split; [|split; [|split; [|split; [|split]]]].
  - intros Y Z. unfold vector_to_angles. cbn [py_eq int_value Z.eqb].
    rewrite !power_overflows, Y, Z. reflexivity.
  - intros X Z. unfold vector_to_angles. cbn [py_eq int_value Z.eqb].
    rewrite !power_overflows, X, Z. reflexivity.
  - split; reflexivity.
  - intros H. unfold vector_to_angles. cbn [py_eq int_value Z.eqb].
    rewrite !power_overflows.
    destruct (HelpersSpec.overflows pow y); [reflexivity|].
    cbn [orb] in H. rewrite H. reflexivity.
  - intros H. unfold vector_to_angles. cbn [py_eq int_value Z.eqb].
    rewrite !power_overflows.
    destruct (HelpersSpec.overflows pow x); [reflexivity|].
    cbn [orb] in H. rewrite H. reflexivity.
  - reflexivity.
Qed.

(** C9: for every input vector (x, y, z) and every [rotation_order] that is
    neither [EulerRotationOrder.XY] nor [EulerRotationOrder.YX] (it equals
    neither, by Python's [==], which is the test the function makes),
    [vector_to_angles] returns the pair (NaN, NaN); it raises nothing,
    whatever the numbers are: no square is computed on this path. *)
Theorem vector_to_angles_unknown_order (x y z : Number) (rotation_order : PyValue) :
  py_eq rotation_order XY = false ->
  py_eq rotation_order YX = false ->
  vector_to_angles arctan2 pow x y z rotation_order = Ok (nan, nan).
Proof.
  intros Hxy Hyx. unfold vector_to_angles. rewrite Hyx, Hxy. reflexivity.
Qed.

End HelpersFacts.

Lemma vector_to_angles_formulas_witness :
  Helpers.vector_to_angles HelpersSpec.quotient HelpersSpec.square
    (Helpers.python 2.5) (Helpers.python 3) (Helpers.python (-4)) (Helpers.PyEnum Helpers.XY)
  = Ok (0.5, 0.75)
  /\ Helpers.vector_to_angles HelpersSpec.quotient HelpersSpec.square
       (Helpers.python 3) (Helpers.python 1.25) (Helpers.python (-4))
       (Helpers.PyEnum Helpers.YX)
     = Ok (0.75, 0.25)
  /\ Helpers.vector_to_angles HelpersSpec.quotient HelpersSpec.square
       (Helpers.python 0) (Helpers.python 0) (Helpers.python HelpersSpec.huge)
       (Helpers.PyEnum Helpers.YX)
     = Raise OverflowError.
Proof.
  split; [|split].
  - rewrite (proj1 (vector_to_angles_formulas HelpersSpec.quotient HelpersSpec.square
                      (Helpers.python 2.5) (Helpers.python 3) (Helpers.python (-4))));
      reflexivity.
  - rewrite (proj1 (proj2 (vector_to_angles_formulas HelpersSpec.quotient HelpersSpec.square
                             (Helpers.python 3) (Helpers.python 1.25)
                             (Helpers.python (-4)))));
      reflexivity.
  - apply (proj1 (proj2 (proj2 (proj2 (proj2
             (vector_to_angles_formulas HelpersSpec.quotient HelpersSpec.square
                (Helpers.python 0) (Helpers.python 0)
                (Helpers.python HelpersSpec.huge))))))).
    reflexivity.
Defined.

(** The claim as it stands, for all inputs, fails on Python floats: with
    the y component 1e200, whose square is infinite, the call with rotation
    order XY raises OverflowError and returns no angles; the same number as
    a numpy float64 gives angles. *)
Lemma vector_to_angles_overflow :
  Helpers.vector_to_angles HelpersSpec.quotient HelpersSpec.square
    (Helpers.python 1) (Helpers.python HelpersSpec.huge) (Helpers.python (-1))
    (Helpers.PyEnum Helpers.XY)
  = Raise OverflowError
  /\ Helpers.vector_to_angles HelpersSpec.quotient HelpersSpec.square
       (Helpers.python 1) (Helpers.python HelpersSpec.huge) (Helpers.python (-1))
       Helpers.default_rotation_order
     = Raise OverflowError
  /\ Helpers.vector_to_angles HelpersSpec.quotient HelpersSpec.square
       (Helpers.numpy 1) (Helpers.numpy HelpersSpec.huge) (Helpers.numpy (-1))
       (Helpers.PyEnum Helpers.XY)
     = Ok (0, HelpersSpec.huge).
Proof. vm_compute. repeat split. Qed.

Lemma vector_to_angles_unknown_order_witness :
  Helpers.vector_to_angles (fun _ _ => 0) (fun x _ => x) (Helpers.python 1)
    (Helpers.python 2) (Helpers.python 3) (Helpers.PyInt 2) = Ok (nan, nan)
  /\ Helpers.vector_to_angles (fun _ _ => 0) (fun x _ => x) (Helpers.python 1)
       (Helpers.python HelpersSpec.huge) (Helpers.numpy 3) Helpers.PyNone = Ok (nan, nan).
Proof.
  split.
  - apply (vector_to_angles_unknown_order (fun _ _ => 0) (fun x _ => x) (Helpers.python 1)
             (Helpers.python 2) (Helpers.python 3) (Helpers.PyInt 2));
      reflexivity.
  - apply (vector_to_angles_unknown_order (fun _ _ => 0) (fun x _ => x) (Helpers.python 1)
             (Helpers.python HelpersSpec.huge) (Helpers.numpy 3) Helpers.PyNone);
      reflexivity.
Defined.

(** ** eyetracker.py *)

Section TrackerFacts.

Import Tracker TrackerSpec.

(** Splits on the tests a handler makes. *)
Ltac handler_cases :=
  repeat match goal with
         | |- context [if ?b then _ else _] => destruct b eqn:?; cbn
         | |- context [match ?x with BLINK _ => _ | OTHER_SDK_EVENT => _ end] =>
             destruct x; cbn
         | |- context [let '(_, _) := ?p in _] => destruct p eqn:?; cbn
         end.

Ltac by_handler cb :=
  destruct cb; cbn;
  unfold _handle_connect, _handle_camera_start_response, _handle_gaze_data,
    _handle_binocular_gaze_data, _handle_gaze_in_screen_data, _handle_pupil_diameter,
    _handle_events, _handleNativeEvent, _addNativeEventToBuffer, isReportingEvents,
    api, write;
  cbn; handler_cases; try reflexivity.

(** What no callback touches. *)
Lemma deliver_frame (cb : Callback) (self : EyeTracker) :
  _display_device (deliver cb self) = _display_device self
  /\ _is_reporting_events (deliver cb self) = _is_reporting_events self
  /\ _latest_sample (deliver cb self) = _latest_sample self
  /\ _latest_gaze_position (deliver cb self) = _latest_gaze_position self
  /\ _screen_tracking (deliver cb self) = _screen_tracking self.
Proof. by_handler cb; repeat split; congruence. Qed.

Lemma deliver_all_snoc (cbs : list Callback) (cb : Callback) (self : EyeTracker) :
  deliver_all (cbs ++ [cb]) self = deliver cb (deliver_all cbs self).
Proof. unfold deliver_all. rewrite fold_left_app. reflexivity. Qed.

Lemma deliver_all_app (cbs cbs' : list Callback) (self : EyeTracker) :
  deliver_all (cbs ++ cbs') self = deliver_all cbs' (deliver_all cbs self).
Proof. unfold deliver_all. apply fold_left_app. Qed.

Lemma deliver_all_frame (cbs : list Callback) (self : EyeTracker) :
  _display_device (deliver_all cbs self) = _display_device self
  /\ _is_reporting_events (deliver_all cbs self) = _is_reporting_events self
  /\ _latest_sample (deliver_all cbs self) = _latest_sample self
  /\ _latest_gaze_position (deliver_all cbs self) = _latest_gaze_position self
  /\ _screen_tracking (deliver_all cbs self) = _screen_tracking self.
Proof.
  induction cbs as [|cb cbs IH] using rev_ind.
  - repeat split.
  - rewrite deliver_all_snoc.
    destruct (deliver_frame cb (deliver_all cbs self)) as (D & R & S & G & T).
    destruct IH as (D' & R' & S' & G' & T').
    repeat split; congruence.
Qed.

(** The host's buffer only grows. *)
Lemma deliver_buffer (cb : Callback) (self : EyeTracker) :
  exists later, _native_event_buffer (deliver cb self) = _native_event_buffer self ++ later.
Proof.
  by_handler cb;
    solve [ exists []; symmetry; apply app_nil_r | eexists; reflexivity ].
Qed.

Lemma deliver_all_buffer (cbs : list Callback) (self : EyeTracker) :
  exists later,
    _native_event_buffer (deliver_all cbs self) = _native_event_buffer self ++ later.
Proof.
  induction cbs as [|cb cbs IH] using rev_ind.
  - exists []. symmetry. apply app_nil_r.
  - rewrite deliver_all_snoc. destruct IH as [l IH].
    destruct (deliver_buffer cb (deliver_all cbs self)) as [l' H].
    exists (l ++ l'). rewrite H, IH. symmetry. apply app_assoc.
Qed.

Lemma latest_snoc {A B : Type} (channel : A -> option B) (cbs : list A) (cb : A) :
  latest channel (cbs ++ [cb])
  = match channel cb with Some v => Some v | None => latest channel cbs end.
Proof. unfold latest. rewrite rev_unit. reflexivity. Qed.

Lemma coords_same_display (self self' : EyeTracker) (p : float * float) :
  _display_device self = _display_device self' ->
  _eyeTrackerToDisplayCoords self p = _eyeTrackerToDisplayCoords self' p.
Proof. intros H. unfold _eyeTrackerToDisplayCoords. rewrite H. reflexivity. Qed.

(** Each cache after one callback: the value the callback carries on that
    channel, or what the cache held. *)
Lemma deliver_caches (cb : Callback) (self : EyeTracker) :
  _latest_gaze_in_screen (deliver cb self)
  = match gaze_in_screen_channel cb with
    | Some p => _eyeTrackerToDisplayCoords self p
    | None => _latest_gaze_in_screen self
    end
  /\ _latest_binocular_gaze_data (deliver cb self)
     = match per_eye_gaze_channel cb with
       | Some e => e
       | None => _latest_binocular_gaze_data self
       end
  /\ _latest_pupil_diameter_data (deliver cb self)
     = match pupil_diameter_channel cb with
       | Some d => d
       | None => _latest_pupil_diameter_data self
       end.
Proof. by_handler cb; repeat split; congruence. Qed.

Lemma deliver_all_caches (cbs : list Callback) (self : EyeTracker) :
  _latest_gaze_in_screen (deliver_all cbs self)
  = match latest gaze_in_screen_channel cbs with
    | Some p => _eyeTrackerToDisplayCoords self p
    | None => _latest_gaze_in_screen self
    end
  /\ _latest_binocular_gaze_data (deliver_all cbs self)
     = match latest per_eye_gaze_channel cbs with
       | Some e => e
       | None => _latest_binocular_gaze_data self
       end
  /\ _latest_pupil_diameter_data (deliver_all cbs self)
     = match latest pupil_diameter_channel cbs with
       | Some d => d
       | None => _latest_pupil_diameter_data self
       end.
Proof.
  induction cbs as [|cb cbs IH] using rev_ind.
  - repeat split.
  - rewrite deliver_all_snoc, !latest_snoc.
    destruct (deliver_caches cb (deliver_all cbs self)) as (S & E & P).
    destruct IH as (S' & E' & P').
    rewrite S, E, P. repeat split.
    + destruct (gaze_in_screen_channel cb); [|assumption].
      apply coords_same_display, deliver_all_frame.
    + destruct (per_eye_gaze_channel cb); [reflexivity|assumption].
    + destruct (pupil_diameter_channel cb); [reflexivity|assumption].
Qed.

(** C5: for every sequence of channel callbacks delivered to a device whose
    caches hold the initial zeros, the sample record built on a
    primary-gaze callback combines the new primary values (timestamp, gaze
    vector, vergence) with the most recent values received on the
    per-eye-gaze and pupil-diameter channels strictly before that callback,
    and with the most recent gaze-in-screen position received strictly
    before it taken to display coordinates, x' = width * (gx - 0.5) and
    y' = height * (0.5 - gy) for the bounds of the display and (0, 0) for a
    device without a display; the zero defaults for a channel that has
    received nothing.  No later callback has a part in it: while the device
    records, the record enters the host's buffer when the callback runs,
    and whatever callbacks follow leave it there unchanged. *)
Theorem gaze_sample_reflects_latest (self : EyeTracker) (before after : list Callback)
  (timestamp vec_x vec_y vec_z vergence : float) :
  _latest_gaze_in_screen self = (0, 0) ->
  _latest_binocular_gaze_data self = (0, 0, 0, 0, 0, 0) ->
  _latest_pupil_diameter_data self = (0, 0) ->
  gaze_sample (deliver_all before self) timestamp vec_x vec_y vec_z vergence
  = expected_sample self before timestamp vec_x vec_y vec_z vergence
  /\ (isReportingEvents self = true ->
      exists later,
        _native_event_buffer
          (deliver_all (before ++ gaze_data timestamp vec_x vec_y vec_z vergence :: after)
             self)
        = _native_event_buffer (deliver_all before self)
          ++ expected_sample self before timestamp vec_x vec_y vec_z vergence :: later).
Proof.
  intros HS HE HP.
  assert (Sample :
    gaze_sample (deliver_all before self) timestamp vec_x vec_y vec_z vergence
    = expected_sample self before timestamp vec_x vec_y vec_z vergence).
  { unfold gaze_sample, expected_sample.
    destruct (deliver_all_caches before self) as (S & E & P).
    rewrite S, E, P, HS, HE, HP. reflexivity. }
  split; [exact Sample|].
  intros Rec.
  rewrite deliver_all_app. cbn [deliver_all fold_left].
  fold (deliver_all after
          (deliver (gaze_data timestamp vec_x vec_y vec_z vergence)
             (deliver_all before self))).
  destruct (deliver_all_buffer after
              (deliver (gaze_data timestamp vec_x vec_y vec_z vergence)
                 (deliver_all before self))) as [later H].
  exists later. rewrite H. rewrite <- Sample.
  assert (R : isReportingEvents (deliver_all before self) = true).
  { unfold isReportingEvents in *.
    destruct (deliver_all_frame before self) as (_ & R & _). congruence. }
  cbn [deliver]. unfold _handle_gaze_data, _handleNativeEvent.
  unfold isReportingEvents in *. cbn. rewrite R. cbn.
  rewrite <- app_assoc. reflexivity.
Qed.

(** *** Connection *)

(** What [setConnectionState] returns is the connection flag it leaves. *)
Lemma setConnectionState_returns_flag (enable b : bool) (self self' : EyeTracker)
  (env env' : Env) :
  setConnectionState enable self env = Some (b, self', env') -> _connected self' = b.
Proof.
  unfold setConnectionState. intros H.
  destruct (enable && negb (isConnected self)).
  - destruct env as [now ticks].
    destruct (wait_for _connected now now ticks (api start _)) as [[s e]|]; [|discriminate].
    inversion H. reflexivity.
  - destruct (negb enable && isConnected self); inversion H; reflexivity.
Qed.

(** C7: [setConnectionState(True)] on a connected device changes nothing:
    the device, and with it the sequence of calls made on the vendor API, is
    the one before the call (no stream handler registered, no connect
    request issued), no tick of the environment is consumed (the polling
    wait is not entered) and the connected state is returned; so a second
    call after one that connected is idempotent.  Symmetrically
    [setConnectionState(False)] on a disconnected device makes no call (no
    shutdown) and returns False. *)
Theorem setConnectionState_idempotent (self : EyeTracker) (env : Env) :
  (isConnected self = true -> setConnectionState true self env = Some (true, self, env))
  /\ (isConnected self = false -> setConnectionState false self env = Some (false, self, env))
  /\ (forall self' env',
        setConnectionState true self env = Some (true, self', env') ->
        setConnectionState true self' env' = Some (true, self', env')).
Proof.
  assert (Again : forall s e, isConnected s = true ->
                         setConnectionState true s e = Some (true, s, e)).
  { intros s e C. unfold setConnectionState. rewrite C. cbn.
    unfold isConnected in C. rewrite C. reflexivity. }
  split; [apply Again|]. split.
  - intros C. unfold setConnectionState. rewrite C. cbn.
    unfold isConnected in C. rewrite C. reflexivity.
  - intros self' env' H. apply Again.
    exact (setConnectionState_returns_flag _ _ _ _ _ _ H).
Qed.

(** *** Screen board *)

(** C8: registering the screen board with an empty marker table does
    nothing but log the warning: the device afterwards is the device before
    with the line "Markers not defined for screen tracking." written, so no
    call at all is made on the vendor API (no [register_screen_board], and
    no [start_screen_tracking]: screen tracking is left as it was), and the
    call returns normally. *)
Theorem initiate_screen_tracking_empty_table (self : EyeTracker) :
  _aruco_info self = [] ->
  _initiate_screen_tracking self = (Ok tt, write (print2err MARKERS_NOT_DEFINED_MSG) self)
  /\ _frontend_api (snd (_initiate_screen_tracking self)) = _frontend_api self.
Proof.
  intros H. unfold _initiate_screen_tracking. rewrite H.
  destruct self; cbn in *; subst. split; reflexivity.
Qed.

(** *** Recording *)

(** The stop path of [setRecordingState], whatever the argument. *)
Lemma setRecordingState_stop (recording : bool) (self : EyeTracker) (env : Env) :
  recording && _connected self && _screen_tracking self = false ->
  setRecordingState recording self env
  = Some (Ok false,
          set_is_reporting_events false
            (set_is_reporting_events false
               (set_latest_gaze_position None
                  (set_latest_sample None (_stop_screen_tracking (_stop_camera self))))),
          env).
Proof. intros H. unfold setRecordingState. rewrite H. reflexivity. Qed.

(** C10: every call of [setRecordingState] that takes the stop path
    ([recording] false, or the device not connected, or screen tracking not
    enabled) returns having set the latest sample and the latest gaze
    position to None: [getLastSample()] and [getLastGazePosition()] return
    None right after it and after any callbacks of the SDK that follow, until
    a binocular sample is translated by [_getIOHubEventObject], which stores
    one again. *)
Theorem setRecordingState_stop_clears_latest (recording : bool) (self : EyeTracker)
  (env : Env) :
  recording && _connected self && _screen_tracking self = false ->
  exists self',
    setRecordingState recording self env = Some (Ok false, self', env)
    /\ getLastSample self' = None
    /\ getLastGazePosition self' = None
    /\ (forall cbs,
          getLastSample (deliver_all cbs self') = None
          /\ getLastGazePosition (deliver_all cbs self') = None)
    /\ (forall arctan2 pow degrees event_id logged_time
           timestamp vec_x vec_y vec_z vergence xpos ypos rx ry rz lx ly lz r_pupil l_pupil,
          let translated :=
            snd (_getIOHubEventObject arctan2 pow degrees
                   (BINOCULAR_EYE_SAMPLE timestamp vec_x vec_y vec_z vergence xpos ypos
                      rx ry rz lx ly lz r_pupil l_pupil)
                   event_id logged_time self') in
          getLastSample translated <> None
          /\ getLastGazePosition translated = Some (xpos, ypos)).
Proof.
  intros H. eexists. split; [apply setRecordingState_stop, H|].
  split; [reflexivity|]. split; [reflexivity|]. split.
  - intros cbs. unfold getLastSample, getLastGazePosition.
    match goal with
    | |- context [deliver_all cbs ?s] =>
        destruct (deliver_all_frame cbs s) as (_ & _ & S & G & _); rewrite S, G
    end.
    split; reflexivity.
  - intros. subst translated. cbn. split; [discriminate|reflexivity].
Qed.

(** With screen tracking not enabled, [setRecordingState(True)] is the stop
    path: the device does not record afterwards, and no callback that
    follows reaches the host's buffer. *)
Lemma setRecordingState_needs_screen_tracking (self : EyeTracker) (env : Env) :
  _screen_tracking self = false ->
  exists self',
    setRecordingState true self env = Some (Ok false, self', env)
    /\ isRecordingEnabled self' = false
    /\ forall cbs,
         _native_event_buffer (deliver_all cbs self') = _native_event_buffer self.
Proof.
  intros H. eexists. split.
  - apply setRecordingState_stop. rewrite H. apply andb_false_r.
  - split; [reflexivity|].
    intros cbs.
    match goal with |- context [deliver_all cbs ?s] => set (stopped := s) end.
    assert (B : _native_event_buffer stopped = _native_event_buffer self) by reflexivity.
    assert (R : _is_reporting_events stopped = false) by reflexivity.
    clearbody stopped. rewrite <- B. clear B.
    induction cbs as [|cb cbs IH] using rev_ind; [reflexivity|].
    rewrite deliver_all_snoc, <- IH.
    assert (R' : _is_reporting_events (deliver_all cbs stopped) = false).
    { destruct (deliver_all_frame cbs stopped) as (_ & R' & _). congruence. }
    revert R'. generalize (deliver_all cbs stopped). intros s R'.
    destruct cb; cbn;
      unfold _handle_connect, _handle_camera_start_response, _handle_gaze_data,
        _handle_binocular_gaze_data, _handle_gaze_in_screen_data, _handle_pupil_diameter,
        _handle_events, _handleNativeEvent, isReportingEvents, api, write;
      cbn; try rewrite R'; handler_cases; reflexivity.
Qed.

(** C1: a device constructed with [enable_screen_tracking=False] and
    connected; [setRecordingState(True)] is called and a primary-gaze sample
    and a blink follow.  The call returns False, [isRecordingEnabled()] is
    False, and neither callback is forwarded: the host's buffer stays
    empty. *)
Theorem recording_without_screen_tracking :
  match connected_without_screen_tracking with
  | Some (self, env) =>
      isConnected self = true
      /\ _screen_tracking self = false
      /\ match setRecordingState true self env with
         | Some (Ok reporting, self', _) =>
             reporting = false
             /\ isRecordingEnabled self' = false
             /\ _native_event_buffer
                  (deliver_all [gaze_data 11 0 0 (-1) 1; events (BLINK 0.25) 12] self')
                = []
         | _ => False
         end
  | None => False
  end.
Proof. vm_compute. repeat split. Qed.

(** *** Coordinates *)

(** C2: on the 1920 x 1080 display in pixel units the display point (0, 0)
    comes back from the round trip as (-959.5, 0) and (100, 200) as
    (-859.5, 200); on the display in normalised units (0, 0) comes back as
    (-0.5, 0).  The vertical coordinate returns, the horizontal one is
    shifted by half a unit minus half the width. *)
Theorem display_round_trip_shifts_x :
  display_round_trip (new true 60 (Some display_pix) false) 0 0 = Ok (-959.5, 0)
  /\ display_round_trip (new true 60 (Some display_pix) false) 100 200 = Ok (-859.5, 200)
  /\ display_round_trip (new true 60 (Some display_norm) false) 0 0 = Ok (-0.5, 0).
Proof. vm_compute. repeat split. Qed.

End TrackerFacts.

(** The record of the example: the gaze-in-screen pair is (0.75, 0.25) in
    display coordinates, (480, 270). *)
Example expected_sample_example :
  TrackerSpec.expected_sample TrackerSpec.recording_device TrackerSpec.callbacks_before
    5 0 0 (-1) 1
  = Tracker.BINOCULAR_EYE_SAMPLE 5 0 0 (-1) 1 480 270 0 0 (-1) 0.125 0 (-1) 3.5 3.25.
Proof. vm_compute. reflexivity. Qed.

Lemma gaze_sample_reflects_latest_witness :
  Tracker.gaze_sample
    (Tracker.deliver_all TrackerSpec.callbacks_before TrackerSpec.recording_device)
    5 0 0 (-1) 1
  = TrackerSpec.expected_sample TrackerSpec.recording_device TrackerSpec.callbacks_before
      5 0 0 (-1) 1
  /\ exists later,
      Tracker._native_event_buffer
        (Tracker.deliver_all
           (TrackerSpec.callbacks_before
            ++ Tracker.gaze_data 5 0 0 (-1) 1 :: TrackerSpec.callbacks_after)
           TrackerSpec.recording_device)
      = Tracker._native_event_buffer
          (Tracker.deliver_all TrackerSpec.callbacks_before TrackerSpec.recording_device)
        ++ TrackerSpec.expected_sample TrackerSpec.recording_device
             TrackerSpec.callbacks_before 5 0 0 (-1) 1
           :: later.
Proof.
  destruct (gaze_sample_reflects_latest TrackerSpec.recording_device
              TrackerSpec.callbacks_before TrackerSpec.callbacks_after 5 0 0 (-1) 1)
    as [Sample Buffered]; [reflexivity | reflexivity | reflexivity |].
  split; [exact Sample | apply Buffered; reflexivity].
Defined.

(** The record does not hold the gaze-in-screen position as received: a
    position (0.75, 0.25) received on the 1920 x 1080 display is in the
    record as (480, 270), and on a device without a display the record is
    the one built when no position was received at all, with (0, 0). *)
Lemma gaze_sample_holds_converted_position :
  Tracker.gaze_sample
    (Tracker.deliver_all [Tracker.gaze_in_screen_data 4 0.75 0.25]
       TrackerSpec.recording_device)
    5 0 0 (-1) 1
  = Tracker.BINOCULAR_EYE_SAMPLE 5 0 0 (-1) 1 480 270 0 0 0 0 0 0 0 0
  /\ Tracker.gaze_sample
       (Tracker.deliver_all [Tracker.gaze_in_screen_data 4 0.75 0.25]
          TrackerSpec.undisplayed_device)
       5 0 0 (-1) 1
     = Tracker.gaze_sample TrackerSpec.undisplayed_device 5 0 0 (-1) 1
  /\ Tracker.gaze_sample TrackerSpec.undisplayed_device 5 0 0 (-1) 1
     = Tracker.BINOCULAR_EYE_SAMPLE 5 0 0 (-1) 1 0 0 0 0 0 0 0 0 0 0.
Proof. vm_compute. repeat split. Qed.

Lemma setConnectionState_idempotent_witness :
  Tracker.setConnectionState true TrackerSpec.untracked_device TrackerSpec.untracked_env
  = Some (true, TrackerSpec.untracked_device, TrackerSpec.untracked_env)
  /\ Tracker.setConnectionState false (Tracker.new true 60 None false) (0, [])
     = Some (false, Tracker.new true 60 None false, (0, [])).
Proof.
  split.
  - apply (proj1 (setConnectionState_idempotent TrackerSpec.untracked_device
                    TrackerSpec.untracked_env)).
    reflexivity.
  - apply (proj1 (proj2 (setConnectionState_idempotent (Tracker.new true 60 None false)
                           (0, [])))).
    reflexivity.
Defined.

Lemma initiate_screen_tracking_empty_table_witness :
  Tracker._initiate_screen_tracking TrackerSpec.recording_device
  = (Ok tt,
     Tracker.write (Tracker.print2err Tracker.MARKERS_NOT_DEFINED_MSG)
       TrackerSpec.recording_device)
  /\ Tracker._frontend_api (snd (Tracker._initiate_screen_tracking TrackerSpec.recording_device))
     = Tracker._frontend_api TrackerSpec.recording_device.
Proof.
  apply (initiate_screen_tracking_empty_table TrackerSpec.recording_device).
  reflexivity.
Defined.

Lemma setRecordingState_stop_clears_latest_witness :
  Tracker.getLastSample TrackerSpec.sampled_device <> None
  /\ Tracker.getLastGazePosition TrackerSpec.sampled_device = Some (480, 270)
  /\ (exists self',
        Tracker.setRecordingState false TrackerSpec.sampled_device (0, [])
        = Some (Ok false, self', (0, []))
        /\ Tracker.getLastSample self' = None
        /\ Tracker.getLastGazePosition self' = None)
  /\ (exists self',
        Tracker.setRecordingState true TrackerSpec.sampled_device (0, [])
        = Some (Ok false, self', (0, []))
        /\ Tracker.getLastSample self' = None
        /\ Tracker.getLastGazePosition self' = None).
Proof.
  split; [vm_compute; discriminate|]. split; [vm_compute; reflexivity|]. split.
  - destruct (setRecordingState_stop_clears_latest false TrackerSpec.sampled_device (0, []))
      as (self' & Run & Sample & Gaze & _); [reflexivity|].
    exists self'. repeat split; assumption.
  - destruct (setRecordingState_stop_clears_latest true TrackerSpec.sampled_device (0, []))
      as (self' & Run & Sample & Gaze & _); [reflexivity|].
    exists self'. repeat split; assumption.
Defined.

(** ** adhawkCalibrationGraphics.py *)

Section CalibrationFacts.

Import CalibrationGraphics CalibrationSpec.

Lemma first_some_app {A B : Type} (f : A -> option B) (l l' : list A) :
  first_some f (l ++ l')
  = match first_some f l with Some b => Some b | None => first_some f l' end.
Proof.
  induction l as [|a l IH]; cbn; [reflexivity|].
  destruct (f a); [reflexivity|exact IH].
Qed.

Lemma graphics_deliver_all_app (cbs cbs' : list Callback) (self : Graphics) :
  deliver_all (cbs ++ cbs') self = deliver_all cbs' (deliver_all cbs self).
Proof. unfold deliver_all. apply fold_left_app. Qed.





(** *** The shape of the loops *)

(** Taking the next message leaves everything but the queue. *)
Lemma getNextMsg_keeps (self : Graphics) :
  flags (snd (_getNextMsg self)) = flags self
  /\ _timeout_time_start (snd (_getNextMsg self)) = _timeout_time_start self
  /\ _calibration_type (snd (_getNextMsg self)) = _calibration_type self
  /\ _randomize (snd (_getNextMsg self)) = _randomize self.
Proof. unfold _getNextMsg. destruct (_msg_queue self); repeat split. Qed.

(** The prompt loop, by the head of the queue. *)
Lemma screen_eq (ticks : list (Tick Callback)) (now : float) (self : Graphics) :
  _showSystemSetupMessageScreen ticks now self
  = match _msg_queue self with
    | SPACE_KEY_ACTION :: queue => ([], Some true, mkWorld (set_msg_queue queue self) now ticks)
    | QUIT :: queue => ([], Some false, mkWorld (set_msg_queue queue self) now ticks)
    | [] =>
        match ticks with
        | [] => ([], None, mkWorld self now [])
        | t :: ticks =>
            let '(obs, res, w) :=
              _showSystemSetupMessageScreen ticks (clock t) (deliver_all (delivered t) self) in
            (map Recv (delivered t) ++ obs, res, w)
        end
    end.
Proof.
  destruct ticks; cbn; unfold _getNextMsg; destruct (_msg_queue self) as [|[|] q];
    reflexivity.
Qed.

(** The prompt loop handles the callbacks of the ticks it consumes and
    takes one message at most, the one it returns on. *)
Lemma screen_shape (ticks : list (Tick Callback)) :
  forall (now : float) (self : Graphics),
  exists cbs,
    fst (fst (_showSystemSetupMessageScreen ticks now self)) = map Recv cbs
    /\ self_of (snd (_showSystemSetupMessageScreen ticks now self))
       = snd (_getNextMsg (deliver_all cbs self)).
Proof.
  induction ticks as [|t ticks IH]; intros now self; rewrite screen_eq.
  - exists []. cbn. unfold _getNextMsg.
    destruct (_msg_queue self) as [|[|] q]; split; reflexivity.
  - destruct (_msg_queue self) as [|[|] q] eqn:Q.
    + destruct (IH (clock t) (deliver_all (delivered t) self)) as (cbs & O & S).
      exists (delivered t ++ cbs).
      destruct (_showSystemSetupMessageScreen ticks (clock t)
                  (deliver_all (delivered t) self)) as [[obs res] w].
      cbn in *. rewrite map_app, O, graphics_deliver_all_app. split; [reflexivity|exact S].
    + exists []. cbn. unfold _getNextMsg. rewrite Q. split; reflexivity.
    + exists []. cbn. unfold _getNextMsg. rewrite Q. split; reflexivity.
Qed.

(** A polling loop handles the callbacks of the ticks it consumes; it adds
    [ForcedExit] when it leaves on the timeout, and it is left blocked only
    after a poll that found the phase running and the timeout not reached. *)
Lemma poll_shape (phase_ended : Graphics -> bool) (ticks : list (Tick Callback)) :
  forall (now : float) (self : Graphics),
  exists cbs,
    let '(obs, exit, w) := poll phase_ended ticks now self in
    self_of w = deliver_all cbs self
    /\ match exit with
       | None =>
           obs = map Recv cbs
           /\ phase_ended (self_of w) = false
           /\ _should_stop (self_of w) (now_of w) = false
       | Some PhaseEnded => obs = map Recv cbs /\ phase_ended (self_of w) = true
       | Some TimedOut =>
           obs = map Recv cbs ++ [ForcedExit]
           /\ phase_ended (self_of w) = false
           /\ _should_stop (self_of w) (now_of w) = true
       end.
Proof.
  induction ticks as [|t ticks IH]; intros now self.
  - exists []. cbn.
    destruct (phase_ended self) eqn:E; [cbn; auto|].
    destruct (_should_stop self now) eqn:S; cbn; auto.
  - cbn.
    destruct (phase_ended self) eqn:E; [exists []; cbn; auto|].
    destruct (_should_stop self now) eqn:S; [exists []; cbn; auto|].
    destruct (IH (clock t) (deliver_all (delivered t) self)) as (cbs & H).
    exists (delivered t ++ cbs).
    destruct (poll phase_ended ticks (clock t) (deliver_all (delivered t) self))
      as [[obs exit] w].
    destruct H as (W & H). rewrite graphics_deliver_all_app, map_app. split; [exact W|].
    destruct exit as [[|]|].
    + destruct H as (-> & H). auto.
    + destruct H as (-> & H). rewrite app_assoc. auto.
    + destruct H as (-> & H). auto.
Qed.

(** No callback touches the configuration. *)
Lemma deliver_all_randomize (cbs : list Callback) (self : Graphics) :
  _randomize (deliver_all cbs self) = _randomize self.
Proof.
  revert self. induction cbs as [|cb cbs IH]; intros s; [reflexivity|].
  cbn. change (fold_left (fun self cb => deliver cb self) cbs (deliver cb s))
    with (deliver_all cbs (deliver cb s)). rewrite IH.
  destruct cb as [[key|key] now|[ack|]|ack]; cbn; try reflexivity.
  - destruct (_ || _); [reflexivity|]. destruct (_ =? _)%string; reflexivity.
  - unfold _handleEvents. destruct (negb (_autotune_ended s)), (negb (is_SUCCESS ack));
      reflexivity.
  - unfold _handleCalibrationGuiResponse. destruct (negb (is_SUCCESS ack)); reflexivity.
Qed.

(** *** Traces *)

Lemma requests_app (trace trace' : list Obs) :
  requests (trace ++ trace') = requests trace ++ requests trace'.
Proof. unfold requests. apply flat_map_app. Qed.

Lemma requests_Recv (cbs : list Callback) : requests (map Recv cbs) = [].
Proof. induction cbs as [|cb cbs IH]; [reflexivity|exact IH]. Qed.




Lemma Inv_flags (stage : Stage) (pending : bool) (shown : option Outcome)
  (self self' : Graphics) :
  flags self' = flags self -> Inv stage pending shown self -> Inv stage pending shown self'.
Proof.
  unfold flags. intros F I. injection F as F1 F2 F3 F4.
  destruct stage, pending; cbn in *; unfold flags in *; rewrite ?F1, ?F2, ?F3, ?F4; exact I.
Qed.

(** *** The phases of a well-behaved run *)








(** *** The prompt *)

Lemma deliver_queue (cb : Callback) (self : Graphics) :
  _msg_queue (deliver cb self)
  = _msg_queue self ++ match key_msg cb with Some m => [m] | None => [] end.
Proof.
  destruct cb as [[key|key] now|[ack|]|ack]; cbn; try (symmetry; apply app_nil_r).
  - destruct (_ || _); [reflexivity|].
    destruct (_ =? _)%string; [reflexivity|symmetry; apply app_nil_r].
  - unfold _handleEvents.
    destruct (negb (_autotune_ended self)), (negb (is_SUCCESS ack)); cbn;
      symmetry; apply app_nil_r.
  - unfold _handleCalibrationGuiResponse.
    destruct (negb (is_SUCCESS ack)); cbn; symmetry; apply app_nil_r.
Qed.

Lemma deliver_all_queue (cbs : list Callback) (self : Graphics) :
  exists more,
    _msg_queue (deliver_all cbs self) = _msg_queue self ++ more
    /\ (first_some key_msg cbs = None -> more = [])
    /\ (forall m, first_some key_msg cbs = Some m -> exists rest, more = m :: rest).
Proof.
  revert self. induction cbs as [|cb cbs IH]; intros self.
  - exists []. cbn. rewrite app_nil_r. repeat split; [discriminate].
  - destruct (IH (deliver cb self)) as (more & Q & N & F).
    cbn [deliver_all fold_left].
    change (fold_left (fun self cb => deliver cb self) cbs (deliver cb self))
      with (deliver_all cbs (deliver cb self)).
    rewrite Q, deliver_queue. cbn [first_some].
    destruct (key_msg cb) as [m|].
    + exists (m :: more). rewrite <- app_assoc. split; [reflexivity|].
      split; [discriminate|]. intros m' H. injection H as <-. exists more. reflexivity.
    + exists more. rewrite app_nil_r. auto.
Qed.




(** *** The timeout *)

Lemma armed_at_app (timer : float) (trace trace' : list Obs) :
  armed_at timer (trace ++ trace') = armed_at (armed_at timer trace) trace'.
Proof.
  revert timer. induction trace as [|o trace IH]; intros timer; [reflexivity|].
  destruct o as [[|n z]|cb|]; cbn; apply IH.
Qed.

(** The timer holds the clock reading of the most recent escape press. *)
Lemma deliver_timer (cb : Callback) (self : Graphics) :
  _timeout_time_start (deliver cb self)
  = match escape_time cb with Some now => now | None => _timeout_time_start self end.
Proof.
  destruct cb as [[key|key] now|[ack|]|ack]; cbn; try reflexivity.
  - destruct ((key =? " ")%string || (key =? "space")%string) eqn:Sp.
    + destruct (key =? "escape")%string eqn:Es; [|reflexivity].
      apply String.eqb_eq in Es. subst key. discriminate.
    + destruct (key =? "escape")%string; reflexivity.
  - unfold _handleEvents.
    destruct (negb (_autotune_ended self)), (negb (is_SUCCESS ack)); reflexivity.
  - unfold _handleCalibrationGuiResponse. destruct (negb (is_SUCCESS ack)); reflexivity.
Qed.

Lemma deliver_all_timer (cbs : list Callback) (self : Graphics) :
  _timeout_time_start (deliver_all cbs self)
  = armed_at (_timeout_time_start self) (map Recv cbs).
Proof.
  revert self. induction cbs as [|cb cbs IH]; intros self; [reflexivity|].
  cbn [deliver_all fold_left map armed_at].
  change (fold_left (fun self cb => deliver cb self) cbs (deliver cb self))
    with (deliver_all cbs (deliver cb self)).
  rewrite IH, deliver_timer. reflexivity.
Qed.

(** A timer that is armed was armed by an escape press. *)
Lemma armed_by_escape (cbs : list Callback) (timer : float) :
  falsy (armed_at timer (map Recv cbs)) = false ->
  falsy timer = false \/ existsb is_escape (map Recv cbs) = true.
Proof.
  revert timer. induction cbs as [|cb cbs IH]; intros timer H; [left; exact H|].
  cbn [map armed_at existsb] in *. unfold is_escape at 1.
  destruct (escape_time cb) as [now|]; [right; reflexivity|].
  cbn. apply IH, H.
Qed.

Lemma escape_first_app (escaped : bool) (trace trace' : list Obs) :
  escape_first escaped (trace ++ trace')
  = escape_first escaped trace
    && escape_first (escaped || existsb is_escape trace) trace'.
Proof.
  revert escaped. induction trace as [|o trace IH]; intros escaped.
  - cbn. rewrite orb_false_r. reflexivity.
  - destruct o as [r|cb|]; cbn [app escape_first existsb]; rewrite IH.
    + cbn. rewrite !orb_false_r. reflexivity.
    + rewrite orb_assoc. reflexivity.
    + cbn. rewrite andb_assoc. reflexivity.
Qed.

Lemma escape_first_Recv (escaped : bool) (cbs : list Callback) :
  escape_first escaped (map Recv cbs) = true.
Proof.
  revert escaped. induction cbs as [|cb cbs IH]; intros escaped; [reflexivity|apply IH].
Qed.

Lemma escape_first_more (escaped : bool) (trace : list Obs) :
  escape_first escaped trace = true -> escape_first true trace = true.
Proof.
  revert escaped. induction trace as [|o trace IH]; intros escaped H; [reflexivity|].
  destruct o as [r|cb|]; cbn in *.
  - apply (IH _ H).
  - apply (IH _ H).
  - apply andb_true_iff in H. apply (IH _ (proj2 H)).
Qed.

(** What [escape_first] says of a trace, at each of its forced exits. *)
Lemma escape_first_spec (trace : list Obs) :
  forall escaped before after,
    escape_first escaped trace = true ->
    trace = before ++ ForcedExit :: after ->
    escaped = true \/ existsb is_escape before = true.
Proof.
  induction trace as [|o trace IH]; intros escaped before after H E.
  - destruct before; discriminate.
  - destruct before as [|o' before].
    + cbn in E. injection E as -> _. cbn in H. apply andb_true_iff in H. left. apply H.
    + cbn in E. injection E as <- E. cbn [existsb].
      destruct o as [r|cb|]; cbn [escape_first] in H.
      * destruct (IH _ _ _ H E) as [X|X]; [|right; exact X].
        rewrite orb_false_r in X. left. exact X.
      * destruct (IH _ _ _ H E) as [X|X]; [|right; rewrite X; apply orb_true_r].
        apply orb_true_iff in X. destruct X as [X|X]; [left; exact X|].
        right. rewrite X. reflexivity.
      * apply andb_true_iff in H. destruct H as [H _]. left. exact H.
Qed.

Lemma is_escape_press (o : Obs) :
  is_escape o = true <-> exists now, o = Recv (handleEvent (KEYBOARD_PRESS "escape") now).
Proof.
  split.
  - destruct o as [r|[[key|key] now|e|ack]|]; cbn; try discriminate.
    destruct (key =? "escape")%string eqn:K; [|discriminate].
    apply String.eqb_eq in K. subst key. intros _. exists now. reflexivity.
  - intros (now & ->). reflexivity.
Qed.

(** A polling loop: its timer, and its forced exit. *)
Lemma poll_timer (phase_ended : Graphics -> bool) (ticks : list (Tick Callback))
  (now : float) (self : Graphics) (escaped : bool) :
  let '(obs, exit, w) := poll phase_ended ticks now self in
  _timeout_time_start (self_of w) = armed_at (_timeout_time_start self) obs
  /\ (falsy (_timeout_time_start self) = true \/ escaped = true ->
      escape_first escaped obs = true)
  /\ (exit = None -> _should_stop (self_of w) (now_of w) = false).
Proof.
  destruct (poll_shape phase_ended ticks now self) as (cbs & H).
  destruct (poll phase_ended ticks now self) as [[obs exit] w].
  destruct H as (W & H).
  assert (T : _timeout_time_start (self_of w)
              = armed_at (_timeout_time_start self) (map Recv cbs)).
  { rewrite W. apply deliver_all_timer. }
  rewrite T.
  destruct exit as [[|]|].
  - destruct H as (-> & _). split; [reflexivity|]. split; [|discriminate].
    intros _. apply escape_first_Recv.
  - destruct H as (-> & _ & S). rewrite armed_at_app. split; [reflexivity|].
    split; [|discriminate]. intros A.
    rewrite escape_first_app, escape_first_Recv. cbn. rewrite andb_true_r.
    unfold _should_stop in S. rewrite T in S.
    destruct (falsy (armed_at (_timeout_time_start self) (map Recv cbs))) eqn:Z;
      [discriminate|].
    destruct (armed_by_escape cbs _ Z) as [X|X]; [|rewrite X; apply orb_true_r].
    destruct A as [A| ->]; [congruence|reflexivity].
  - destruct H as (-> & _ & S). split; [reflexivity|]. split; [|intros _; exact S].
    intros _. apply escape_first_Recv.
Qed.

Lemma escape_first_call (escaped : bool) (r : Request) (trace : list Obs) :
  escape_first escaped (Call r :: trace) = escape_first escaped trace.
Proof. cbn. rewrite orb_false_r. reflexivity. Qed.

(** The timer and the forced exits of the calibration phase: the phase
    starts from a cleared timer. *)
Lemma calibration_phase_timer (w : World) (escaped : bool) (timer : float) :
  escape_first escaped (trace (calibration_phase w)) = true
  /\ match status (calibration_phase w) with
     | Raised _ => _timeout_time_start (self_of (world (calibration_phase w))) = 0
     | Blocked Calibrating =>
         _timeout_time_start (self_of (world (calibration_phase w)))
         = armed_at timer (trace (calibration_phase w))
         /\ _should_stop (self_of (world (calibration_phase w)))
              (now_of (world (calibration_phase w))) = false
     | Blocked _ => False
     | Returned _ =>
         _timeout_time_start (self_of (world (calibration_phase w)))
         = armed_at timer (trace (calibration_phase w))
     end.
Proof.
  unfold calibration_phase.
  set (self := set_timeout_time_start 0 (self_of w)).
  destruct (num_points self) as [n|]; [|split; reflexivity].
  pose proof (poll_timer _calibration_ended (ticks_of w) (now_of w) self escaped) as H.
  destruct (poll _calibration_ended (ticks_of w) (now_of w) self) as [[obs exit] w'].
  destruct H as (T & E & S).
  destruct exit as [exit|]; cbn [trace status world];
    rewrite escape_first_call; (split; [apply E; left; reflexivity|]).
  - exact T.
  - split; [exact T|apply S; reflexivity].
Qed.

Lemma autotune_phase_timer (w : World) (escaped : bool) :
  (falsy (_timeout_time_start (self_of w)) = true \/ escaped = true ->
   escape_first escaped (trace (autotune_phase w)) = true)
  /\ match status (autotune_phase w) with
     | Raised _ => _timeout_time_start (self_of (world (autotune_phase w))) = 0
     | Blocked Autotuning | Blocked Calibrating =>
         _timeout_time_start (self_of (world (autotune_phase w)))
         = armed_at (_timeout_time_start (self_of w)) (trace (autotune_phase w))
         /\ _should_stop (self_of (world (autotune_phase w)))
              (now_of (world (autotune_phase w))) = false
     | Blocked _ => False
     | Returned _ =>
         _timeout_time_start (self_of (world (autotune_phase w)))
         = armed_at (_timeout_time_start (self_of w)) (trace (autotune_phase w))
     end.
Proof.
  unfold autotune_phase.
  pose proof (poll_timer _autotune_ended (ticks_of w) (now_of w) (self_of w) escaped) as H.
  destruct (poll _autotune_ended (ticks_of w) (now_of w) (self_of w)) as [[obs exit] w'].
  destruct H as (T & E & S).
  destruct exit as [exit|].
  - destruct (_autotune_successful (self_of w')).
    + cbn [trace status world].
      pose proof (calibration_phase_timer w'
                    (escaped || existsb is_escape (Call autotune_gui :: obs))
                    (armed_at (_timeout_time_start (self_of w)) (Call autotune_gui :: obs)))
        as (EC & TC).
      split.
      * intros A. rewrite escape_first_app, escape_first_call, (E A), EC. reflexivity.
      * rewrite armed_at_app.
        destruct (status (calibration_phase w')) as [[| | |]|b|e];
          try contradiction; exact TC.
    + cbn [trace status world]. rewrite escape_first_call. split; [exact E|exact T].
  - cbn [trace status world]. rewrite escape_first_call. split; [exact E|].
    split; [exact T|apply S; reflexivity].
Qed.

(** The timer and the forced exits of a run. *)
Lemma run_timer (calibration_type : option string) (randomize : option bool)
  (now : float) (ticks : list (Tick Callback)) :
  escape_first false (trace (fresh_run calibration_type randomize now ticks)) = true
  /\ match status (fresh_run calibration_type randomize now ticks) with
     | Raised _ =>
         _timeout_time_start
           (self_of (world (fresh_run calibration_type randomize now ticks))) = 0
     | Blocked Autotuning | Blocked Calibrating =>
         _timeout_time_start
           (self_of (world (fresh_run calibration_type randomize now ticks)))
         = armed_at 0 (trace (fresh_run calibration_type randomize now ticks))
         /\ _should_stop
              (self_of (world (fresh_run calibration_type randomize now ticks)))
              (now_of (world (fresh_run calibration_type randomize now ticks))) = false
     | _ =>
         _timeout_time_start
           (self_of (world (fresh_run calibration_type randomize now ticks)))
         = armed_at 0 (trace (fresh_run calibration_type randomize now ticks))
     end.
Proof.
  unfold fresh_run, runCalibration. set (self := new calibration_type randomize).
  destruct (screen_shape ticks now self) as (cbs0 & O & S).
  destruct (_showSystemSetupMessageScreen ticks now self) as [[obs0 res] w0].
  cbn in O, S. subst obs0.
  assert (T0 : _timeout_time_start (self_of w0) = armed_at 0 (map Recv cbs0)).
  { rewrite S. destruct (getNextMsg_keeps (deliver_all cbs0 self)) as (_ & -> & _).
    apply deliver_all_timer. }
  destruct res as [res|]; [|split; [apply escape_first_Recv|exact T0]].
  destruct (ticks_of w0) as [|t ticks1]; [split; [apply escape_first_Recv|exact T0]|].
  assert (T1 : _timeout_time_start (deliver_all (delivered t) (self_of w0))
               = armed_at 0 (map Recv cbs0 ++ map Recv (delivered t))).
  { rewrite deliver_all_timer, T0, armed_at_app. reflexivity. }
  destruct res; cbn [negb trace status world].
  - (* space *)
    set (w := mkWorld (deliver_all (delivered t) (self_of w0)) (clock t) ticks1).
    pose proof (autotune_phase_timer w
                  (existsb is_escape (map Recv cbs0 ++ map Recv (delivered t))))
      as (E & T).
    change (_timeout_time_start (self_of w))
      with (_timeout_time_start (deliver_all (delivered t) (self_of w0))) in E, T.
    rewrite T1 in E, T. split.
    + rewrite escape_first_app. rewrite <- map_app at 1. rewrite escape_first_Recv.
      cbn [andb orb]. apply E. rewrite <- map_app in *.
      destruct (falsy (armed_at 0 (map Recv (cbs0 ++ delivered t)))) eqn:Z;
        [left; reflexivity|].
      destruct (armed_by_escape _ _ Z) as [X|X]; [discriminate|right; exact X].
    + rewrite armed_at_app.
      destruct (status (autotune_phase w)) as [[| | |]|b|e];
        try contradiction; exact T.
  - (* escape *)
    split; [rewrite <- map_app; apply escape_first_Recv|exact T1].
Qed.

Lemma armed_no_escape (trace : list Obs) (timer : float) :
  existsb is_escape trace = false ->
  falsy timer = true ->
  falsy (armed_at timer trace) = true.
Proof.
  revert timer. induction trace as [|o trace IH]; intros timer N Z; [exact Z|].
  cbn [existsb] in N. apply orb_false_iff in N. destruct N as [No N].
  destruct o as [[|n z]|cb|]; cbn [armed_at].
  - apply (IH _ N Z).
  - apply (IH _ N). reflexivity.
  - unfold is_escape in No. destruct (escape_time cb); [discriminate|]. apply (IH _ N Z).
  - apply (IH _ N Z).
Qed.

(** C4: in every run of [runCalibration] on a fresh object,
    - a polling loop is left on the timeout only after an escape press
      earlier in the run: every [ForcedExit] of the trace has an escape
      press before it;
    - as long as the run has seen no escape press, [_should_stop()] is False
      whatever the clock reads;
    - once escape has been pressed and the grace period is over, the loop
      is left: when the timer is armed, by the most recent escape press
      since the calibration request if there is one (the request clears the
      timer, and every press sets it anew), and the clock of the latest poll
      is more than 5 seconds past it, the run is not waiting in the autotune
      loop nor in the calibration loop;
    - and it is left without any acknowledgement: a poll that finds the
      phase not ended, the timer armed and more than 5 seconds elapsed
      leaves the loop there, whatever the ticks to come hold. *)
Theorem timeout_armed_by_escape (calibration_type : option string)
  (randomize : option bool) (now : float) (ticks : list (Tick Callback)) :
  (forall before after,
      trace (fresh_run calibration_type randomize now ticks)
      = before ++ ForcedExit :: after ->
      exists pressed_at,
        In (Recv (handleEvent (KEYBOARD_PRESS "escape") pressed_at)) before)
  /\ (existsb is_escape (trace (fresh_run calibration_type randomize now ticks)) = false ->
      forall reading,
        _should_stop (self_of (world (fresh_run calibration_type randomize now ticks)))
          reading = false)
  /\ (falsy (armed_at 0 (trace (fresh_run calibration_type randomize now ticks))) = false ->
      (timeout <? (now_of (world (fresh_run calibration_type randomize now ticks))
                   - armed_at 0 (trace (fresh_run calibration_type randomize now ticks))))
      = true ->
      status (fresh_run calibration_type randomize now ticks) <> Blocked Autotuning
      /\ status (fresh_run calibration_type randomize now ticks) <> Blocked Calibrating)
  /\ (forall phase_ended ticks' now' self,
        phase_ended self = false ->
        falsy (_timeout_time_start self) = false ->
        (timeout <? (now' - _timeout_time_start self)) = true ->
        poll phase_ended ticks' now' self
        = ([ForcedExit], Some TimedOut, mkWorld self now' ticks')).
Proof.
  destruct (run_timer calibration_type randomize now ticks) as (E & T).
  set (r := fresh_run calibration_type randomize now ticks) in *.
  split; [|split; [|split]].
  - intros before after H.
    destruct (escape_first_spec _ false before after E H) as [X|X]; [discriminate|].
    apply existsb_exists in X. destruct X as (o & I & X).
    apply is_escape_press in X. destruct X as (pressed_at & ->).
    exists pressed_at. exact I.
  - intros N reading. unfold _should_stop.
    assert (Z : falsy (_timeout_time_start (self_of (world r))) = true).
    { destruct (status r) as [[| | |]|b|e];
        try (destruct T as (T & _)); rewrite T;
        try reflexivity; apply (armed_no_escape _ _ N); reflexivity. }
    rewrite Z. reflexivity.
  - intros A L.
    assert (B : forall phase, status r = Blocked phase ->
                         phase = Autotuning \/ phase = Calibrating -> False).
    { intros phase St P. rewrite St in T.
      assert (T' : _timeout_time_start (self_of (world r)) = armed_at 0 (trace r)
                   /\ _should_stop (self_of (world r)) (now_of (world r)) = false).
      { destruct P as [-> | ->]; exact T. }
      destruct T' as (Tm & S). unfold _should_stop in S. rewrite Tm, A, L in S.
      discriminate. }
    split; intros St; apply (B _ St); auto.
  - intros phase_ended ticks' now' self P A L.
    destruct ticks'; cbn; unfold _should_stop; rewrite P, A, L; reflexivity.
Qed.

End CalibrationFacts.

(** The runs of the examples. *)
Example run_escape :
  CalibrationGraphics.status (CalibrationSpec.fresh_run None None 0.5 CalibrationSpec.ticks_escape)
  = CalibrationGraphics.Returned false.
Proof. vm_compute. reflexivity. Qed.

Example run_cancel :
  let r := CalibrationGraphics.runCalibration CalibrationSpec.nine_points 1
             CalibrationSpec.ticks_cancel in
  CalibrationGraphics.trace r
  = [CalibrationGraphics.Recv (CalibrationSpec.press "space" 1.5);
     CalibrationGraphics.Call CalibrationGraphics.autotune_gui;
     CalibrationGraphics.Recv (CalibrationSpec.press "escape" 3.5);
     CalibrationGraphics.ForcedExit]
  /\ CalibrationGraphics.status r = CalibrationGraphics.Returned false
  /\ CalibrationGraphics.now_of (CalibrationGraphics.world r) = 8.75.
Proof. vm_compute. repeat split. Qed.

(** Five seconds after the press the loop is still running. *)
Example run_cancel_at_five_seconds :
  CalibrationGraphics.status
    (CalibrationGraphics.runCalibration CalibrationSpec.nine_points 1
       (firstn 5 CalibrationSpec.ticks_cancel))
  = CalibrationGraphics.Blocked CalibrationGraphics.Autotuning.
Proof. vm_compute. reflexivity. Qed.

(** The protocol is used: a second end-of-procedure report in the heartbeat
    of a failed autotune, which no procedure is outstanding for, would be
    taken for the end of a calibration that was never requested. *)
Remark stale_report_is_taken_for_calibration :
  let ticks :=
    [mkTick [CalibrationSpec.press "space" 1.5] 2; mkTick [] 3;
     mkTick [CalibrationSpec.ended (NOT_SUCCESS 3); CalibrationSpec.ended SUCCESS] 4] in
  CalibrationSpec.well_behaved
    (CalibrationGraphics.trace
       (CalibrationGraphics.runCalibration CalibrationSpec.nine_points 1 ticks)) = false
  /\ CalibrationGraphics.status
       (CalibrationGraphics.runCalibration CalibrationSpec.nine_points 1 ticks)
     = CalibrationGraphics.Returned true.
Proof. vm_compute. split; reflexivity. Qed.



(** The claim as it stands fails: an escape press does not bound the wait
    that follows.  Escape is pressed at 3.5 during the autotune phase and
    the procedure ends with SUCCESS at 4.5: the calibration request clears
    the timer, and with a silent device, which keeps the protocol, the
    calibration loop is still running when the clock reads 100000, with no
    forced exit in the run.  And escape pressed again every four seconds
    keeps the autotune loop running: at 13, 9.5 seconds after the first
    press, the run still waits. *)
Lemma escape_does_not_bound_the_wait :
  CalibrationSpec.well_behaved
    (CalibrationGraphics.trace
       (CalibrationSpec.fresh_run (Some "NINE_POINTS"%string) (Some true) 1
          CalibrationSpec.ticks_escape_before_success))
  = true
  /\ In (CalibrationGraphics.Recv (CalibrationSpec.press "escape" 3.5))
       (CalibrationGraphics.trace
          (CalibrationSpec.fresh_run (Some "NINE_POINTS"%string) (Some true) 1
             CalibrationSpec.ticks_escape_before_success))
  /\ CalibrationGraphics.status
       (CalibrationSpec.fresh_run (Some "NINE_POINTS"%string) (Some true) 1
          CalibrationSpec.ticks_escape_before_success)
     = CalibrationGraphics.Blocked CalibrationGraphics.Calibrating
  /\ CalibrationGraphics.now_of
       (CalibrationGraphics.world
          (CalibrationSpec.fresh_run (Some "NINE_POINTS"%string) (Some true) 1
             CalibrationSpec.ticks_escape_before_success))
     = 100000
  /\ CalibrationSpec.calibration_outcome
       (CalibrationGraphics.trace
          (CalibrationSpec.fresh_run (Some "NINE_POINTS"%string) (Some true) 1
             CalibrationSpec.ticks_escape_before_success))
     = None
  /\ CalibrationGraphics.status
       (CalibrationSpec.fresh_run (Some "NINE_POINTS"%string) (Some true) 1
          CalibrationSpec.ticks_escape_again)
     = CalibrationGraphics.Blocked CalibrationGraphics.Autotuning
  /\ CalibrationGraphics.now_of
       (CalibrationGraphics.world
          (CalibrationSpec.fresh_run (Some "NINE_POINTS"%string) (Some true) 1
             CalibrationSpec.ticks_escape_again))
     = 13.
Proof. vm_compute. repeat split; auto 10. Qed.

Lemma timeout_armed_by_escape_witness :
  CalibrationGraphics.trace
    (CalibrationSpec.fresh_run (Some "NINE_POINTS"%string) (Some true) 1
       CalibrationSpec.ticks_cancel)
  = [CalibrationGraphics.Recv (CalibrationSpec.press "space" 1.5);
     CalibrationGraphics.Call CalibrationGraphics.autotune_gui;
     CalibrationGraphics.Recv (CalibrationSpec.press "escape" 3.5)]
    ++ [CalibrationGraphics.ForcedExit]
  /\ (exists pressed_at,
        In (CalibrationGraphics.Recv
              (CalibrationGraphics.handleEvent (CalibrationGraphics.KEYBOARD_PRESS "escape")
                 pressed_at))
          [CalibrationGraphics.Recv (CalibrationSpec.press "space" 1.5);
           CalibrationGraphics.Call CalibrationGraphics.autotune_gui;
           CalibrationGraphics.Recv (CalibrationSpec.press "escape" 3.5)])
  /\ CalibrationGraphics.status
       (CalibrationSpec.fresh_run (Some "NINE_POINTS"%string) (Some true) 1
          CalibrationSpec.ticks_cancel)
     <> CalibrationGraphics.Blocked CalibrationGraphics.Autotuning
  /\ CalibrationGraphics.status
       (CalibrationSpec.fresh_run (Some "NINE_POINTS"%string) (Some true) 1
          CalibrationSpec.ticks_cancel)
     <> CalibrationGraphics.Blocked CalibrationGraphics.Calibrating
  /\ CalibrationGraphics.poll CalibrationGraphics._autotune_ended [mkTick [] 9] 8.75
       (CalibrationGraphics.set_timeout_time_start 3.5 CalibrationSpec.nine_points)
     = ([CalibrationGraphics.ForcedExit], Some CalibrationGraphics.TimedOut,
        CalibrationGraphics.mkWorld
          (CalibrationGraphics.set_timeout_time_start 3.5 CalibrationSpec.nine_points)
          8.75 [mkTick [] 9]).
Proof.
  assert (Trace :
    CalibrationGraphics.trace
      (CalibrationSpec.fresh_run (Some "NINE_POINTS"%string) (Some true) 1
         CalibrationSpec.ticks_cancel)
    = [CalibrationGraphics.Recv (CalibrationSpec.press "space" 1.5);
       CalibrationGraphics.Call CalibrationGraphics.autotune_gui;
       CalibrationGraphics.Recv (CalibrationSpec.press "escape" 3.5)]
      ++ [CalibrationGraphics.ForcedExit]) by (vm_compute; reflexivity).
  destruct (timeout_armed_by_escape (Some "NINE_POINTS"%string) (Some true) 1
              CalibrationSpec.ticks_cancel) as (Escaped & _ & Left & Forced).
  split; [exact Trace|]. split; [exact (Escaped _ [] Trace)|].
  assert (Armed :
    falsy
      (CalibrationSpec.armed_at 0
         (CalibrationGraphics.trace
            (CalibrationSpec.fresh_run (Some "NINE_POINTS"%string) (Some true) 1
               CalibrationSpec.ticks_cancel)))
    = false) by (vm_compute; reflexivity).
  assert (Late :
    (CalibrationGraphics.timeout
     <? (CalibrationGraphics.now_of
           (CalibrationGraphics.world
              (CalibrationSpec.fresh_run (Some "NINE_POINTS"%string) (Some true) 1
                 CalibrationSpec.ticks_cancel))
         - CalibrationSpec.armed_at 0
             (CalibrationGraphics.trace
                (CalibrationSpec.fresh_run (Some "NINE_POINTS"%string) (Some true) 1
                   CalibrationSpec.ticks_cancel))))
    = true) by (vm_compute; reflexivity).
  destruct (Left Armed Late) as [NotAutotuning NotCalibrating].
  split; [exact NotAutotuning|]. split; [exact NotCalibrating|].
  apply Forced; vm_compute; reflexivity.
Defined.

(** * Further properties *)

(** ** helpers.py: [vectors_to_angles] and the dictionary name *)

Section VectorsFacts.

Import Helpers HelpersSpec.

Variable arctan2 : float -> float -> float.
Variable pow : float -> Z -> float.

Lemma assign_middle (value row : float * float) (done rest : list (float * float)) :
  assign (List.length done) value (done ++ row :: rest) = done ++ value :: rest.
Proof. induction done as [|d done IH]; cbn; [reflexivity|]. rewrite IH. reflexivity. Qed.

(** The loop from row [length done] on, the rows before it done: the
    angles of the rows in order, up to the first exception. *)
Lemma vectors_loop_from (rotation_order : PyValue) :
  forall (todo done : list (list Number)) (outputs rest : list (float * float)),
    List.length outputs = List.length done ->
    List.length rest = List.length todo ->
    vectors_loop arctan2 pow (seq (List.length done) (List.length todo)) (done ++ todo)
      rotation_order (outputs ++ rest)
    = match all_ok (fun row => apply_vector_to_angles arctan2 pow row rotation_order) todo with
      | Ok computed => Ok (outputs ++ computed)
      | Raise e => Raise e
      end.
Proof.
  induction todo as [|row todo IH]; intros done outputs rest Ho Hr.
  - destruct rest; [|discriminate]. reflexivity.
  - destruct rest as [|r rest]; [discriminate|].
    cbn [List.length seq vectors_loop all_ok].
    rewrite app_nth2, Nat.sub_diag by lia. cbn [nth].
    destruct (apply_vector_to_angles arctan2 pow row rotation_order) as [a|e];
      [|reflexivity].
    rewrite <- Ho, assign_middle.
    change (outputs ++ a :: rest) with (outputs ++ [a] ++ rest).
    change (done ++ row :: todo) with (done ++ [row] ++ todo).
    rewrite !app_assoc.
    replace (S (List.length outputs)) with (List.length (done ++ [row]))
      by (rewrite length_app; cbn; lia).
    rewrite IH.
    + destruct (all_ok _ todo); [|reflexivity]. rewrite <- app_assoc. reflexivity.
    + rewrite !length_app. cbn. lia.
    + cbn in Hr. lia.
Qed.

Lemma vectors_to_angles_all_ok (vectors : list (list Number)) (rotation_order : PyValue) :
  vectors_to_angles arctan2 pow vectors rotation_order
  = all_ok (fun row => apply_vector_to_angles arctan2 pow row rotation_order) vectors.
Proof.
  unfold vectors_to_angles.
  pose proof (vectors_loop_from rotation_order vectors [] []
                (repeat (0, 0) (List.length vectors)) eq_refl (repeat_length _ _)) as H.
  cbn [List.length app] in H. rewrite H.
  destruct (all_ok _ vectors); reflexivity.
Qed.

(** On numpy numbers [vector_to_angles] returns the angles of the
    formulas. *)
Lemma vector_to_angles_numpy (x y z : float) (rotation_order : PyValue) :
  vector_to_angles arctan2 pow (numpy x) (numpy y) (numpy z) rotation_order
  = Ok (angles arctan2 pow x y z rotation_order).
Proof.
  unfold vector_to_angles, angles. cbn [power numpy float_type value].
  destruct (py_eq rotation_order YX); [reflexivity|].
  destruct (py_eq rotation_order XY); reflexivity.
Qed.

(** The one exception of [vector_to_angles] is the OverflowError of a
    square. *)
Lemma vector_to_angles_raises (x y z : Number) (rotation_order : PyValue) (e : Exception) :
  vector_to_angles arctan2 pow x y z rotation_order = Raise e -> e = OverflowError.
Proof.
  unfold vector_to_angles. rewrite !power_overflows.
  destruct (py_eq rotation_order YX);
    [|destruct (py_eq rotation_order XY); [|discriminate]];
    repeat match goal with
           | |- context [overflows pow ?n] => destruct (overflows pow n)
           end;
    intros H; inversion H; reflexivity.
Qed.

Lemma apply_short_row (row : list Number) (rotation_order : PyValue) :
  List.length row <> 3%nat ->
  apply_vector_to_angles arctan2 pow row rotation_order = Raise TypeError.
Proof.
  destruct row as [|x [|y [|z [|more row]]]]; cbn; intros H; try reflexivity.
  contradiction.
Qed.

Lemma apply_raises (row : list Number) (rotation_order : PyValue) (e : Exception) :
  apply_vector_to_angles arctan2 pow row rotation_order = Raise e ->
  e = TypeError \/ e = OverflowError.
Proof.
  destruct row as [|x [|y [|z [|more row]]]]; cbn; intros H;
    try (inversion H; left; reflexivity).
  right. exact (vector_to_angles_raises _ _ _ _ _ H).
Qed.

Lemma apply_numpy_row (row : list Number) (rotation_order : PyValue) :
  Forall (fun x => float_type x = numpy_float64) row ->
  apply_vector_to_angles arctan2 pow row rotation_order <> Raise OverflowError.
Proof.
  destruct row as [|x [|y [|z [|more row]]]]; cbn; intros H; try discriminate.
  inversion H as [|? ? Hx Tx]. inversion Tx as [|? ? Hy Ty]. inversion Ty as [|? ? Hz _].
  destruct x as [tx x], y as [ty y], z as [tz z]. cbn in Hx, Hy, Hz. subst.
  change (vector_to_angles arctan2 pow (numpy x) (numpy y) (numpy z) rotation_order
          <> Raise OverflowError).
  rewrite vector_to_angles_numpy. discriminate.
Qed.

(** X1: on an array of n rows of three components [vectors_to_angles]
    returns n rows, row i the azimuth and elevation [vector_to_angles]
    computes for row i under the same rotation order, which for the numpy
    float64 of such rows are the angles of the formulas and never an
    exception; no row of zeros of the initial output is left (none at all
    for an array without rows). *)
Theorem vectors_to_angles_rows (rotation_order : PyValue)
  (vectors : list (float * float * float)) :
  vectors_to_angles arctan2 pow
    (map (fun '(x, y, z) => [numpy x; numpy y; numpy z]) vectors) rotation_order
  = Ok (map (fun '(x, y, z) => angles arctan2 pow x y z rotation_order) vectors)
  /\ map (fun '(x, y, z) =>
            vector_to_angles arctan2 pow (numpy x) (numpy y) (numpy z) rotation_order)
       vectors
     = map (fun '(x, y, z) => Ok (angles arctan2 pow x y z rotation_order)) vectors.
Proof.
  split.
  - rewrite vectors_to_angles_all_ok.
    induction vectors as [|[[x y] z] vectors IH]; [reflexivity|].
    cbn [map all_ok apply_vector_to_angles].
    rewrite vector_to_angles_numpy, IH. reflexivity.
  - apply map_ext. intros [[x y] z]. apply vector_to_angles_numpy.
Qed.

(** X2: a row that does not have exactly three components stops
    [vectors_to_angles]: the call raises and returns nothing.  The exception
    is the TypeError of the row that does not unpack into the three
    positional arguments, unless a row before it raises first: the one other
    exception is the OverflowError of squaring a Python float.  So it is
    TypeError when no row raises OverflowError, and always for the rows of a
    numeric array, whose components are numpy float64. *)
Theorem vectors_to_angles_bad_row (rotation_order : PyValue) (vectors : list (list Number)) :
  Exists (fun row => List.length row <> 3%nat) vectors ->
  (exists e,
      vectors_to_angles arctan2 pow vectors rotation_order = Raise e
      /\ (e = TypeError \/ e = OverflowError))
  /\ (Forall (fun row =>
                apply_vector_to_angles arctan2 pow row rotation_order <> Raise OverflowError)
        vectors ->
      vectors_to_angles arctan2 pow vectors rotation_order = Raise TypeError)
  /\ (Forall (Forall (fun x => float_type x = numpy_float64)) vectors ->
      vectors_to_angles arctan2 pow vectors rotation_order = Raise TypeError).
Proof.
  intros Bad. rewrite vectors_to_angles_all_ok.
  assert (Raises : exists e,
            all_ok (fun row => apply_vector_to_angles arctan2 pow row rotation_order) vectors
            = Raise e
            /\ (e = TypeError \/ e = OverflowError)
            /\ (Forall (fun row =>
                          apply_vector_to_angles arctan2 pow row rotation_order
                          <> Raise OverflowError) vectors ->
                e = TypeError)).
  { induction Bad as [row vectors Short | row vectors Bad IH]; cbn [all_ok].
    - rewrite (apply_short_row row rotation_order Short).
      exists TypeError. repeat split. left. reflexivity.
    - destruct (apply_vector_to_angles arctan2 pow row rotation_order) as [a|e] eqn:A.
      + destruct IH as (e & -> & Which & Only).
        exists e. repeat split; [exact Which|].
        intros All. inversion All. auto.
      + exists e. split; [reflexivity|]. split; [exact (apply_raises _ _ _ A)|].
        intros All. inversion All as [|? ? Head _].
        destruct (apply_raises _ _ _ A) as [E|E]; [exact E|]. subst e. contradiction. }
  destruct Raises as (e & -> & Which & Only).
  split; [exists e; split; [reflexivity | exact Which]|].
  split.
  - intros All. rewrite (Only All). reflexivity.
  - intros Numeric. rewrite Only; [reflexivity|].
    eapply Forall_impl; [|exact Numeric].
    intros row. apply apply_numpy_row.
Qed.

End VectorsFacts.

Lemma vectors_to_angles_bad_row_witness :
  Helpers.vectors_to_angles HelpersSpec.quotient HelpersSpec.square
    [[Helpers.python 0; Helpers.python 0; Helpers.python (-1)];
     [Helpers.python 1; Helpers.python 2]]
    Helpers.default_rotation_order
  = Raise TypeError
  /\ Helpers.vectors_to_angles HelpersSpec.quotient HelpersSpec.square
       [[Helpers.numpy 0; Helpers.numpy HelpersSpec.huge];
        [Helpers.numpy 1; Helpers.numpy 2]]
       Helpers.default_rotation_order
     = Raise TypeError.
Proof.
  split.
  - destruct (vectors_to_angles_bad_row HelpersSpec.quotient HelpersSpec.square
                Helpers.default_rotation_order
                [[Helpers.python 0; Helpers.python 0; Helpers.python (-1)];
                 [Helpers.python 1; Helpers.python 2]])
      as (_ & NoOverflow & _).
    + apply Exists_cons_tl, Exists_cons_hd. cbn. lia.
    + apply NoOverflow. repeat constructor; vm_compute; discriminate.
  - destruct (vectors_to_angles_bad_row HelpersSpec.quotient HelpersSpec.square
                Helpers.default_rotation_order
                [[Helpers.numpy 0; Helpers.numpy HelpersSpec.huge];
                 [Helpers.numpy 1; Helpers.numpy 2]])
      as (_ & _ & Numeric).
    + apply Exists_cons_hd. cbn. lia.
    + apply Numeric. repeat constructor.
Defined.

(** A row of Python floats whose squares overflow raises before a short
    row after it is reached. *)
Example vectors_to_angles_overflow_first :
  Helpers.vectors_to_angles HelpersSpec.quotient HelpersSpec.square
    [[Helpers.python HelpersSpec.huge; Helpers.python HelpersSpec.huge;
      Helpers.python HelpersSpec.huge];
     [Helpers.python 1; Helpers.python 2]]
    Helpers.default_rotation_order
  = Raise OverflowError.
Proof. vm_compute. reflexivity. Qed.

Section DictionaryFacts.

Import Helpers.

Lemma upper_app (s s' : string) : upper (s ++ s') = (upper s ++ upper s')%string.
Proof. induction s as [|c s IH]; cbn; [reflexivity|]. rewrite IH. reflexivity. Qed.

(** A digit is not a letter: [upper] leaves it, and it is not the X. *)
Lemma digit_plain (c : ascii) (n : Z) :
  digit c = Some n -> upper_ascii c = c /\ (c =? "X")%char = false.
Proof.
  destruct c as [[] [] [] [] [] [] [] []]; vm_compute; intros H;
    try discriminate; split; reflexivity.
Qed.

Lemma before_X_app (s : string) (c : ascii) (rest : string) :
  before_X s = s -> (c =? "X")%char = false ->
  before_X (s ++ String c (String "X" rest)) = (s ++ String c EmptyString)%string.
Proof.
  intros H C. induction s as [|a s IH]; cbn in *.
  - rewrite C. reflexivity.
  - destruct (a =? "X")%char; [discriminate|].
    inversion H as [H']. rewrite H'. rewrite IH by assumption. reflexivity.
Qed.

Lemma last_char_app (s : string) (c : ascii) :
  last_char (s ++ String c EmptyString) = Some c.
Proof.
  induction s as [|a s IH]; cbn; [reflexivity|].
  destruct (s ++ String c EmptyString)%string eqn:E; [|exact IH].
  destruct s; discriminate.
Qed.

(** X3: the number of bits of a marker is the digit right before the first
    X of the dictionary's name, in either case of the letters: for a name
    [prefix ++ c ++ X ++ rest] whose prefix holds no X and whose [c] is a
    decimal digit, [marker_bits] is that digit, whether the X is written in
    upper or in lower case and whatever follows it. *)
Theorem marker_bits_reads_digit (prefix rest : string) (c : ascii) (n : Z) :
  before_X (upper prefix) = upper prefix ->
  digit c = Some n ->
  marker_bits (prefix ++ String c (String "X" rest)) = Some n
  /\ marker_bits (prefix ++ String c (String "x" rest)) = Some n.
Proof.
  intros NoX D. destruct (digit_plain c n D) as [U X].
  unfold marker_bits. rewrite !upper_app. cbn [upper]. rewrite U.
  change (upper_ascii "X") with "X"%char. change (upper_ascii "x") with "X"%char.
  rewrite !before_X_app, !last_char_app by assumption.
  split; exact D.
Qed.

End DictionaryFacts.

Lemma marker_bits_reads_digit_witness :
  Helpers.marker_bits Tracker.ARUCO_DIC = Some 5%Z
  /\ Helpers.marker_bits "dict_6x6_250" = Some 6%Z.
Proof.
  split.
  - apply (proj1 (marker_bits_reads_digit "DICT_" "5_50" "5" 5 eq_refl eq_refl)).
  - apply (proj2 (marker_bits_reads_digit "dict_" "6_250" "6" 6 eq_refl eq_refl)).
Defined.

(** ** eyetracker.py: connection, waits, streams and the host's buffer *)

Section DeviceFacts.

Import Tracker TrackerSpec.

Ltac handler_cases :=
  repeat match goal with
         | |- context [if ?b then _ else _] => destruct b eqn:?; cbn
         | |- context [match ?x with BLINK _ => _ | OTHER_SDK_EVENT => _ end] =>
             destruct x; cbn
         | |- context [let '(_, _) := ?p in _] => destruct p eqn:?; cbn
         end.

Ltac by_handler cb :=
  destruct cb; cbn;
  unfold _handle_connect, _handle_camera_start_response, _handle_gaze_data,
    _handle_binocular_gaze_data, _handle_gaze_in_screen_data, _handle_pupil_diameter,
    _handle_events, _handleNativeEvent, _addNativeEventToBuffer, isReportingEvents,
    api, write;
  cbn; handler_cases; try reflexivity.

(** The settings no callback touches. *)
Lemma deliver_settings (cb : Callback) (self : EyeTracker) :
  _aruco_info (deliver cb self) = _aruco_info self
  /\ _screen_size (deliver cb self) = _screen_size self
  /\ _sampling_rate (deliver cb self) = _sampling_rate self.
Proof. by_handler cb; repeat split; congruence. Qed.

Lemma deliver_all_settings (cbs : list Callback) (self : EyeTracker) :
  _aruco_info (deliver_all cbs self) = _aruco_info self
  /\ _screen_size (deliver_all cbs self) = _screen_size self
  /\ _sampling_rate (deliver_all cbs self) = _sampling_rate self.
Proof.
  induction cbs as [|cb cbs IH] using rev_ind.
  - repeat split.
  - rewrite deliver_all_snoc.
    destruct (deliver_settings cb (deliver_all cbs self)) as (A & S & R).
    destruct IH as (A' & S' & R').
    repeat split; congruence.
Qed.

(** What one callback asks of the SDK, and what it does to the connection
    flag. *)
Lemma deliver_requests (cb : Callback) (self : EyeTracker) :
  _frontend_api (deliver cb self) = _frontend_api self ++ requested_by self cb
  /\ _connected (deliver cb self) = _connected self || is_connect_ok cb.
Proof.
  unfold requested_by.
  destruct cb as [[|code]| | | | | |]; cbn;
    unfold _handle_connect, _handle_camera_start_response, _handle_gaze_data,
      _handle_binocular_gaze_data, _handle_gaze_in_screen_data, _handle_pupil_diameter,
      _handle_events, _handleNativeEvent, _addNativeEventToBuffer, isReportingEvents,
      api, write;
    cbn; handler_cases; cbn;
    rewrite ?app_nil_r, ?orb_false_r, ?orb_true_r, <- ?app_assoc; split; reflexivity.
Qed.

Lemma deliver_all_requests (cbs : list Callback) (self : EyeTracker) :
  _frontend_api (deliver_all cbs self) = _frontend_api self ++ flat_map (requested_by self) cbs
  /\ _connected (deliver_all cbs self) = _connected self || existsb is_connect_ok cbs.
Proof.
  induction cbs as [|cb cbs IH] using rev_ind.
  - cbn. rewrite app_nil_r, orb_false_r. split; reflexivity.
  - rewrite deliver_all_snoc, flat_map_app, existsb_app. cbn [flat_map existsb].
    destruct (deliver_requests cb (deliver_all cbs self)) as (A & C).
    destruct IH as (A' & C').
    rewrite A, C, A', C'. split.
    + rewrite app_nil_r, <- app_assoc. do 2 f_equal. unfold requested_by.
      destruct (deliver_all_frame cbs self) as (_ & _ & _ & _ & T).
      destruct (deliver_all_settings cbs self) as (_ & _ & R).
      rewrite T, R. reflexivity.
    + rewrite orb_false_r. symmetry. apply orb_assoc.
Qed.

(** X4: what the callbacks of the SDK make a device ask of the SDK: the
    four streams at the configured sampling rate and the blink event, once
    for every connection request answered without error, and only on a
    device with screen tracking enabled; no other callback makes a call, so
    a device with screen tracking disabled asks for no stream at all. *)
Theorem callbacks_request_streams (cbs : list Callback) (self : EyeTracker) :
  _frontend_api (deliver_all cbs self)
  = _frontend_api self
    ++ flat_map
         (fun cb =>
            if is_connect_ok cb && _screen_tracking self
            then stream_requests (_sampling_rate self)
            else [])
         cbs.
Proof. apply deliver_all_requests. Qed.

(** *** The bounded waits *)

Lemma wait_for_eq (flag : EyeTracker -> bool) (start_time now : float)
  (ticks : list (Tick Callback)) (self : EyeTracker) :
  wait_for flag start_time now ticks self
  = if flag self then Some (self, (now, ticks))
    else if _max_wait_time <? now - start_time then Some (self, (now, ticks))
    else
      match ticks with
      | [] => None
      | t :: ticks =>
          wait_for flag start_time (clock t) ticks (deliver_all (delivered t) self)
      end.
Proof. destruct ticks; reflexivity. Qed.

(** A wait that returns has consumed a prefix of the ticks and delivered
    its callbacks; it stopped on the flag or on the clock, and the flag did
    not hold before any of the ticks it consumed. *)
Lemma wait_for_shape (flag : EyeTracker -> bool) (start_time : float) :
  forall (ticks : list (Tick Callback)) (now : float) (self self' : EyeTracker)
         (now' : float) (ticks' : list (Tick Callback)),
    wait_for flag start_time now ticks self = Some (self', (now', ticks')) ->
    exists consumed,
      ticks = consumed ++ ticks'
      /\ self' = deliver_all (callbacks consumed) self
      /\ now' = clock_after now consumed
      /\ (flag self' = true \/ (_max_wait_time <? now' - start_time) = true)
      /\ (forall earlier t later,
            consumed = earlier ++ t :: later ->
            flag (deliver_all (callbacks earlier) self) = false).
Proof.
  induction ticks as [|t ticks IH]; intros now self self' now' ticks' H;
    rewrite wait_for_eq in H;
    destruct (flag self) eqn:F;
    [ inversion H; subst; exists []; repeat split; auto; intros [|? ?] ? ? ?; discriminate
    | | inversion H; subst; exists []; repeat split; auto; intros [|? ?] ? ? ?; discriminate
    | ];
    (destruct (_max_wait_time <? now - start_time) eqn:L;
     [ inversion H; subst; exists []; repeat split; auto; intros [|? ?] ? ? ?; discriminate
     | ]).
  - discriminate.
  - apply IH in H. destruct H as (consumed & T & S & N & Stop & Before).
    exists (t :: consumed). subst ticks. repeat split.
    + unfold callbacks. cbn [flat_map]. rewrite deliver_all_app. exact S.
    + exact N.
    + exact Stop.
    + intros earlier t0 later E. destruct earlier as [|e earlier].
      * exact F.
      * inversion E; subst. unfold callbacks. cbn [flat_map]. rewrite deliver_all_app.
        eapply Before. reflexivity.
Qed.

(** A wait returns at the latest on the first tick that is late for it, and
    leaves the ticks after that one. *)
Lemma wait_for_bounded (flag : EyeTracker -> bool) (start_time : float) :
  forall (before : list (Tick Callback)) (now : float) (self : EyeTracker)
         (t : Tick Callback) (after : list (Tick Callback)),
    late start_time t = true ->
    exists self' now' more,
      wait_for flag start_time now (before ++ t :: after) self
      = Some (self', (now', more ++ after)).
Proof.
  induction before as [|b before IH]; intros now self t after L; rewrite wait_for_eq.
  - destruct (flag self); [exists self, now, [t]; reflexivity|].
    destruct (_max_wait_time <? now - start_time); [exists self, now, [t]; reflexivity|].
    cbn [app]. rewrite wait_for_eq.
    destruct (flag (deliver_all (delivered t) self));
      [exists (deliver_all (delivered t) self), (clock t), []; reflexivity|].
    unfold late in L. rewrite L.
    exists (deliver_all (delivered t) self), (clock t), []. reflexivity.
  - destruct (flag self);
      [exists self, now, (b :: before ++ [t]); cbn; rewrite <- app_assoc; reflexivity|].
    destruct (_max_wait_time <? now - start_time);
      [exists self, now, (b :: before ++ [t]); cbn; rewrite <- app_assoc; reflexivity|].
    cbn [app]. apply IH. exact L.
Qed.

(** X5: a connection attempt on a disconnected device.  It first registers
    the five stream handlers and starts the SDK, then consumes ticks until
    one in which a connection request is answered without error, or until
    the clock reads more than [_max_wait_time] past the start of the wait:
    it returns True exactly when such an answer was among the callbacks it
    consumed, and then none was in the ticks before the last; when it
    returns False the clock is past the bound and the last line written is
    the warning that the tracker could not be connected.  The calls made are
    the connection requests followed by what the consumed callbacks asked
    for. *)
Theorem setConnectionState_connects (self : EyeTracker) (now : float)
  (ticks : list (Tick Callback)) (connected : bool) (self' : EyeTracker) (now' : float)
  (ticks' : list (Tick Callback)) :
  isConnected self = false ->
  setConnectionState true self (now, ticks) = Some (connected, self', (now', ticks')) ->
  exists consumed,
    ticks = consumed ++ ticks'
    /\ connected = existsb is_connect_ok (callbacks consumed)
    /\ isConnected self' = connected
    /\ _frontend_api self'
       = _frontend_api self ++ connect_requests
         ++ flat_map (requested_by self) (callbacks consumed)
    /\ (forall earlier t later,
          consumed = earlier ++ t :: later ->
          existsb is_connect_ok (callbacks earlier) = false)
    /\ (connected = false ->
        (_max_wait_time <? now' - now) = true
        /\ exists earlier,
             log self'
             = earlier ++ [print2err "Couldn't connect to the Adhawk Eye Tracker"]).
Proof.
  intros C H. unfold setConnectionState in H. rewrite C in H. cbn [andb negb] in H.
  match type of H with
  | context [wait_for _ _ _ _ ?s] => set (requested := s) in H
  end.
  assert (A : _frontend_api requested = _frontend_api self ++ connect_requests).
  { subst requested. unfold api. cbn. rewrite <- !app_assoc. reflexivity. }
  assert (C0 : _connected requested = false) by exact C.
  assert (T : _screen_tracking requested = _screen_tracking self) by reflexivity.
  assert (R : _sampling_rate requested = _sampling_rate self) by reflexivity.
  clearbody requested.
  destruct (wait_for _connected now now ticks requested) as [[waited [n tl]]|] eqn:W;
    [|discriminate].
  apply wait_for_shape in W. destruct W as (consumed & Tk & S & N & Stop & Before).
  destruct (deliver_all_requests (callbacks consumed) requested) as (A' & C').
  rewrite <- S in A', C'. rewrite C0 in C'. cbn [orb] in C'.
  assert (Same : flat_map (requested_by requested) (callbacks consumed)
                 = flat_map (requested_by self) (callbacks consumed)).
  { apply flat_map_ext. intros cb. unfold requested_by. rewrite T, R. reflexivity. }
  assert (Res : connected = _connected waited
                /\ _connected self' = _connected waited
                /\ _frontend_api self' = _frontend_api waited
                /\ n = now' /\ tl = ticks'
                /\ (_connected waited = false ->
                    exists earlier,
                      log self'
                      = earlier ++ [print2err "Couldn't connect to the Adhawk Eye Tracker"])).
  { unfold isConnected in H.
    destruct (_connected waited) eqn:CW; cbn [negb] in H; inversion H;
      subst connected self' now' ticks';
      repeat split; try assumption; try discriminate.
    intros _. exists (log waited). reflexivity. }
  destruct Res as (Rc & Rs & Ra & Rn & Rt & Rl). subst tl. rewrite Rn in Stop.
  exists consumed. unfold isConnected.
  split; [exact Tk|]. split; [congruence|]. split; [congruence|].
  split; [rewrite Ra, A', A, Same, <- app_assoc; reflexivity|].
  split.
  - intros earlier t later E.
    destruct (deliver_all_requests (callbacks earlier) requested) as (_ & CE).
    rewrite (Before _ _ _ E), C0 in CE. symmetry. exact CE.
  - intros F. split.
    + destruct Stop as [Stop|Stop]; [congruence|]. exact Stop.
    + apply Rl. congruence.
Qed.

(** X6: the waits are bounded by the clock.  Whatever the device does, and
    if it never answers: once a tick reads more than [_max_wait_time] past
    the start of the call, [setConnectionState], [_start_camera] and the
    constructor return, having consumed no tick after that one. *)
Theorem bounded_waits_return (self : EyeTracker) (now : float)
  (before after : list (Tick Callback)) (t : Tick Callback) :
  late now t = true ->
  (forall enable,
      exists connected self' now' more,
        setConnectionState enable self (now, before ++ t :: after)
        = Some (connected, self', (now', more ++ after)))
  /\ (exists self' now' more,
        _start_camera self (now, before ++ t :: after) = Some (self', (now', more ++ after)))
  /\ (forall enable_screen_tracking sampling_rate display_device auto_report_events,
        exists self' now' more,
          __init__ enable_screen_tracking sampling_rate display_device auto_report_events
            (now, before ++ t :: after)
          = Some (self', (now', more ++ after))).
Proof.
  intros L.
  assert (Connect : forall enable s,
            exists connected self' now' more,
              setConnectionState enable s (now, before ++ t :: after)
              = Some (connected, self', (now', more ++ after))).
  { intros enable s. unfold setConnectionState.
    destruct (enable && negb (isConnected s)).
    - match goal with
      | |- context [wait_for _ _ _ _ ?r] =>
          destruct (wait_for_bounded _connected now before now r t after L)
            as (waited & n & more & W)
      end.
      rewrite W. do 4 eexists. reflexivity.
    - destruct (negb enable && isConnected s);
        eexists _, _, now, (before ++ [t]); rewrite <- app_assoc; reflexivity. }
  split; [intros enable; apply Connect|]. split.
  - unfold _start_camera. destruct (negb (_camera_started self)).
    + apply wait_for_bounded. exact L.
    + exists self, now, (before ++ [t]). rewrite <- app_assoc. reflexivity.
  - intros st rate dd auto. unfold __init__.
    destruct (Connect true (new st rate dd auto)) as (c & s & n & more & H).
    rewrite H. do 3 eexists. reflexivity.
Qed.

(** *** Time and the host's buffer *)

Lemma deliver_timestamp (cb : Callback) (self : EyeTracker) :
  _latest_sample_timestamp (deliver cb self)
  = match gaze_timestamp cb with
    | Some timestamp => timestamp
    | None => _latest_sample_timestamp self
    end.
Proof. by_handler cb. Qed.

(** X7: the tracker time is the timestamp of the most recent primary-gaze
    callback, whether or not the device records (the timestamp is stored
    before the recording flag is looked at); until the first one it is what
    it was, 0 on a new device.  No other callback moves it. *)
Theorem trackerTime_latest_gaze (cbs : list Callback) (self : EyeTracker) :
  trackerTime (deliver_all cbs self)
  = match latest gaze_timestamp cbs with
    | Some timestamp => timestamp
    | None => trackerTime self
    end.
Proof.
  unfold trackerTime.
  induction cbs as [|cb cbs IH] using rev_ind; [reflexivity|].
  rewrite deliver_all_snoc, latest_snoc, deliver_timestamp.
  destruct (gaze_timestamp cb); [reflexivity|exact IH].
Qed.

Lemma gaze_sample_not_blink (self : EyeTracker) (timestamp vec_x vec_y vec_z vergence : float) :
  is_blink_end (gaze_sample self timestamp vec_x vec_y vec_z vergence) = false.
Proof.
  unfold gaze_sample.
  destruct (_latest_gaze_in_screen self) as [? ?].
  destruct (_latest_binocular_gaze_data self) as [[[[[? ?] ?] ?] ?] ?].
  destruct (_latest_pupil_diameter_data self) as [? ?].
  reflexivity.
Qed.

(** What one callback adds to the host's buffer. *)
Lemma deliver_forwards (cb : Callback) (self : EyeTracker) :
  exists added,
    _native_event_buffer (deliver cb self) = _native_event_buffer self ++ added
    /\ List.length added
       = (if _is_reporting_events self then List.length (filter forwards [cb]) else 0%nat)
    /\ filter is_blink_end added = (if _is_reporting_events self then blink_of cb else []).
Proof.
  destruct cb as [| | | | | |[duration|] timestamp]; cbn;
    unfold _handle_connect, _handle_camera_start_response, _handle_gaze_data,
      _handle_binocular_gaze_data, _handle_gaze_in_screen_data, _handle_pupil_diameter,
      _handle_events, _handleNativeEvent, _addNativeEventToBuffer, isReportingEvents,
      api, write;
    cbn;
    try (destruct (_is_reporting_events self) eqn:R; cbn;
         [ eexists; split; [reflexivity|]; cbn; rewrite ?gaze_sample_not_blink;
           split; reflexivity
         | exists []; rewrite app_nil_r; repeat split ]);
    handler_cases;
    try (exists []; rewrite app_nil_r; destruct (_is_reporting_events self); repeat split).
Qed.

(** X8: what reaches the host's buffer.  While the device records, every
    primary-gaze callback and every blink event adds exactly one record, in
    order, after the records the buffer held, and nothing else adds any; the
    blink records are the ends of the blinks with the timestamp and the
    duration received.  While it does not record, no callback adds
    anything. *)
Theorem buffer_growth (cbs : list Callback) (self : EyeTracker) :
  exists added,
    _native_event_buffer (deliver_all cbs self) = _native_event_buffer self ++ added
    /\ List.length added
       = (if isRecordingEnabled self then List.length (filter forwards cbs) else 0%nat)
    /\ filter is_blink_end added
       = (if isRecordingEnabled self then flat_map blink_of cbs else []).
Proof.
  unfold isRecordingEnabled.
  induction cbs as [|cb cbs IH] using rev_ind.
  - exists []. rewrite app_nil_r. destruct (_is_reporting_events self); repeat split.
  - rewrite deliver_all_snoc. destruct IH as (added & B & L & K).
    destruct (deliver_forwards cb (deliver_all cbs self)) as (added' & B' & L' & K').
    destruct (deliver_all_frame cbs self) as (_ & R & _). rewrite R in L', K'.
    exists (added ++ added'). rewrite B', B, <- app_assoc. split; [reflexivity|].
    rewrite length_app, filter_app, filter_app, flat_map_app, length_app, L, L', K, K'.
    cbn [flat_map]. rewrite app_nil_r.
    destruct (_is_reporting_events self); split; reflexivity.
Qed.

(** *** Teardown *)

(** X9: [_close] on any device returns without waiting (no tick is
    consumed) and without raising; it leaves the device disconnected and not
    recording, with no latest sample and no latest gaze position.  It asks
    the SDK to stop the camera and screen tracking whatever the state of the
    device; on a connected device it then asks for the shutdown, a device
    with screen tracking enabled asking once more for screen tracking and
    the camera to stop before it. *)
Theorem close_tears_down (self : EyeTracker) (env : Env) :
  exists self',
    _close self env = Some (Ok tt, self', env)
    /\ isConnected self' = false
    /\ isRecordingEnabled self' = false
    /\ getLastSample self' = None
    /\ getLastGazePosition self' = None
    /\ _frontend_api self' = _frontend_api self ++ teardown_requests self.
Proof.
  unfold _close. rewrite setRecordingState_stop by reflexivity.
  unfold setConnectionState, teardown_requests, isConnected, _stop_camera,
    _stop_screen_tracking, api.
  cbn.
  destruct (_connected self) eqn:C; destruct (_screen_tracking self) eqn:T; cbn;
    eexists; (split; [reflexivity|]); cbn; rewrite <- ?app_assoc; repeat split; auto.
Qed.

(** *** Recording *)

Lemma deliver_camera (cb : Callback) (self : EyeTracker) :
  _camera_started (deliver cb self)
  = match cb with
    | camera_start_response response => is_SUCCESS response
    | _ => _camera_started self
    end.
Proof. by_handler cb. Qed.

Lemma deliver_all_camera_off (cbs : list Callback) (self : EyeTracker) :
  _camera_started self = false ->
  existsb is_camera_ok cbs = false ->
  _camera_started (deliver_all cbs self) = false.
Proof.
  intros C. induction cbs as [|cb cbs IH] using rev_ind; intros E; [exact C|].
  rewrite existsb_app in E. apply orb_false_elim in E. destruct E as [E E'].
  rewrite deliver_all_snoc, deliver_camera.
  destruct cb as [|[|code]| | | | |]; try (apply IH; exact E); try reflexivity.
  discriminate.
Qed.

Lemma callbacks_app (ticks ticks' : list (Tick Callback)) :
  callbacks (ticks ++ ticks') = callbacks ticks ++ callbacks ticks'.
Proof. apply flat_map_app. Qed.

(** [_start_camera] delivers the callbacks of the ticks it consumes to the
    device, after the request when the camera was not started. *)
Lemma start_camera_shape (self self' : EyeTracker) (now now' : float)
  (ticks ticks' : list (Tick Callback)) :
  _start_camera self (now, ticks) = Some (self', (now', ticks')) ->
  exists consumed,
    ticks = consumed ++ ticks'
    /\ self' = deliver_all (callbacks consumed)
                 (if _camera_started self then self else api start_camera_capture self)
    /\ (_camera_started self = true -> consumed = [] /\ now' = now).
Proof.
  unfold _start_camera. destruct (_camera_started self); cbn [negb]; intros H.
  - inversion H. exists []. repeat split.
  - apply wait_for_shape in H. destruct H as (consumed & T & S & _).
    exists consumed. repeat split; try assumption; discriminate.
Qed.

(** What [_start_camera] leaves as it was. *)
Lemma start_camera_keeps (self self' : EyeTracker) (env env' : Env) :
  _start_camera self env = Some (self', env') ->
  _aruco_info self' = _aruco_info self
  /\ _screen_size self' = _screen_size self
  /\ _is_reporting_events self' = _is_reporting_events self
  /\ _latest_sample self' = _latest_sample self
  /\ _latest_gaze_position self' = _latest_gaze_position self.
Proof.
  destruct env as [now ticks], env' as [now' ticks']. intros H.
  apply start_camera_shape in H. destruct H as (consumed & _ & S & _). subst self'.
  match goal with
  | |- context [deliver_all ?cbs ?s] =>
      destruct (deliver_all_settings cbs s) as (A & Z & _);
      destruct (deliver_all_frame cbs s) as (_ & R & L & G & _)
  end.
  rewrite A, Z, R, L, G. destruct (_camera_started self); repeat split.
Qed.

Lemma start_camera_off (self self' : EyeTracker) (now now' : float)
  (ticks ticks' : list (Tick Callback)) :
  _start_camera self (now, ticks) = Some (self', (now', ticks')) ->
  _camera_started self = false ->
  existsb is_camera_ok (callbacks ticks) = false ->
  _camera_started self' = false /\ existsb is_camera_ok (callbacks ticks') = false.
Proof.
  intros H C E. apply start_camera_shape in H. destruct H as (consumed & T & S & _).
  subst ticks self'. rewrite callbacks_app, existsb_app in E.
  apply orb_false_elim in E. destruct E as [E E'].
  split; [|exact E'].
  apply deliver_all_camera_off; [|exact E]. rewrite C. exact C.
Qed.

(** With a table that comes with its screen, the board is registered
    without an exception, and nothing else of the device changes. *)
Lemma initiate_screen_tracking_ok (self : EyeTracker) :
  markers_have_screen self ->
  exists self',
    _initiate_screen_tracking self = (Ok tt, self')
    /\ _aruco_info self' = _aruco_info self
    /\ _screen_size self' = _screen_size self
    /\ _camera_started self' = _camera_started self.
Proof.
  intros M. unfold _initiate_screen_tracking.
  destruct (_aruco_info self) eqn:A.
  - eexists. split; [reflexivity|]. cbn. repeat split.
  - destruct M as [M|M]; [congruence|].
    destruct (_screen_size self) as [[width height]|] eqn:Z; [|congruence].
    eexists. split; [reflexivity|]. cbn. repeat split; assumption.
Qed.

(** The start path of [setRecordingState], step by step. *)
Lemma setRecordingState_start (self : EyeTracker) (env : Env) (r : Result bool)
  (self' : EyeTracker) (env' : Env) :
  _connected self = true -> _screen_tracking self = true -> markers_have_screen self ->
  setRecordingState true self env = Some (r, self', env') ->
  exists camera env1 board tracking,
    _start_camera self env = Some (camera, env1)
    /\ _initiate_screen_tracking camera = (Ok tt, board)
    /\ _start_screen_tracking board env1 = Some (tracking, env')
    /\ r = Ok true
    /\ self' = set_is_reporting_events true (set_is_reporting_events true tracking).
Proof.
  intros C T M H. unfold setRecordingState in H. rewrite C, T in H. cbn [andb] in H.
  destruct (_start_camera self env) as [[camera env1]|] eqn:S1; [|discriminate].
  destruct (start_camera_keeps _ _ _ _ S1) as (A & Z & _).
  assert (M1 : markers_have_screen camera).
  { unfold markers_have_screen. rewrite A, Z. exact M. }
  destruct (initiate_screen_tracking_ok camera M1) as (board & I & _).
  rewrite I in H.
  destruct (_start_screen_tracking board env1) as [[tracking env2]|] eqn:S2; [|discriminate].
  cbn in H. inversion H. subst.
  exists camera, env1, board, tracking. repeat split; assumption.
Qed.

(** X10: [setRecordingState(True)] on a connected device with screen
    tracking enabled, whose marker table is empty or comes with the size of
    the screen.  Whenever the call returns, it returns True and the device
    records; the last call made on the SDK is the start of screen tracking.
    With the camera started the call returns at once, consuming no tick.
    The state of the camera is not looked at after the waits: on a device
    whose camera is not started, and whose requests to start it are never
    acknowledged with SUCCESS, the call still returns True and leaves the
    device recording with the camera not started. *)
Theorem recording_starts_without_camera (self : EyeTracker) (now : float)
  (ticks : list (Tick Callback)) (r : Result bool) (self' : EyeTracker) (env' : Env) :
  _connected self = true ->
  _screen_tracking self = true ->
  markers_have_screen self ->
  setRecordingState true self (now, ticks) = Some (r, self', env') ->
  r = Ok true
  /\ isRecordingEnabled self' = true
  /\ (exists earlier, _frontend_api self' = earlier ++ [start_screen_tracking])
  /\ (_camera_started self = true -> env' = (now, ticks))
  /\ (_camera_started self = false ->
      existsb is_camera_ok (callbacks ticks) = false ->
      _camera_started self' = false).
Proof.
  intros C T M H.
  destruct (setRecordingState_start _ _ _ _ _ C T M H)
    as (camera & [now1 ticks1] & board & tracking & S1 & I & S2 & R & E).
  subst r self'.
  unfold _start_screen_tracking in S2.
  match type of S2 with
  | match ?started with Some _ => _ | None => _ end = _ =>
      destruct started as [[again env2]|] eqn:S3; [|discriminate]
  end.
  inversion S2. subst tracking env'. clear S2.
  assert (MC : markers_have_screen camera).
  { destruct (start_camera_keeps _ _ _ _ S1) as (A & Z & _).
    unfold markers_have_screen. rewrite A, Z. exact M. }
  destruct (initiate_screen_tracking_ok camera MC) as (board' & I' & _ & _ & CB).
  rewrite I in I'. inversion I'. subst board'. clear I'.
  split; [reflexivity|]. split; [reflexivity|]. split; [|split].
  - exists (_frontend_api again). reflexivity.
  - intros On.
    destruct (start_camera_shape _ _ _ _ _ _ S1) as (consumed & Tk & Sc & Now).
    destruct (Now On) as [-> ->]. cbn in Tk. subst ticks1.
    rewrite On in Sc. cbn in Sc. subst camera.
    rewrite CB, On in S3. cbn in S3. inversion S3. reflexivity.
  - intros Off Never.
    destruct (start_camera_off _ _ _ _ _ _ S1 Off Never) as [Off1 Never1].
    rewrite CB, Off1 in S3. cbn [negb] in S3. destruct env2 as [now2 ticks2].
    rewrite <- CB in Off1.
    destruct (start_camera_off _ _ _ _ _ _ S3 Off1 Never1) as [Off2 _].
    exact Off2.
Qed.

(** *** The marker table *)

Lemma setConnectionState_keeps (enable : bool) (self : EyeTracker) (env : Env)
  (connected : bool) (self' : EyeTracker) (env' : Env) :
  setConnectionState enable self env = Some (connected, self', env') ->
  _aruco_info self' = _aruco_info self /\ _screen_size self' = _screen_size self.
Proof.
  unfold setConnectionState. intros H.
  destruct (enable && negb (isConnected self)).
  - destruct env as [now ticks].
    match type of H with
    | context [wait_for _ _ _ _ ?s] =>
        destruct (wait_for _connected now now ticks s) as [[waited [n tl]]|] eqn:W;
        [|discriminate]
    end.
    apply wait_for_shape in W. destruct W as (consumed & _ & S & _).
    match type of S with
    | _ = deliver_all ?cbs ?s => destruct (deliver_all_settings cbs s) as (A & Z & _)
    end.
    rewrite <- S in A, Z. cbn in A, Z.
    destruct (negb (isConnected waited)); inversion H; subst; cbn; split; assumption.
  - destruct (negb enable && isConnected self); inversion H; subst; cbn;
      [destruct (_screen_tracking self)|]; split; reflexivity.
Qed.

Lemma setRecordingState_keeps (recording : bool) (self : EyeTracker) (env : Env)
  (r : Result bool) (self' : EyeTracker) (env' : Env) :
  setRecordingState recording self env = Some (r, self', env') ->
  markers_have_screen self ->
  (exists reporting, r = Ok reporting)
  /\ _aruco_info self' = _aruco_info self /\ _screen_size self' = _screen_size self.
Proof.
  intros H M.
  destruct (recording && _connected self && _screen_tracking self) eqn:B.
  - apply andb_prop in B. destruct B as [B T]. apply andb_prop in B. destruct B as [-> C].
    destruct (setRecordingState_start _ _ _ _ _ C T M H)
      as (camera & env1 & board & tracking & S1 & I & S2 & R & E).
    destruct (start_camera_keeps _ _ _ _ S1) as (A1 & Z1 & _).
    assert (MC : markers_have_screen camera).
    { unfold markers_have_screen. rewrite A1, Z1. exact M. }
    destruct (initiate_screen_tracking_ok camera MC) as (board' & I' & A2 & Z2 & _).
    rewrite I in I'. inversion I'. subst board'. clear I'.
    unfold _start_screen_tracking in S2.
    match type of S2 with
    | match ?started with Some _ => _ | None => _ end = _ =>
        destruct started as [[again env2]|] eqn:S3; [|discriminate]
    end.
    inversion S2. subst tracking env' self' r. cbn.
    assert (K : _aruco_info again = _aruco_info board
                /\ _screen_size again = _screen_size board).
    { destruct (negb (_camera_started board)).
      - destruct (start_camera_keeps _ _ _ _ S3) as (A3 & Z3 & _). split; assumption.
      - inversion S3. split; reflexivity. }
    destruct K as [A3 Z3].
    split; [exists true; reflexivity|]. split; congruence.
  - rewrite (setRecordingState_stop _ _ _ B) in H. inversion H. subst. cbn.
    split; [exists false; reflexivity|]. split; reflexivity.
Qed.

Lemma generate_markers_keeps (Image : Type) (draw : Z -> float -> option Image)
  (sheet : option (list SheetRow)) (physical : float * float) (win_width_pix : float)
  (self : EyeTracker) :
  markers_have_screen self ->
  markers_have_screen (snd (generate_markers Image draw sheet physical win_width_pix self)).
Proof.
  intros M. unfold generate_markers, markers_have_screen.
  destruct sheet as [[|row rows]|]; cbv beta iota; try (left; reflexivity).
  destruct (_display_device self); [|exact M].
  destruct physical as [width height].
  destruct (Helpers.marker_bits ARUCO_DIC); [|right; cbn; discriminate].
  destruct (draw_all Image draw _ _); right; cbn; discriminate.
Qed.

Lemma init_keeps (enable_screen_tracking : bool) (sampling_rate : Z)
  (display_device : option Bounds) (auto_report_events : bool) (env : Env)
  (self : EyeTracker) (env' : Env) :
  __init__ enable_screen_tracking sampling_rate display_device auto_report_events env
  = Some (self, env') ->
  _aruco_info self = [].
Proof.
  unfold __init__. intros H.
  destruct (setConnectionState true
              (new enable_screen_tracking sampling_rate display_device auto_report_events)
              env) as [[[b s] e]|] eqn:S; [|discriminate].
  apply setConnectionState_keeps in S. destruct S as [A _].
  inversion H. subst self env'. exact A.
Qed.

Lemma getIOHubEventObject_keeps (arctan2 : float -> float -> float)
  (pow : float -> Z -> float) (degrees : float -> float) (native_event_data : NativeEvent)
  (event_id : Z) (logged_time : float) (self : EyeTracker) :
  _aruco_info (snd (_getIOHubEventObject arctan2 pow degrees native_event_data event_id
                      logged_time self))
  = _aruco_info self
  /\ _screen_size (snd (_getIOHubEventObject arctan2 pow degrees native_event_data event_id
                          logged_time self))
     = _screen_size self.
Proof. destruct native_event_data; split; reflexivity. Qed.

Lemma close_keeps (self : EyeTracker) (env : Env) (r : Result unit) (self' : EyeTracker)
  (env' : Env) :
  _close self env = Some (r, self', env') ->
  _aruco_info self' = _aruco_info self /\ _screen_size self' = _screen_size self.
Proof.
  unfold _close. rewrite setRecordingState_stop by reflexivity.
  match goal with
  | |- context [setConnectionState false ?s env] =>
      destruct (setConnectionState false s env) as [[[b s'] e']|] eqn:S; [|discriminate]
  end.
  apply setConnectionState_keeps in S. destruct S as [A Z].
  intros H. inversion H. subst s' e' r. split; [exact A | exact Z].
Qed.

(** Every device a program can hold has a marker table that is empty or
    comes with the size of the screen. *)
Lemma reachable_markers (self : EyeTracker) : reachable self -> markers_have_screen self.
Proof.
  induction 1 as [st rate dd auto env self env' H
                 | cb self _ IH
                 | enable self env b self' env' _ IH H
                 | recording self env r self' env' _ IH H
                 | Image draw sheet physical width self _ IH
                 | arctan2 pow degrees e id t self _ IH
                 | self env r self' env' _ IH H].
  - left. exact (init_keeps _ _ _ _ _ _ _ H).
  - destruct (deliver_settings cb self) as (A & Z & _).
    unfold markers_have_screen. rewrite A, Z. exact IH.
  - apply setConnectionState_keeps in H. destruct H as [A Z].
    unfold markers_have_screen. rewrite A, Z. exact IH.
  - destruct (setRecordingState_keeps _ _ _ _ _ _ H IH) as (_ & A & Z).
    unfold markers_have_screen. rewrite A, Z. exact IH.
  - apply generate_markers_keeps. exact IH.
  - destruct (getIOHubEventObject_keeps arctan2 pow degrees e id t self) as (A & Z).
    unfold markers_have_screen. rewrite A, Z. exact IH.
  - apply close_keeps in H. destruct H as [A Z].
    unfold markers_have_screen. rewrite A, Z. exact IH.
Qed.

(** X11: no call of [setRecordingState] raises on a device a program can
    hold: the device the constructor returns, after any callbacks of the SDK
    and any calls of [setConnectionState], [setRecordingState],
    [generate_markers], [_getIOHubEventObject] and [_close].  The one
    exception of the method, the TypeError of reading the size of a screen
    that was never stored, needs a marker table with rows, and
    [generate_markers] stores the size before it stores such a table. *)
Theorem reachable_never_raises (self : EyeTracker) (recording : bool) (env : Env)
  (r : Result bool) (self' : EyeTracker) (env' : Env) :
  reachable self ->
  setRecordingState recording self env = Some (r, self', env') ->
  exists reporting, r = Ok reporting.
Proof.
  intros Reach H.
  destruct (setRecordingState_keeps _ _ _ _ _ _ H (reachable_markers self Reach)) as [Okay _].
  exact Okay.
Qed.

Lemma draw_all_length (Image : Type) (draw : Z -> float -> option Image)
  (cm2pix : float -> float) (table : list Marker) :
  forall aruco_images,
    draw_all Image draw cm2pix table = Some aruco_images ->
    List.length aruco_images = List.length table.
Proof.
  induction table as [|img table IH]; intros aruco_images H; cbn in H.
  - inversion H. reflexivity.
  - destruct (draw (aruco_id img) (cm2pix (size_cm img))); [|discriminate].
    destruct (draw_all Image draw cm2pix table); [|discriminate].
    inversion H. cbn. f_equal. apply IH. reflexivity.
Qed.

(** X12: when [generate_markers] returns its pair, the sheet had rows; the
    values returned are the rows of the sheet as read, in order, with the
    size of the whole image of each marker; there is one image for each
    row; and the board that [_initiate_screen_tracking] registers
    afterwards has the size of the screen in metres (the physical
    dimensions times 1e-3), the identifiers of the sheet in order, and for
    each marker of image size s the side 7 s / 9 of the marker without its
    border (the dictionary has 5 bits a side) and the corner at the centre
    minus half that side, all times 1e-2. *)
Theorem generate_markers_then_board (Image : Type) (draw : Z -> float -> option Image)
  (sheet : option (list SheetRow)) (physical : float * float) (win_width_pix : float)
  (self self' : EyeTracker) (values : list (Z * float * float * float))
  (aruco_images : list Image) :
  generate_markers Image draw sheet physical win_width_pix self
  = (markers Image values aruco_images, self') ->
  exists rows,
    sheet = Some rows
    /\ rows <> []
    /\ values
       = map (fun row => (sheet_aruco_id row, pos_x_cm row, pos_y_cm row, size_image_cm row))
           rows
    /\ List.length aruco_images = List.length rows
    /\ _initiate_screen_tracking self'
       = (Ok tt,
          api (register_screen_board (fst physical * milli) (snd physical * milli) ARUCO_DIC
                 (map sheet_aruco_id rows)
                 (map (fun row =>
                         let size := 7 * size_image_cm row / 9 in
                         ((pos_x_cm row - size / 2) * centi,
                          (pos_y_cm row - size / 2) * centi,
                          size * centi))
                    rows))
            self').
Proof.
  intros H. unfold generate_markers in H.
  destruct sheet as [[|row rows]|]; try discriminate.
  destruct (_display_device self); [|discriminate].
  destruct physical as [width height].
  change (Helpers.marker_bits ARUCO_DIC) with (Some 5%Z) in H. cbv beta iota in H.
  match type of H with
  | context [draw_all Image draw ?f ?t] =>
      destruct (draw_all Image draw f t) as [images|] eqn:D; [|discriminate]
  end.
  inversion H. subst values aruco_images. clear H.
  exists (row :: rows).
  split; [reflexivity|]. split; [discriminate|]. split; [reflexivity|]. split.
  - apply draw_all_length in D. rewrite D. apply length_map.
  - unfold _initiate_screen_tracking. cbn [_aruco_info _screen_size set_aruco_info
      set_screen_size map fst snd].
    do 2 f_equal.
    change (aruco_id (marker_of 5 row) :: map aruco_id (map (marker_of 5) rows))
      with (map aruco_id (map (marker_of 5) (row :: rows))).
    match goal with
    | |- context [?p :: map ?f (map (marker_of 5) rows)] =>
        change (p :: map f (map (marker_of 5) rows))
          with (map f (map (marker_of 5) (row :: rows)))
    end.
    rewrite !map_map. reflexivity.
Qed.

(** X13: [generate_markers] returns nothing exactly when the sheet is
    missing or has no row.  It then writes the warning and leaves the marker
    table empty, whatever table an earlier call had stored, with the screen
    size and the calls made on the SDK as they were; a board registration
    that follows registers nothing. *)
Theorem generate_markers_without_sheet (Image : Type) (draw : Z -> float -> option Image)
  (sheet : option (list SheetRow)) (physical : float * float) (win_width_pix : float)
  (self : EyeTracker) :
  (fst (generate_markers Image draw sheet physical win_width_pix self) = no_markers Image
   <-> sheet = None \/ sheet = Some [])
  /\ (sheet = None \/ sheet = Some [] ->
      let self' := snd (generate_markers Image draw sheet physical win_width_pix self) in
      _aruco_info self' = []
      /\ _screen_size self' = _screen_size self
      /\ log self' = log self ++ [print2err MARKERS_NOT_DEFINED_MSG]
      /\ _frontend_api self' = _frontend_api self
      /\ _frontend_api (snd (_initiate_screen_tracking self')) = _frontend_api self).
Proof.
  split; [split|].
  - unfold generate_markers.
    destruct sheet as [[|row rows]|]; auto.
    destruct (_display_device self); [|discriminate].
    destruct physical as [width height].
    destruct (Helpers.marker_bits ARUCO_DIC); [|discriminate].
    destruct (draw_all Image draw _ _); discriminate.
  - intros [-> | ->]; reflexivity.
  - intros [-> | ->]; cbn; repeat split.
Qed.

(** *** From the stream to the latest gaze position *)

(** X14: the way of a gaze position through a recording device.  After a
    gaze-in-screen position was received, the next primary-gaze callback
    puts a record at the end of the host's buffer; the latest gaze position
    is still what it was before; once the host has that record translated by
    [_getIOHubEventObject], [getLastGazePosition()] is the most recent
    gaze-in-screen position received before the primary-gaze callback, in
    display coordinates, and [getLastSample()] is the translated event (the
    translation raises nothing: the components of the record are numpy
    float64). *)
Theorem gaze_position_from_stream (arctan2 : float -> float -> float)
  (pow : float -> Z -> float) (degrees : float -> float) (self : EyeTracker)
  (before : list Callback) (received : float * float)
  (timestamp vec_x vec_y vec_z vergence : float) (event_id : Z) (logged_time : float) :
  isRecordingEnabled self = true ->
  latest gaze_in_screen_channel before = Some received ->
  let device := deliver_all (before ++ [gaze_data timestamp vec_x vec_y vec_z vergence]) self in
  exists earlier sample,
    _native_event_buffer device = earlier ++ [sample]
    /\ getLastGazePosition device = getLastGazePosition self
    /\ getLastGazePosition
         (snd (_getIOHubEventObject arctan2 pow degrees sample event_id logged_time device))
       = Some (_eyeTrackerToDisplayCoords self received)
    /\ exists event,
         fst (_getIOHubEventObject arctan2 pow degrees sample event_id logged_time device)
         = Ok event
         /\ getLastSample
              (snd (_getIOHubEventObject arctan2 pow degrees sample event_id logged_time
                      device))
            = Some event.
Proof.
  intros Rec Seen device. subst device. rewrite deliver_all_snoc.
  destruct (deliver_all_frame before self) as (_ & R & _ & G & _).
  destruct (deliver_all_caches before self) as (S & _ & _). rewrite Seen in S.
  unfold isRecordingEnabled in Rec. rewrite Rec in R.
  revert R G S. generalize (deliver_all before self). intros s R G S.
  cbn [deliver]. unfold _handle_gaze_data, _handleNativeEvent, isReportingEvents.
  cbn [_is_reporting_events set_latest_sample_timestamp]. rewrite R.
  unfold _addNativeEventToBuffer. cbn [_native_event_buffer set_native_event_buffer
    set_latest_sample_timestamp].
  eexists _, _. split; [reflexivity|].
  unfold getLastGazePosition, getLastSample, gaze_sample.
  cbn [_latest_gaze_in_screen _latest_binocular_gaze_data _latest_pupil_diameter_data
       set_latest_sample_timestamp _latest_gaze_position set_native_event_buffer].
  rewrite S.
  destruct (_eyeTrackerToDisplayCoords self received) as [xpos ypos].
  destruct (_latest_binocular_gaze_data s) as [[[[[rx ry] rz] lx] ly] lz].
  destruct (_latest_pupil_diameter_data s) as [r_pupil l_pupil].
  split; [exact G|]. split; [reflexivity|].
  eexists. split; reflexivity.
Qed.

End DeviceFacts.

Lemma setConnectionState_connects_witness :
  exists consumed,
    [mkTick [Tracker.connect_cb SUCCESS] 10.5; mkTick [] 11] = consumed ++ [mkTick [] 11]
    /\ true = existsb TrackerSpec.is_connect_ok (TrackerSpec.callbacks consumed).
Proof.
  assert (Run : Tracker.setConnectionState true
                  (Tracker.new true 60 (Some TrackerSpec.display_pix) false)
                  (10, [mkTick [Tracker.connect_cb SUCCESS] 10.5; mkTick [] 11])
                = Some (true, TrackerSpec.tracked_device, (10.5, [mkTick [] 11])))
    by (vm_compute; reflexivity).
  destruct (setConnectionState_connects
              (Tracker.new true 60 (Some TrackerSpec.display_pix) false) _ _ _ _ _ _
              eq_refl Run)
    as (consumed & Ticks & Connected & _).
  exists consumed. split; assumption.
Defined.

Lemma bounded_waits_return_witness :
  exists self' now' more,
    Tracker._start_camera (Tracker.new true 60 None false)
      (10, [mkTick [] 10.5] ++ mkTick [] 11.5 :: [mkTick [] 12])
    = Some (self', (now', more ++ [mkTick [] 12])).
Proof.
  apply (proj1 (proj2 (bounded_waits_return (Tracker.new true 60 None false) 10
                         [mkTick [] 10.5] [mkTick [] 12] (mkTick [] 11.5) eq_refl))).
Defined.

Lemma recording_starts_without_camera_witness :
  match Tracker.setRecordingState true TrackerSpec.tracked_device
          (10.5, TrackerSpec.ticks_no_camera) with
  | Some (r, self', _) =>
      r = Ok true
      /\ Tracker.isRecordingEnabled self' = true
      /\ Tracker._camera_started self' = false
  | None => False
  end.
Proof.
  assert (Connected : Tracker._connected TrackerSpec.tracked_device = true)
    by (vm_compute; reflexivity).
  assert (Tracking : Tracker._screen_tracking TrackerSpec.tracked_device = true)
    by (vm_compute; reflexivity).
  assert (Table : TrackerSpec.markers_have_screen TrackerSpec.tracked_device)
    by (left; vm_compute; reflexivity).
  assert (Off : Tracker._camera_started TrackerSpec.tracked_device = false)
    by (vm_compute; reflexivity).
  destruct (Tracker.setRecordingState true TrackerSpec.tracked_device
              (10.5, TrackerSpec.ticks_no_camera)) as [[[r self'] env']|] eqn:H.
  - destruct (recording_starts_without_camera _ _ _ _ _ _ Connected Tracking Table H)
      as (Returned & Recording & _ & _ & Camera).
    repeat split; try assumption. apply Camera; [exact Off | vm_compute; reflexivity].
  - vm_compute in H. discriminate.
Defined.

Lemma reachable_never_raises_witness :
  match Tracker.setRecordingState true
          (snd (Tracker.generate_markers unit TrackerSpec.draw_blank
                  (Some TrackerSpec.two_markers) TrackerSpec.physical_dimensions 1920
                  TrackerSpec.tracked_device))
          (10.5, TrackerSpec.ticks_no_camera) with
  | Some (r, _, _) => exists reporting, r = Ok reporting
  | None => False
  end.
Proof.
  assert (Init : Tracker.__init__ true 60 (Some TrackerSpec.display_pix) false
                   (10, [mkTick [Tracker.connect_cb SUCCESS] 10.5])
                 = Some (TrackerSpec.tracked_device, (10.5, [])))
    by (vm_compute; reflexivity).
  destruct (Tracker.setRecordingState true _ (10.5, TrackerSpec.ticks_no_camera))
    as [[[r self'] env']|] eqn:H.
  - refine (reachable_never_raises _ _ _ _ _ _ _ H).
    apply TrackerSpec.reach_generate_markers.
    exact (TrackerSpec.reach_init _ _ _ _ _ _ _ Init).
  - vm_compute in H. discriminate.
Defined.

Lemma generate_markers_then_board_witness :
  match Tracker.generate_markers unit TrackerSpec.draw_blank (Some TrackerSpec.two_markers)
          TrackerSpec.physical_dimensions 1920 TrackerSpec.tracked_device with
  | (Tracker.markers _ values aruco_images, self') =>
      List.length aruco_images = 2%nat
      /\ exists positions,
           Tracker._initiate_screen_tracking self'
           = (Ok tt,
              Tracker.api
                (Tracker.register_screen_board (520 * Tracker.milli) (290 * Tracker.milli)
                   Tracker.ARUCO_DIC [3%Z; 7%Z] positions)
                self')
  | _ => False
  end.
Proof.
  destruct (Tracker.generate_markers unit TrackerSpec.draw_blank
              (Some TrackerSpec.two_markers) TrackerSpec.physical_dimensions 1920
              TrackerSpec.tracked_device) as [[|values aruco_images|e] self'] eqn:H;
    try (vm_compute in H; discriminate).
  destruct (generate_markers_then_board _ _ _ _ _ _ _ _ _ H)
    as (rows & Sheet & _ & _ & Images & Board).
  inversion Sheet. subst rows. split; [exact Images|].
  eexists. exact Board.
Defined.

Lemma generate_markers_without_sheet_witness :
  Tracker._aruco_info
    (snd (Tracker.generate_markers unit TrackerSpec.draw_blank None
            TrackerSpec.physical_dimensions 1920
            (snd (Tracker.generate_markers unit TrackerSpec.draw_blank
                    (Some TrackerSpec.two_markers) TrackerSpec.physical_dimensions 1920
                    TrackerSpec.tracked_device))))
  = [].
Proof.
  apply (proj2 (generate_markers_without_sheet unit TrackerSpec.draw_blank None
                  TrackerSpec.physical_dimensions 1920 _) (or_introl eq_refl)).
Defined.

Lemma gaze_position_from_stream_witness :
  exists earlier sample,
    Tracker._native_event_buffer
      (Tracker.deliver_all (TrackerSpec.callbacks_before ++ [Tracker.gaze_data 5 0 0 (-1) 1])
         TrackerSpec.recording_device)
    = earlier ++ [sample]
    /\ Tracker.getLastGazePosition
         (snd (Tracker._getIOHubEventObject (fun y x => y / x) (fun x _ => x * x)
                 (fun x => x * 57.25) sample 1 12.5
                 (Tracker.deliver_all
                    (TrackerSpec.callbacks_before ++ [Tracker.gaze_data 5 0 0 (-1) 1])
                    TrackerSpec.recording_device)))
       = Some (480, 270).
Proof.
  assert (Recording : Tracker.isRecordingEnabled TrackerSpec.recording_device = true)
    by (vm_compute; reflexivity).
  assert (Seen : latest TrackerSpec.gaze_in_screen_channel TrackerSpec.callbacks_before
                 = Some (0.75, 0.25))
    by (vm_compute; reflexivity).
  destruct (gaze_position_from_stream (fun y x => y / x) (fun x _ => x * x)
              (fun x => x * 57.25) TrackerSpec.recording_device
              TrackerSpec.callbacks_before (0.75, 0.25) 5 0 0 (-1) 1 1 12.5
              Recording Seen)
    as (earlier & sample & Buffer & _ & Position & _).
  exists earlier, sample. split; [exact Buffer | exact Position].
Defined.

(** ** adhawkCalibrationGraphics.py: the prompt, the requests and the waits *)

Section RunFacts.

Import CalibrationGraphics CalibrationSpec.

Lemma graphics_callbacks_cons (t : Tick Callback) (ticks : list (Tick Callback)) :
  callbacks (t :: ticks) = delivered t ++ callbacks ticks.
Proof. reflexivity. Qed.

(** X15: the prompt is answered by the first press of space or escape.  On
    an empty message queue [_showSystemSetupMessageScreen] returns True when
    the first such press among the callbacks of the ticks is a space, False
    when it is an escape, and does not return while there is none; other
    keys, key releases and the callbacks of the SDK do not answer it.  It
    consumes the ticks up to the one that delivers that press and no tick
    after it. *)
Theorem prompt_answered_by_first_key (ticks : list (Tick Callback)) (now : float)
  (self : Graphics) :
  _msg_queue self = [] ->
  snd (fst (_showSystemSetupMessageScreen ticks now self))
  = answer (first_some key_msg (callbacks ticks))
  /\ (forall before t rest m,
        ticks = before ++ t :: rest ->
        first_some key_msg (callbacks before) = None ->
        first_some key_msg (delivered t) = Some m ->
        ticks_of (snd (_showSystemSetupMessageScreen ticks now self)) = rest
        /\ now_of (snd (_showSystemSetupMessageScreen ticks now self)) = clock t).
Proof.
  revert now self.
  induction ticks as [|t ticks IH]; intros now self Q; rewrite screen_eq, Q.
  - split; [reflexivity|]. intros [|? ?] ? ? ? E; discriminate.
  - destruct (deliver_all_queue (delivered t) self) as (more & Q1 & Quiet & Key).
    rewrite Q in Q1. cbn [app] in Q1.
    rewrite graphics_callbacks_cons, first_some_app.
    destruct (first_some key_msg (delivered t)) as [m|] eqn:K.
    + destruct (Key m eq_refl) as (queue & E). rewrite E in Q1. clear E.
      rewrite screen_eq, Q1.
      split.
      * destruct m; reflexivity.
      * intros before t0 rest m0 E NoKey K0.
        destruct before as [|b before].
        -- inversion E. subst t0 rest. destruct m; split; reflexivity.
        -- inversion E. subst b ticks.
           rewrite graphics_callbacks_cons, first_some_app, K in NoKey. discriminate.
    + specialize (Quiet eq_refl). rewrite Quiet in Q1. clear Quiet.
      destruct (IH (clock t) (deliver_all (delivered t) self) Q1) as [Answer Consumed].
      destruct (_showSystemSetupMessageScreen ticks (clock t)
                  (deliver_all (delivered t) self)) as [[obs res] w].
      split; [exact Answer|].
      intros before t0 rest m0 E NoKey K0.
      destruct before as [|b before].
      * inversion E. subst t0 rest. congruence.
      * inversion E. subst b ticks.
        rewrite graphics_callbacks_cons, first_some_app, K in NoKey.
        exact (Consumed before t0 rest m0 eq_refl NoKey K0).
Qed.

(** *** The requests of a run *)

Lemma deliver_type (cb : Callback) (self : Graphics) :
  _calibration_type (deliver cb self) = _calibration_type self.
Proof.
  destruct cb as [[key|key] now|[ack|]|ack]; cbn;
    unfold _handleEvent, _handleEvents, _handleCalibrationGuiResponse; cbn;
    repeat match goal with
           | |- context [if ?b then _ else _] => destruct b; cbn
           end;
    reflexivity.
Qed.

Lemma deliver_all_type (cbs : list Callback) (self : Graphics) :
  _calibration_type (deliver_all cbs self) = _calibration_type self.
Proof.
  induction cbs as [|cb cbs IH] using rev_ind; [reflexivity|].
  rewrite graphics_deliver_all_app. cbn. rewrite deliver_type. exact IH.
Qed.

Lemma num_points_type (self self' : Graphics) :
  _calibration_type self' = _calibration_type self -> num_points self' = num_points self.
Proof. unfold num_points. intros ->. reflexivity. Qed.

(** The observations of a polling loop hold no request, and the loop
    leaves the two settings as they were. *)
Lemma poll_requests (phase_ended : Graphics -> bool) (ticks : list (Tick Callback))
  (now : float) (self : Graphics) :
  requests (fst (fst (poll phase_ended ticks now self))) = []
  /\ num_points (self_of (snd (poll phase_ended ticks now self))) = num_points self
  /\ _randomize (self_of (snd (poll phase_ended ticks now self))) = _randomize self.
Proof.
  destruct (poll_shape phase_ended ticks now self) as (cbs & H).
  destruct (poll phase_ended ticks now self) as [[obs exit] w]. cbn [fst snd].
  destruct H as (S & H). rewrite S.
  split; [|split; [apply num_points_type, deliver_all_type | apply deliver_all_randomize]].
  destruct exit as [[|]|].
  - destruct H as (-> & _). apply requests_Recv.
  - destruct H as (-> & _). rewrite requests_app, requests_Recv. reflexivity.
  - destruct H as (-> & _). apply requests_Recv.
Qed.

Lemma calibration_phase_requests (w : World) :
  requests_at (self_of w) (status (calibration_phase w))
    (autotune_gui :: requests (trace (calibration_phase w)))
  /\ status (calibration_phase w) <> Blocked AwaitingUserStart
  /\ status (calibration_phase w) <> Blocked Yielding
  /\ status (calibration_phase w) <> Blocked Autotuning
  /\ (forall b, status (calibration_phase w) = Returned b ->
       requests (trace (calibration_phase w)) <> []).
Proof.
  unfold calibration_phase.
  change (num_points (set_timeout_time_start 0 (self_of w))) with (num_points (self_of w)).
  destruct (num_points (self_of w)) as [n|] eqn:N.
  - destruct (poll_requests _calibration_ended (ticks_of w) (now_of w)
                (set_timeout_time_start 0 (self_of w))) as (Q & _ & _).
    destruct (poll _calibration_ended (ticks_of w) (now_of w)
                (set_timeout_time_start 0 (self_of w))) as [[obs exit] w'].
    cbn [fst snd] in Q.
    assert (R : requests (Call (start_calibration_gui n (_randomize (self_of w))) :: obs)
                = [start_calibration_gui n (_randomize (self_of w))]).
    { change (requests (Call ?r :: obs)) with (r :: requests obs). rewrite Q. reflexivity. }
    destruct exit; cbn [trace status]; cbn [_randomize set_timeout_time_start]; rewrite R;
      cbn [requests_at]; (split; [|repeat split; try discriminate]).
    + right. right. exists n. rewrite N. split; reflexivity.
    + exists n. rewrite N. split; reflexivity.
  - cbn [trace status]. cbn. rewrite N. repeat split; discriminate.
Qed.

Lemma autotune_phase_requests (w : World) :
  requests_at (self_of w) (status (autotune_phase w)) (requests (trace (autotune_phase w)))
  /\ status (autotune_phase w) <> Blocked AwaitingUserStart
  /\ status (autotune_phase w) <> Blocked Yielding
  /\ requests (trace (autotune_phase w)) <> [].
Proof.
  unfold autotune_phase.
  destruct (poll_requests _autotune_ended (ticks_of w) (now_of w) (self_of w))
    as (Q & N & R).
  destruct (poll _autotune_ended (ticks_of w) (now_of w) (self_of w)) as [[obs exit] w'].
  cbn [fst snd] in Q, N, R.
  assert (A : requests (Call autotune_gui :: obs) = [autotune_gui]).
  { change (requests (Call ?r :: obs)) with (r :: requests obs). rewrite Q. reflexivity. }
  destruct exit as [exit|].
  - destruct (_autotune_successful (self_of w')).
    + cbn [trace status]. rewrite requests_app, A. cbn [app].
      destruct (calibration_phase_requests w') as (S & N1 & N2 & N3 & _).
      unfold requests_at in *. rewrite N, R in S.
      split; [exact S|]. repeat split; try assumption. discriminate.
    + cbn [trace status]. rewrite A. cbn. split; [right; left; reflexivity|].
      repeat split; discriminate.
  - cbn [trace status]. rewrite A. cbn. repeat split; discriminate.
Qed.

(** The requests of a run at its status. *)
Lemma run_requests (self : Graphics) (now : float) (ticks : list (Tick Callback)) :
  requests_at self (status (runCalibration self now ticks))
    (requests (trace (runCalibration self now ticks))).
Proof.
  unfold runCalibration.
  destruct (screen_shape ticks now self) as (cbs & Obs & Self).
  destruct (_showSystemSetupMessageScreen ticks now self) as [[obs res] w].
  cbn [fst snd] in Obs, Self. subst obs.
  destruct res as [res|]; [|cbn; apply requests_Recv].
  destruct (ticks_of w) as [|t rest]; [cbn; apply requests_Recv|].
  destruct res; cbn [negb].
  - cbn [trace status]. rewrite !requests_app, !requests_Recv. cbn [app].
    match goal with
    | |- context [autotune_phase ?w1] =>
        destruct (autotune_phase_requests w1) as (S & _); cbn [self_of] in S
    end.
    destruct (getNextMsg_keeps (deliver_all cbs self)) as (_ & _ & T & R).
    assert (N' : num_points (deliver_all (delivered t) (self_of w)) = num_points self).
    { apply num_points_type. rewrite deliver_all_type, Self, T. apply deliver_all_type. }
    assert (R' : _randomize (deliver_all (delivered t) (self_of w)) = _randomize self).
    { rewrite deliver_all_randomize, Self, R. apply deliver_all_randomize. }
    unfold requests_at in *. rewrite N', R' in S. exact S.
  - cbn [trace status]. rewrite requests_app, !requests_Recv. cbn. left. reflexivity.
Qed.

(** X16: the requests of a run, whatever the object and whatever the
    environment does.  A run makes no request, or the autotune request
    alone, or the autotune request followed by one calibration request; the
    calibration request carries the number of points of the configured type
    in the table of calibration methods and the randomize setting.  So there
    is no calibration request without the autotune request before it, and
    none of the two is made twice. *)
Theorem runCalibration_requests (self : Graphics) (now : float)
  (ticks : list (Tick Callback)) :
  requests (trace (runCalibration self now ticks)) = []
  \/ requests (trace (runCalibration self now ticks)) = [autotune_gui]
  \/ exists n,
       num_points self = Some n
       /\ requests (trace (runCalibration self now ticks))
          = [autotune_gui; start_calibration_gui n (_randomize self)].
Proof.
  pose proof (run_requests self now ticks) as H. unfold requests_at in H.
  destruct (status (runCalibration self now ticks)) as [[| | |]|b|e]; auto.
  destruct H as (_ & _ & H). auto.
Qed.

Lemma dict_get_methods (key : string) :
  dict_get calibration_methods key <> None
  <-> In key ["THREE_POINTS"; "FIVE_POINTS"; "NINE_POINTS"; "THIRTEEN_POINTS"]%string.
Proof.
  unfold calibration_methods. cbn [dict_get In].
  split.
  - intros H.
    destruct (String.eqb_spec "THREE_POINTS" key); [auto|].
    destruct (String.eqb_spec "FIVE_POINTS" key); [auto|].
    destruct (String.eqb_spec "NINE_POINTS" key); [auto|].
    destruct (String.eqb_spec "THIRTEEN_POINTS" key); [auto 6|].
    contradiction.
  - intros [<-|[<-|[<-|[<-|[]]]]]; cbn; discriminate.
Qed.

(** X17: the one exception of a run.  A run that raises raises
    UnboundLocalError; it has made the autotune request and no calibration
    request, and the configured calibration type is none of THREE_POINTS,
    FIVE_POINTS, NINE_POINTS and THIRTEEN_POINTS (a type that is absent
    included): the local [num_points] was never bound.  With one of the four
    types no run raises. *)
Theorem runCalibration_raises_unbound (self : Graphics) (now : float)
  (ticks : list (Tick Callback)) (e : Exception) :
  status (runCalibration self now ticks) = Raised e ->
  e = UnboundLocalError
  /\ requests (trace (runCalibration self now ticks)) = [autotune_gui]
  /\ forall name,
       _calibration_type self = Some name ->
       ~ In name ["THREE_POINTS"; "FIVE_POINTS"; "NINE_POINTS"; "THIRTEEN_POINTS"]%string.
Proof.
  intros H. pose proof (run_requests self now ticks) as R. rewrite H in R.
  destruct R as (E & N & R). split; [exact E|]. split; [exact R|].
  intros name T In. apply dict_get_methods in In.
  unfold num_points in N. rewrite T in N. contradiction.
Qed.

(** *** Waiting without an answer *)

Lemma quiet_deliver (cb : Callback) (self : Graphics) :
  settles cb = false ->
  flags (deliver cb self) = flags self
  /\ _timeout_time_start (deliver cb self) = _timeout_time_start self
  /\ (forall m, key_msg cb = Some m -> m = SPACE_KEY_ACTION).
Proof.
  destruct cb as [[key|key] now|[ack|]|[|code]]; cbn;
    unfold _handleEvent, _handleEvents, _handleCalibrationGuiResponse; cbn;
    intros S; try discriminate; try rewrite S;
    try (destruct ((key =? " ") || (key =? "space"))%string);
    repeat split; try reflexivity; intros m E; congruence.
Qed.

Lemma quiet_deliver_all (cbs : list Callback) :
  forall self : Graphics,
    existsb settles cbs = false ->
    Forall (fun m => m = SPACE_KEY_ACTION) (_msg_queue self) ->
    flags (deliver_all cbs self) = flags self
    /\ _timeout_time_start (deliver_all cbs self) = _timeout_time_start self
    /\ Forall (fun m => m = SPACE_KEY_ACTION) (_msg_queue (deliver_all cbs self)).
Proof.
  induction cbs as [|cb cbs IH]; intros self Q A; [repeat split; exact A|].
  cbn [existsb] in Q. apply orb_false_elim in Q. destruct Q as [Q Q'].
  destruct (quiet_deliver cb self Q) as (F & T & K).
  assert (A' : Forall (fun m => m = SPACE_KEY_ACTION) (_msg_queue (deliver cb self))).
  { rewrite deliver_queue. apply Forall_app. split; [exact A|].
    destruct (key_msg cb) as [m|]; [|constructor].
    constructor; [apply K; reflexivity|constructor]. }
  destruct (IH (deliver cb self) Q' A') as (F' & T' & A'').
  change (deliver_all (cb :: cbs) self) with (deliver_all cbs (deliver cb self)).
  repeat split; [congruence | congruence | exact A''].
Qed.

Lemma settles_callbacks_cons (t : Tick Callback) (ticks : list (Tick Callback)) :
  existsb settles (callbacks (t :: ticks)) = false ->
  existsb settles (delivered t) = false /\ existsb settles (callbacks ticks) = false.
Proof.
  rewrite graphics_callbacks_cons, existsb_app. apply orb_false_elim.
Qed.

(** A prompt that meets no settling callback is not answered with escape,
    and leaves the flags and the timer as they were. *)
Lemma quiet_prompt (ticks : list (Tick Callback)) :
  forall (now : float) (self : Graphics),
    existsb settles (callbacks ticks) = false ->
    Forall (fun m => m = SPACE_KEY_ACTION) (_msg_queue self) ->
    snd (fst (_showSystemSetupMessageScreen ticks now self)) <> Some false
    /\ flags (self_of (snd (_showSystemSetupMessageScreen ticks now self))) = flags self
    /\ _timeout_time_start (self_of (snd (_showSystemSetupMessageScreen ticks now self)))
       = _timeout_time_start self
    /\ Forall (fun m => m = SPACE_KEY_ACTION)
         (_msg_queue (self_of (snd (_showSystemSetupMessageScreen ticks now self))))
    /\ existsb settles (callbacks (ticks_of (snd (_showSystemSetupMessageScreen ticks now self))))
       = false
    /\ (snd (fst (_showSystemSetupMessageScreen ticks now self)) = None ->
        ticks_of (snd (_showSystemSetupMessageScreen ticks now self)) = []).
Proof.
  assert (Answered : forall ticks now self m queue,
            existsb settles (callbacks ticks) = false ->
            _msg_queue self = m :: queue ->
            Forall (fun m => m = SPACE_KEY_ACTION) (m :: queue) ->
            _showSystemSetupMessageScreen ticks now self
            = ([], Some true, mkWorld (set_msg_queue queue self) now ticks)
            /\ Forall (fun m => m = SPACE_KEY_ACTION) queue).
  { intros tk now self m queue Q E A. rewrite screen_eq, E.
    inversion A as [|? ? M A']. subst. split; [reflexivity | exact A']. }
  induction ticks as [|t ticks IH]; intros now self Q A.
  - destruct (_msg_queue self) as [|m queue] eqn:E.
    + rewrite screen_eq, E. cbn [fst snd self_of ticks_of]. rewrite E.
      split; [discriminate|]. repeat split. constructor.
    + destruct (Answered [] now self m queue Q E A) as [-> A'].
      cbn [fst snd self_of ticks_of]. split; [discriminate|].
      repeat split; try assumption; try discriminate.
  - destruct (_msg_queue self) as [|m queue] eqn:E.
    + rewrite screen_eq, E.
      destruct (settles_callbacks_cons _ _ Q) as [Qt Q'].
      assert (A0 : Forall (fun m => m = SPACE_KEY_ACTION) (_msg_queue self))
        by (rewrite E; constructor).
      destruct (quiet_deliver_all (delivered t) self Qt A0) as (F & T & A').
      destruct (IH (clock t) (deliver_all (delivered t) self) Q' A')
        as (R & F' & T' & A'' & Q'' & N).
      destruct (_showSystemSetupMessageScreen ticks (clock t)
                  (deliver_all (delivered t) self)) as [[obs res] w].
      cbn [fst snd] in *.
      split; [exact R|]. split; [congruence|]. split; [congruence|].
      split; [exact A''|]. split; [exact Q''|exact N].
    + destruct (Answered (t :: ticks) now self m queue Q E A) as [-> A'].
      cbn [fst snd self_of ticks_of]. split; [discriminate|].
      repeat split; try assumption; try discriminate.
Qed.

(** A polling loop that meets no settling callback goes on to the last
    tick. *)
Lemma quiet_poll (ticks : list (Tick Callback)) :
  forall (now : float) (self : Graphics),
    existsb settles (callbacks ticks) = false ->
    flags self = (false, false, false, false) ->
    _timeout_time_start self = 0 ->
    Forall (fun m => m = SPACE_KEY_ACTION) (_msg_queue self) ->
    snd (fst (poll _autotune_ended ticks now self)) = None
    /\ ticks_of (snd (poll _autotune_ended ticks now self)) = [].
Proof.
  induction ticks as [|t ticks IH]; intros now self Q F T A;
    assert (E : _autotune_ended self = false) by (unfold flags in F; congruence);
    assert (S : _should_stop self now = false)
      by (unfold _should_stop; rewrite T; reflexivity);
    cbn [poll]; rewrite E, S.
  - split; reflexivity.
  - destruct (settles_callbacks_cons _ _ Q) as [Qt Q'].
    destruct (quiet_deliver_all (delivered t) self Qt A) as (F' & T' & A').
    destruct (IH (clock t) (deliver_all (delivered t) self) Q') as (N & K);
      [congruence | congruence | exact A' |].
    destruct (poll _autotune_ended ticks (clock t) (deliver_all (delivered t) self))
      as [[obs exit] w].
    cbn [fst snd] in *. split; assumption.
Qed.

(** X18: without an escape press nothing bounds the waits of a run.  On a
    new object, while no callback is an escape press, the report that a
    procedure ended or the refusal of a request, the run does not return,
    however many ticks pass and whatever their clocks read: it consumes
    every tick and then still waits, at the prompt, in the sleep after it or
    for the autotune procedure; it never gets as far as the calibration
    request. *)
Theorem wait_without_answer (calibration_type : option string) (randomize : option bool)
  (now : float) (ticks : list (Tick Callback)) :
  existsb settles (callbacks ticks) = false ->
  (status (fresh_run calibration_type randomize now ticks) = Blocked AwaitingUserStart
   \/ status (fresh_run calibration_type randomize now ticks) = Blocked Yielding
   \/ status (fresh_run calibration_type randomize now ticks) = Blocked Autotuning)
  /\ ticks_of (world (fresh_run calibration_type randomize now ticks)) = [].
Proof.
  intros Q. unfold fresh_run, runCalibration.
  destruct (quiet_prompt ticks now (new calibration_type randomize) Q (Forall_nil _))
    as (R & F & T & A & Q' & N).
  destruct (_showSystemSetupMessageScreen ticks now (new calibration_type randomize))
    as [[obs res] w].
  cbn [fst snd] in *.
  destruct res as [[|]|]; [| congruence | split; [left; reflexivity | apply N; reflexivity]].
  destruct (ticks_of w) as [|t rest] eqn:K; [split; [right; left; reflexivity | exact K]|].
  cbn [negb].
  destruct (settles_callbacks_cons _ _ Q') as [Qt Q''].
  destruct (quiet_deliver_all (delivered t) (self_of w) Qt A) as (F' & T' & A').
  unfold autotune_phase. cbn [self_of now_of ticks_of].
  destruct (quiet_poll rest (clock t) (deliver_all (delivered t) (self_of w)) Q'')
    as (Exit & Rest);
    [rewrite F', F; reflexivity | rewrite T', T; reflexivity | exact A' |].
  destruct (poll _autotune_ended rest (clock t) (deliver_all (delivered t) (self_of w)))
    as [[obs' exit] w'].
  cbn [fst snd] in *. subst exit. cbn [status world].
  split; [right; right; reflexivity | exact Rest].
Qed.

End RunFacts.

Lemma runCalibration_raises_unbound_witness :
  CalibrationGraphics.status
    (CalibrationGraphics.runCalibration (CalibrationGraphics.new (Some "TWO_POINTS"%string) None)
       0 CalibrationSpec.ticks_success)
  = CalibrationGraphics.Raised UnboundLocalError
  /\ CalibrationSpec.requests
       (CalibrationGraphics.trace
          (CalibrationGraphics.runCalibration
             (CalibrationGraphics.new (Some "TWO_POINTS"%string) None)
             0 CalibrationSpec.ticks_success))
     = [CalibrationGraphics.autotune_gui].
Proof.
  assert (Raised :
    CalibrationGraphics.status
      (CalibrationGraphics.runCalibration
         (CalibrationGraphics.new (Some "TWO_POINTS"%string) None)
         0 CalibrationSpec.ticks_success)
    = CalibrationGraphics.Raised UnboundLocalError) by (vm_compute; reflexivity).
  split; [exact Raised|].
  exact (proj1 (proj2 (runCalibration_raises_unbound _ _ _ _ Raised))).
Defined.

Lemma prompt_answered_by_first_key_witness :
  snd (fst (CalibrationGraphics._showSystemSetupMessageScreen CalibrationSpec.ticks_escape 0
              CalibrationSpec.nine_points))
  = Some false.
Proof.
  exact (proj1 (prompt_answered_by_first_key CalibrationSpec.ticks_escape 0
                  CalibrationSpec.nine_points eq_refl)).
Defined.

Lemma wait_without_answer_witness :
  CalibrationGraphics.ticks_of
    (CalibrationGraphics.world
       (CalibrationSpec.fresh_run (Some "NINE_POINTS"%string) (Some true) 0
          CalibrationSpec.ticks_silent))
  = [].
Proof.
  assert (Quiet : existsb CalibrationSpec.settles
                    (CalibrationSpec.callbacks CalibrationSpec.ticks_silent) = false)
    by (vm_compute; reflexivity).
  exact (proj2 (wait_without_answer (Some "NINE_POINTS"%string) (Some true) 0
                  CalibrationSpec.ticks_silent Quiet)).
Defined.
